(** * chan_local.c: the Local proxy channel driver

    A shallow embedding of [channels/chan_local.c].  A Local channel is a
    pair of back-to-back [ast_channel]s (the [owner], suffix ;1, and the
    outbound [chan], suffix ;2) sharing one [local_pvt].

    The C heap is explicit: channels and pvts live in finite maps from
    addresses to structures, a pointer is an address, a nullable pointer an
    [option].  Dereferencing an address that holds no object is a [Fault].
    One thread's execution is modelled; what other threads do is visible
    at the points where the code itself backs off (unlock, [usleep],
    relock): each back-off applies the next step of an interference
    schedule, and a retry loop that outlasts the schedule is [Starved].
    Hanging up a channel of the driver from within [local_hangup] enters
    [local_hangup] again; the calls nest as deep as a counter allows. *)

From Stdlib Require Import ZArith Ascii String List Lia.
From stdpp Require Import base option list gmap strings.

Local Open Scope string_scope.
Local Open Scope Z_scope.

(* ================================================================== *)
(** ** C strings *)

(** A [string] stands for a NUL-terminated C string: the characters
    before the terminator. *)
Module CStr.

(** [strchr s c]: offset of the first [c] in [s]. *)
Fixpoint strchr (s : string) (c : ascii) : option nat :=
  match s with
  | EmptyString => None
  | String a s' => if Ascii.eqb a c then Some O else S <$> strchr s' c
  end.

(** [strrchr s c]: offset of the last [c] in [s]. *)
Fixpoint strrchr (s : string) (c : ascii) : option nat :=
  match s with
  | EmptyString => None
  | String a s' =>
      match strrchr s' c with
      | Some i => Some (S i)
      | None => if Ascii.eqb a c then Some O else None
      end
  end.

(** The string read at [s] once a NUL has been stored at offset [n]. *)
Fixpoint cut (n : nat) (s : string) : string :=
  match n, s with
  | O, _ => EmptyString
  | S n', String a s' => String a (cut n' s')
  | S _, EmptyString => EmptyString
  end.

(** The string read at the pointer [s + n]. *)
Fixpoint from (n : nat) (s : string) : string :=
  match n, s with
  | O, _ => s
  | S n', String _ s' => from n' s'
  | S _, EmptyString => EmptyString
  end.

(** [ast_copy_string(dst, src, size)]: at most [size - 1] characters. *)
Definition ast_copy_string (src : string) (size : nat) : string :=
  cut (size - 1) src.

(** [strcmp(a, b) == 0]. *)
Definition streq (a b : string) : bool := String.eqb a b.

Definition has (s : string) (c : ascii) : bool :=
  match strchr s c with Some _ => true | None => false end.

End CStr.
Export CStr.

(* ================================================================== *)
(** ** Flag words ([ast_test_flag], [ast_set_flag], [ast_clear_flag]) *)

Definition ast_test_flag (flags flag : Z) : bool := negb (Z.land flags flag =? 0).
Definition ast_set_flag (flags flag : Z) : Z := Z.lor flags flag.
Definition ast_clear_flag (flags flag : Z) : Z := Z.land flags (Z.lnot flag).

(** The value an [int], respectively a [uint32_t], holds once [z] has
    been stored in it. *)
Definition to_int (z : Z) : Z := (z + 2 ^ 31) mod 2 ^ 32 - 2 ^ 31.
Definition to_uint32 (z : Z) : Z := z mod 2 ^ 32.

Definition LOCAL_GLARE_DETECT    : Z := Z.shiftl 1 0.
Definition LOCAL_CANCEL_QUEUE    : Z := Z.shiftl 1 1.
Definition LOCAL_ALREADY_MASQED  : Z := Z.shiftl 1 2.
Definition LOCAL_LAUNCHED_PBX    : Z := Z.shiftl 1 3.
Definition LOCAL_NO_OPTIMIZATION : Z := Z.shiftl 1 4.
Definition LOCAL_BRIDGE          : Z := Z.shiftl 1 5.
Definition LOCAL_MOH_PASSTHRU    : Z := Z.shiftl 1 6.

(* ================================================================== *)
(** ** Data model *)

Abbreviation chan_ptr := nat (only parsing).
Abbreviation pvt_ptr := nat (only parsing).

Inductive ast_frame_type :=
| AST_FRAME_DTMF_END | AST_FRAME_VOICE | AST_FRAME_VIDEO | AST_FRAME_CONTROL
| AST_FRAME_NULL | AST_FRAME_IAX | AST_FRAME_TEXT | AST_FRAME_IMAGE
| AST_FRAME_HTML | AST_FRAME_CNG | AST_FRAME_MODEM | AST_FRAME_DTMF_BEGIN.

Definition frame_type_eqb (a b : ast_frame_type) : bool :=
  match a, b with
  | AST_FRAME_DTMF_END, AST_FRAME_DTMF_END | AST_FRAME_VOICE, AST_FRAME_VOICE
  | AST_FRAME_VIDEO, AST_FRAME_VIDEO | AST_FRAME_CONTROL, AST_FRAME_CONTROL
  | AST_FRAME_NULL, AST_FRAME_NULL | AST_FRAME_IAX, AST_FRAME_IAX
  | AST_FRAME_TEXT, AST_FRAME_TEXT | AST_FRAME_IMAGE, AST_FRAME_IMAGE
  | AST_FRAME_HTML, AST_FRAME_HTML | AST_FRAME_CNG, AST_FRAME_CNG
  | AST_FRAME_MODEM, AST_FRAME_MODEM | AST_FRAME_DTMF_BEGIN, AST_FRAME_DTMF_BEGIN => true
  | _, _ => false
  end.

(** The [data] union of a frame. *)
Inductive frame_data :=
| data_none
| data_uint32 (n : Z)
| data_ptr (bytes : string).

Record ast_frame := mk_frame {
  frametype : ast_frame_type;
  subclass : Z;                 (* subclass.integer *)
  datalen : Z;
  data : frame_data;
  len : Z
}.

Inductive ast_channel_state :=
| AST_STATE_DOWN | AST_STATE_RESERVED | AST_STATE_OFFHOOK | AST_STATE_DIALING
| AST_STATE_RING | AST_STATE_RINGING | AST_STATE_UP | AST_STATE_BUSY.

Record ast_party_id := mk_party_id {
  name_valid : bool;
  number_valid : bool;
  number_str : string;
  subaddress_valid : bool
}.

Record ast_party_caller := mk_caller {
  caller_id : ast_party_id;
  caller_ani : ast_party_id
}.

Record ast_party_connected_line := mk_connected {
  connected_id : ast_party_id;
  connected_ani : ast_party_id
}.

Record ast_party_redirecting := mk_redirecting {
  redirecting_from : ast_party_id;
  redirecting_to : ast_party_id
}.

Record ast_party_dialed := mk_dialed {
  dialed_number_str : option string;
  dialed_subaddress_valid : bool
}.

(** A mutex as one thread sees it: how many times this thread holds it
    (Asterisk mutexes are recursive) and whether another thread holds it. *)
Record mutex := mk_mutex {
  held : nat;
  contended : bool
}.

(** The fields of [struct ast_channel] the driver reads or writes. *)
Record ast_channel := mk_chan {
  tech_pvt : option pvt_ptr;
  _bridge : option chan_ptr;
  readq : list ast_frame;
  generator : bool;                      (* generator != NULL *)
  monitor : option nat;
  audiohooks : option nat;
  caller : ast_party_caller;
  connected : ast_party_connected_line;
  redirecting : ast_party_redirecting;
  dialed : ast_party_dialed;
  language : string;
  accountcode : string;
  musicclass : string;
  varshead : list (string * string);
  chan_flags : Z;
  hangupcause : Z;
  _state : ast_channel_state;
  chan_context : string;
  chan_exten : string;
  chan_lock : mutex
}.

Record ast_jb_conf := mk_jb_conf {
  jb_flags : Z;
  max_size : Z;
  resync_threshold : Z;
  impl : string;
  target_extra : Z
}.

Definition g_jb_conf : ast_jb_conf :=
  mk_jb_conf 0 (-1) (-1) EmptyString (-1).

(** [struct local_pvt] (the list linkage is the registry [locals]). *)
Record local_pvt := mk_pvt {
  lock : mutex;
  flags : Z;
  context : string;
  exten : string;
  reqformat : Z;
  jb_conf : ast_jb_conf;
  owner : option chan_ptr;
  chan : option chan_ptr;
  u_owner : option nat;
  u_chan : option nat
}.

Inductive log_level := LOG_NOTICE | LOG_WARNING | LOG_ERROR.

(** Calls into the switch whose effect lies outside the driver. *)
Inductive event :=
| ev_log (level : log_level)
| ev_pvt_destroy (p : pvt_ptr)               (* ast_mutex_destroy + ast_free *)
| ev_masquerade (original clone : chan_ptr)  (* ast_channel_masquerade *)
| ev_group_update (old new : chan_ptr)       (* ast_app_group_update *)
| ev_moh_start (c : chan_ptr)
| ev_moh_stop (c : chan_ptr)
| ev_module_user_remove (u : option nat)
| ev_hangup (c : chan_ptr)                   (* ast_hangup *)
| ev_cdr_update (c : chan_ptr)
| ev_cc_params_init (c from : chan_ptr)
| ev_datastore_inherit (from to : chan_ptr)
| ev_set_cc_interfaces (c : chan_ptr) (dest : string)
| ev_pbx_start (c : chan_ptr).

Record world := mk_world {
  chans : gmap nat ast_channel;
  pvts : gmap nat local_pvt;
  locals : list pvt_ptr;        (* AST_LIST_HEAD_STATIC(locals, local_pvt) *)
  trace : list event
}.

(** What another thread does while this one has backed off. *)
Definition interference := world -> world.
Definition schedule := list interference.

(* ------------------------------------------------------------------ *)
(** Field updates *)

Definition set_held (n : nat) (m : mutex) : mutex := mk_mutex n (contended m).

Definition set_lock (x : mutex) (pv : local_pvt) : local_pvt :=
  mk_pvt
    x (flags pv) (context pv) (exten pv) (reqformat pv) (jb_conf pv)
    (owner pv) (chan pv) (u_owner pv) (u_chan pv).
Definition set_flags (x : Z) (pv : local_pvt) : local_pvt :=
  mk_pvt
    (lock pv) x (context pv) (exten pv) (reqformat pv) (jb_conf pv)
    (owner pv) (chan pv) (u_owner pv) (u_chan pv).
Definition set_context (x : string) (pv : local_pvt) : local_pvt :=
  mk_pvt
    (lock pv) (flags pv) x (exten pv) (reqformat pv) (jb_conf pv)
    (owner pv) (chan pv) (u_owner pv) (u_chan pv).
Definition set_exten (x : string) (pv : local_pvt) : local_pvt :=
  mk_pvt
    (lock pv) (flags pv) (context pv) x (reqformat pv) (jb_conf pv)
    (owner pv) (chan pv) (u_owner pv) (u_chan pv).
Definition set_reqformat (x : Z) (pv : local_pvt) : local_pvt :=
  mk_pvt
    (lock pv) (flags pv) (context pv) (exten pv) x (jb_conf pv) (owner pv)
    (chan pv) (u_owner pv) (u_chan pv).
Definition set_jb_conf (x : ast_jb_conf) (pv : local_pvt) : local_pvt :=
  mk_pvt
    (lock pv) (flags pv) (context pv) (exten pv) (reqformat pv) x
    (owner pv) (chan pv) (u_owner pv) (u_chan pv).
Definition set_owner (x : option chan_ptr) (pv : local_pvt) : local_pvt :=
  mk_pvt
    (lock pv) (flags pv) (context pv) (exten pv) (reqformat pv)
    (jb_conf pv) x (chan pv) (u_owner pv) (u_chan pv).
Definition set_chan (x : option chan_ptr) (pv : local_pvt) : local_pvt :=
  mk_pvt
    (lock pv) (flags pv) (context pv) (exten pv) (reqformat pv)
    (jb_conf pv) (owner pv) x (u_owner pv) (u_chan pv).

Definition set_jb_flags (x : Z) (jb : ast_jb_conf) : ast_jb_conf :=
  mk_jb_conf x (max_size jb) (resync_threshold jb) (impl jb) (target_extra jb).

Definition set_tech_pvt (x : option pvt_ptr) (c : ast_channel) : ast_channel :=
  mk_chan
    x (_bridge c) (readq c) (generator c) (monitor c) (audiohooks c)
    (caller c) (connected c) (redirecting c) (dialed c) (language c)
    (accountcode c) (musicclass c) (varshead c) (chan_flags c)
    (hangupcause c) (_state c) (chan_context c) (chan_exten c)
    (chan_lock c).
Definition set_readq (x : list ast_frame) (c : ast_channel) : ast_channel :=
  mk_chan
    (tech_pvt c) (_bridge c) x (generator c) (monitor c) (audiohooks c)
    (caller c) (connected c) (redirecting c) (dialed c) (language c)
    (accountcode c) (musicclass c) (varshead c) (chan_flags c)
    (hangupcause c) (_state c) (chan_context c) (chan_exten c)
    (chan_lock c).
Definition set_monitor (x : option nat) (c : ast_channel) : ast_channel :=
  mk_chan
    (tech_pvt c) (_bridge c) (readq c) (generator c) x (audiohooks c)
    (caller c) (connected c) (redirecting c) (dialed c) (language c)
    (accountcode c) (musicclass c) (varshead c) (chan_flags c)
    (hangupcause c) (_state c) (chan_context c) (chan_exten c)
    (chan_lock c).
Definition set_audiohooks (x : option nat) (c : ast_channel) : ast_channel :=
  mk_chan
    (tech_pvt c) (_bridge c) (readq c) (generator c) (monitor c) x
    (caller c) (connected c) (redirecting c) (dialed c) (language c)
    (accountcode c) (musicclass c) (varshead c) (chan_flags c)
    (hangupcause c) (_state c) (chan_context c) (chan_exten c)
    (chan_lock c).
Definition set_caller (x : ast_party_caller) (c : ast_channel) : ast_channel :=
  mk_chan
    (tech_pvt c) (_bridge c) (readq c) (generator c) (monitor c)
    (audiohooks c) x (connected c) (redirecting c) (dialed c) (language c)
    (accountcode c) (musicclass c) (varshead c) (chan_flags c)
    (hangupcause c) (_state c) (chan_context c) (chan_exten c)
    (chan_lock c).
Definition set_connected (x : ast_party_connected_line) (c : ast_channel) : ast_channel :=
  mk_chan
    (tech_pvt c) (_bridge c) (readq c) (generator c) (monitor c)
    (audiohooks c) (caller c) x (redirecting c) (dialed c) (language c)
    (accountcode c) (musicclass c) (varshead c) (chan_flags c)
    (hangupcause c) (_state c) (chan_context c) (chan_exten c)
    (chan_lock c).
Definition set_redirecting (x : ast_party_redirecting) (c : ast_channel) : ast_channel :=
  mk_chan
    (tech_pvt c) (_bridge c) (readq c) (generator c) (monitor c)
    (audiohooks c) (caller c) (connected c) x (dialed c) (language c)
    (accountcode c) (musicclass c) (varshead c) (chan_flags c)
    (hangupcause c) (_state c) (chan_context c) (chan_exten c)
    (chan_lock c).
Definition set_dialed (x : ast_party_dialed) (c : ast_channel) : ast_channel :=
  mk_chan
    (tech_pvt c) (_bridge c) (readq c) (generator c) (monitor c)
    (audiohooks c) (caller c) (connected c) (redirecting c) x (language c)
    (accountcode c) (musicclass c) (varshead c) (chan_flags c)
    (hangupcause c) (_state c) (chan_context c) (chan_exten c)
    (chan_lock c).
Definition set_language (x : string) (c : ast_channel) : ast_channel :=
  mk_chan
    (tech_pvt c) (_bridge c) (readq c) (generator c) (monitor c)
    (audiohooks c) (caller c) (connected c) (redirecting c) (dialed c) x
    (accountcode c) (musicclass c) (varshead c) (chan_flags c)
    (hangupcause c) (_state c) (chan_context c) (chan_exten c)
    (chan_lock c).
Definition set_accountcode (x : string) (c : ast_channel) : ast_channel :=
  mk_chan
    (tech_pvt c) (_bridge c) (readq c) (generator c) (monitor c)
    (audiohooks c) (caller c) (connected c) (redirecting c) (dialed c)
    (language c) x (musicclass c) (varshead c) (chan_flags c)
    (hangupcause c) (_state c) (chan_context c) (chan_exten c)
    (chan_lock c).
Definition set_musicclass (x : string) (c : ast_channel) : ast_channel :=
  mk_chan
    (tech_pvt c) (_bridge c) (readq c) (generator c) (monitor c)
    (audiohooks c) (caller c) (connected c) (redirecting c) (dialed c)
    (language c) (accountcode c) x (varshead c) (chan_flags c)
    (hangupcause c) (_state c) (chan_context c) (chan_exten c)
    (chan_lock c).
Definition set_varshead (x : list (string * string)) (c : ast_channel) : ast_channel :=
  mk_chan
    (tech_pvt c) (_bridge c) (readq c) (generator c) (monitor c)
    (audiohooks c) (caller c) (connected c) (redirecting c) (dialed c)
    (language c) (accountcode c) (musicclass c) x (chan_flags c)
    (hangupcause c) (_state c) (chan_context c) (chan_exten c)
    (chan_lock c).
Definition set_chan_flags (x : Z) (c : ast_channel) : ast_channel :=
  mk_chan
    (tech_pvt c) (_bridge c) (readq c) (generator c) (monitor c)
    (audiohooks c) (caller c) (connected c) (redirecting c) (dialed c)
    (language c) (accountcode c) (musicclass c) (varshead c) x
    (hangupcause c) (_state c) (chan_context c) (chan_exten c)
    (chan_lock c).
Definition set_state (x : ast_channel_state) (c : ast_channel) : ast_channel :=
  mk_chan
    (tech_pvt c) (_bridge c) (readq c) (generator c) (monitor c)
    (audiohooks c) (caller c) (connected c) (redirecting c) (dialed c)
    (language c) (accountcode c) (musicclass c) (varshead c) (chan_flags c)
    (hangupcause c) x (chan_context c) (chan_exten c) (chan_lock c).
Definition set_chan_lock (x : mutex) (c : ast_channel) : ast_channel :=
  mk_chan
    (tech_pvt c) (_bridge c) (readq c) (generator c) (monitor c)
    (audiohooks c) (caller c) (connected c) (redirecting c) (dialed c)
    (language c) (accountcode c) (musicclass c) (varshead c) (chan_flags c)
    (hangupcause c) (_state c) (chan_context c) (chan_exten c) x.

Definition set_chans (x : gmap nat ast_channel) (w : world) : world :=
  mk_world x (pvts w) (locals w) (trace w).
Definition set_pvts (x : gmap nat local_pvt) (w : world) : world :=
  mk_world (chans w) x (locals w) (trace w).
Definition set_locals (x : list pvt_ptr) (w : world) : world :=
  mk_world (chans w) (pvts w) x (trace w).
Definition set_trace (x : list event) (w : world) : world :=
  mk_world (chans w) (pvts w) (locals w) x.

(* ================================================================== *)
(** ** The monad of driver code: state, faults and starvation *)

Inductive outcome (A : Type) : Type :=
| Ret (a : A) (w : world)   (* returned [a], leaving the world [w] *)
| Fault                     (* dereferenced a pointer to no live object *)
| Starved.                  (* a retry loop outlasted the schedule,
                               or nested calls the depth allowed *)
Arguments Ret {A} a w.
Arguments Fault {A}.
Arguments Starved {A}.

Definition M (A : Type) : Type := world -> outcome A.

Definition ret {A} (a : A) : M A := fun w => Ret a w.
Definition bind {A B} (m : M A) (k : A -> M B) : M B :=
  fun w => match m w with
           | Ret a w' => k a w'
           | Fault => Fault
           | Starved => Starved
           end.

Declare Scope drv_scope.
Delimit Scope drv_scope with drv.
Notation "'let*' x ':=' m 'in' k" := (bind m (fun x => k))
  (at level 10, x name, m at level 100, k at level 200) : drv_scope.
Notation "'let*' ' pat ':=' m 'in' k" := (bind m (fun x => match x with pat => k end))
  (at level 10, pat pattern, m at level 100, k at level 200) : drv_scope.
Notation "m ;; k" := (bind m (fun _ => k))
  (at level 100, k at level 200, right associativity) : drv_scope.
Local Open Scope drv_scope.

Definition get : M world := fun w => Ret w w.
Definition modify (f : world -> world) : M unit := fun w => Ret tt (f w).
Definition fault {A} : M A := fun _ => Fault.
Definition starved {A} : M A := fun _ => Starved.

(** [*c] and [*p], reading and writing. *)
Definition load_chan (c : chan_ptr) : M ast_channel :=
  fun w => match chans w !! c with Some ch => Ret ch w | None => Fault end.
Definition store_chan (c : chan_ptr) (ch : ast_channel) : M unit :=
  modify (fun w => set_chans (<[c := ch]> (chans w)) w).
Definition load_pvt (p : pvt_ptr) : M local_pvt :=
  fun w => match pvts w !! p with Some pv => Ret pv w | None => Fault end.
Definition store_pvt (p : pvt_ptr) (pv : local_pvt) : M unit :=
  modify (fun w => set_pvts (<[p := pv]> (pvts w)) w).
Definition update_chan (c : chan_ptr) (f : ast_channel -> ast_channel) : M unit :=
  let* ch := load_chan c in store_chan c (f ch).
Definition update_pvt (p : pvt_ptr) (f : local_pvt -> local_pvt) : M unit :=
  let* pv := load_pvt p in store_pvt p (f pv).

Definition emit (e : event) : M unit :=
  modify (fun w => set_trace (trace w ++ [e]) w).

Definition when (b : bool) (m : M unit) : M unit := if b then m else ret tt.

(** [usleep(1)] with the locks given up: the other threads take the
    next step of the schedule. *)
Definition yield (e : interference) : M unit := modify e.

(* ================================================================== *)
(** ** What the driver takes from the switch *)

(** Constants of the Asterisk headers and functions of the core that
    [chan_local.c] uses but does not define. *)
Class Switch := {
  AST_MAX_EXTENSION : nat;
  AST_MAX_CONTEXT : nat;
  AST_JB_ENABLED : Z;
  AST_FLAG_ANSWERED_ELSEWHERE : Z;
  AST_OPTION_T38_STATE : Z;
  AST_CONTROL_HANGUP : Z;
  AST_CONTROL_RINGING : Z;
  AST_CONTROL_ANSWER : Z;
  AST_CONTROL_HOLD : Z;
  AST_CONTROL_UNHOLD : Z;
  AST_CONTROL_CONNECTED_LINE : Z;
  AST_CONTROL_REDIRECTING : Z;
  (** [ast_calloc(1, sizeof(struct local_pvt))]: an address, or NULL *)
  ast_calloc : world -> option pvt_ptr;
  (** [ast_exists_extension(NULL, context, exten, priority, callerid)] *)
  ast_exists_extension : string -> string -> Z -> option string -> bool;
  (** [ast_bridged_channel(chan)]: the bridge partner, resolved through
      the partner's own [bridged_channel] callback *)
  ast_bridged_channel : world -> chan_ptr -> option chan_ptr;
  ast_check_hangup : world -> chan_ptr -> bool;
  (** [ast_channel_queryoption(chan, option, data, datalen, 0)] *)
  ast_channel_queryoption : world -> chan_ptr -> Z -> Z;
  ast_pbx_start : world -> chan_ptr -> Z;
  (** [ast_connected_line_copy_to_caller(dest, src)], the new [*dest] *)
  ast_connected_line_copy_to_caller :
    ast_party_caller -> ast_party_connected_line -> ast_party_caller;
  ast_connected_line_copy_from_caller :
    ast_party_connected_line -> ast_party_caller -> ast_party_connected_line;
  (** the bytes built and their length *)
  ast_connected_line_build_data : ast_party_connected_line -> string * Z;
  ast_redirecting_build_data : ast_party_redirecting -> string * Z
}.

(* ------------------------------------------------------------------ *)
(** Locks *)

Definition acquire (m : mutex) : mutex := set_held (S (held m)) m.
Definition release (m : mutex) : mutex := set_held (Nat.pred (held m)) m.

Definition pvt_locked (pv : local_pvt) : local_pvt := set_lock (acquire (lock pv)) pv.
Definition pvt_unlocked (pv : local_pvt) : local_pvt := set_lock (release (lock pv)) pv.
Definition chan_locked (ch : ast_channel) : ast_channel :=
  set_chan_lock (acquire (chan_lock ch)) ch.
Definition chan_unlocked (ch : ast_channel) : ast_channel :=
  set_chan_lock (release (chan_lock ch)) ch.

(** [ast_mutex_lock(&p->lock)]; the wait for another holder is not
    modelled, [contended] only answers the trylocks. *)
Definition ast_mutex_lock (p : pvt_ptr) : M unit :=
  update_pvt p pvt_locked.

(** [ast_mutex_unlock(&p->lock)]: 0, or an error code when this thread
    does not hold the mutex. *)
Definition ast_mutex_unlock (p : pvt_ptr) : M Z :=
  let* pv := load_pvt p in
  match held (lock pv) with
  | O => ret 1
  | S _ => store_pvt p (pvt_unlocked pv) ;; ret 0
  end.

(** [ast_mutex_trylock(&p->lock)]: 0 when acquired. *)
Definition ast_mutex_trylock (p : pvt_ptr) : M Z :=
  let* pv := load_pvt p in
  if contended (lock pv) then ret 1
  else store_pvt p (pvt_locked pv) ;; ret 0.

Definition ast_channel_lock (c : chan_ptr) : M unit :=
  update_chan c chan_locked.

Definition ast_channel_unlock (c : chan_ptr) : M unit :=
  update_chan c chan_unlocked.

(** [ast_channel_trylock(c)]: 0 when acquired. *)
Definition ast_channel_trylock (c : chan_ptr) : M Z :=
  let* ch := load_chan c in
  if contended (chan_lock ch) then ret 1
  else store_chan c (chan_locked ch) ;; ret 0.

(** Modelled from the spec: [DEADLOCK_AVOIDANCE(&p->lock)], the
    "release pair mutex and sleep" primitive of lock.h, relocking after. *)
Definition DEADLOCK_AVOIDANCE (p : pvt_ptr) (e : interference) : M unit :=
  ast_mutex_unlock p ;; yield e ;; ast_mutex_lock p.

(** Modelled from the spec: [CHANNEL_DEADLOCK_AVOIDANCE(chan)] of
    channel.h, which "briefly releases and reacquires" the channel's lock
    "yielding to others". *)
Definition CHANNEL_DEADLOCK_AVOIDANCE (c : chan_ptr) (e : interference) : M unit :=
  ast_channel_unlock c ;; yield e ;; ast_channel_lock c.

(* ------------------------------------------------------------------ *)
(** Channel services with an effect on the modelled fields *)

(** Modelled from the spec: [ast_queue_frame(chan, f)] of channel.c,
    "enqueue the frame on other's inbound queue". *)
Definition ast_queue_frame (c : chan_ptr) (f : ast_frame) : M unit :=
  update_chan c (fun ch => set_readq (readq ch ++ [f]) ch).

(** Modelled from the spec: [ast_setstate(chan, state)] of channel.c. *)
Definition ast_setstate (c : chan_ptr) (st : ast_channel_state) : M unit :=
  update_chan c (set_state st).

(** Modelled from the spec: [pbx_builtin_getvar_helper(chan, name)] of
    pbx.c, the value of a channel variable. *)
Definition pbx_builtin_getvar_helper (ch : ast_channel) (name : string) : option string :=
  snd <$> List.find (fun kv => streq (fst kv) name) (varshead ch).

(** Modelled from the spec: [pbx_builtin_setvar_helper(chan, name, value)]
    of pbx.c: the variable replaces one of the same name, at the head. *)
Definition pbx_builtin_setvar_helper (c : chan_ptr) (name value : string) : M unit :=
  update_chan c (fun ch =>
    set_varshead ((name, value) :: List.filter (fun kv => negb (streq (fst kv) name)) (varshead ch)) ch).

Section Driver.
Context `{Switch}.

Definition IS_OUTBOUND (a : chan_ptr) (b : local_pvt) : bool :=
  bool_decide (Some a = chan b).

(** Modelled from the spec: [ast_queue_hangup(chan)] of channel.c,
    "enqueue a hangup frame toward it". *)
Definition ast_queue_hangup (c : chan_ptr) : M unit :=
  ast_queue_frame c (mk_frame AST_FRAME_CONTROL AST_CONTROL_HANGUP 0 data_none 0).

(* ================================================================== *)
(** ** The driver *)

Inductive ast_device_state :=
| AST_DEVICE_UNKNOWN | AST_DEVICE_NOT_INUSE | AST_DEVICE_INUSE
| AST_DEVICE_BUSY | AST_DEVICE_INVALID.

(** Lines 162-171 of [local_devicestate]: the extension and context it
    works with, [None] when there is no '@'. *)
Definition devicestate_parse (data : string) : option (string * string) :=
  let ext := data in                       (* ast_strdupa(data) *)
  match strchr ext "@" with
  | None => None
  | Some i =>
      let ctx := from (S i) ext in         (* *context++ = 0 *)
      let ext := cut i ext in
      (* Strip options if they exist *)
      let ctx :=
        match strchr ctx "/" with
        | Some j => cut j ctx
        | None => ctx
        end in
      Some (ext, ctx)
  end.

(** [AST_LIST_TRAVERSE(&locals, lp, list)] of [local_devicestate]. *)
Fixpoint devicestate_traverse (ext ctx : string) (l : list pvt_ptr)
  : M ast_device_state :=
  match l with
  | [] => ret AST_DEVICE_NOT_INUSE
  | lp :: rest =>
      let* pv := load_pvt lp in
      if streq ext (exten pv) && streq ctx (context pv)
         && bool_decide (owner pv <> None)
      then ret AST_DEVICE_INUSE
      else devicestate_traverse ext ctx rest
  end.

Definition local_devicestate (data : string) : M ast_device_state :=
  match devicestate_parse data with
  | None => emit (ev_log LOG_WARNING) ;; ret AST_DEVICE_INVALID
  | Some (ext, ctx) =>
      if negb (ast_exists_extension ctx ext 1 None)
      then ret AST_DEVICE_INVALID
      else let* w := get in devicestate_traverse ext ctx (locals w)
  end.

(** [local_pvt_destroy]: the pvt is gone from the heap. *)
Definition local_pvt_destroy (pvt : pvt_ptr) : M (option pvt_ptr) :=
  load_pvt pvt ;;
  modify (fun w => set_pvts (delete pvt (pvts w)) w) ;;
  emit (ev_pvt_destroy pvt) ;;
  ret None.

Definition local_bridgedchannel (ch bridge : chan_ptr) : M (option chan_ptr) :=
  let* b := load_chan bridge in
  match tech_pvt b with
  | None => ret None
  | Some p =>
      ast_mutex_lock p ;;
      let* pv := load_pvt p in
      let* bridged :=
        if ast_test_flag (flags pv) LOCAL_BRIDGE then
          (* Find the opposite channel *)
          let bridged := if bool_decide (Some bridge = owner pv)
                         then pv.(chan) else owner pv in
          (* Now see if the opposite channel is bridged to anything *)
          match bridged with
          | None => ret (Some bridge)
          | Some o =>
              let* och := load_chan o in
              match _bridge och with
              | Some far => ret (Some far)
              | None => ret (Some o)
              end
          end
        else ret (Some bridge) in
      ast_mutex_unlock p ;;
      ret bridged
  end.

Definition local_queryoption_far (ast : chan_ptr) (p : pvt_ptr) : M (option chan_ptr) :=
  let* pv := load_pvt p in
  ret (if IS_OUTBOUND ast pv then owner pv else chan pv).

(** The [try_again:] loop of [local_queryoption], entered with [far] in
    [chan]; every [goto try_again] follows a back-off. *)
Fixpoint local_queryoption_try_again (sched : schedule) (ast : chan_ptr)
    (p : pvt_ptr) (opt : Z) (far : option chan_ptr) : M (Z * schedule) :=
  match far with
  | None => ast_mutex_unlock p ;; ret (-1, sched)
  | Some c =>
      let* busy := ast_channel_trylock c in
      if negb (busy =? 0) then
        match sched with
        | [] => starved
        | e :: rest =>
            DEADLOCK_AVOIDANCE p e ;;
            let* far' := local_queryoption_far ast p in
            local_queryoption_try_again rest ast p opt far'
        end
      else
        let* w := get in
        match ast_bridged_channel w c with
        | None =>
            (* can't query channel unless we are bridged *)
            ast_mutex_unlock p ;; ast_channel_unlock c ;; ret (-1, sched)
        | Some bridged =>
            let* busy := ast_channel_trylock bridged in
            if negb (busy =? 0) then
              ast_channel_unlock c ;;
              match sched with
              | [] => starved
              | e :: rest =>
                  DEADLOCK_AVOIDANCE p e ;;
                  let* far' := local_queryoption_far ast p in
                  local_queryoption_try_again rest ast p opt far'
              end
            else
              let* w := get in
              let res := ast_channel_queryoption w bridged opt in
              ast_mutex_unlock p ;;
              ast_channel_unlock c ;;
              ast_channel_unlock bridged ;;
              ret (res, sched)
        end
  end.

Definition local_queryoption (sched : schedule) (ast : chan_ptr) (opt : Z)
  : M (Z * schedule) :=
  let* a := load_chan ast in
  match tech_pvt a with
  | None => ret (-1, sched)
  | Some p =>
      if negb (opt =? AST_OPTION_T38_STATE) then
        (* AST_OPTION_T38_STATE is the only supported option at this time *)
        ret (-1, sched)
      else
        ast_mutex_lock p ;;
        let* far := local_queryoption_far ast p in
        local_queryoption_try_again sched ast p opt far
  end.

(* ------------------------------------------------------------------ *)
(** [local_queue_frame] *)

(** How the first half of [local_queue_frame] (lines 291-321) ends. *)
Inductive acquired :=
| Returned (res : Z)                    (* it returned [res] *)
| Holding (other : option chan_ptr).    (* [other] is locked, or NULL *)

Definition queue_frame_other (p : pvt_ptr) (isoutbound : bool) : M (option chan_ptr) :=
  let* pv := load_pvt p in
  ret (if isoutbound then owner pv else chan pv).

(** The test of the [while] at line 306 and the start of its body;
    [backoff] is the rest of the body and the iterations after it. *)
Definition queue_frame_trylock (p : pvt_ptr) (other : option chan_ptr)
    (rest : schedule) (backoff : M (acquired * schedule)) : M (acquired * schedule) :=
  match other with
  | None => ret (Holding None, rest)
  | Some o =>
      let* busy := ast_channel_trylock o in
      if busy =? 0 then ret (Holding (Some o), rest)
      else
        let* res := ast_mutex_unlock p in
        if negb (res =? 0) then emit (ev_log LOG_ERROR) ;; ret (Returned (-1), rest)
        else backoff
  end.

Fixpoint queue_frame_backoff (sched : schedule) (p : pvt_ptr) (isoutbound : bool)
    (us : option chan_ptr) (us_locked : bool) : M (acquired * schedule) :=
  match sched with
  | [] => starved
  | e :: rest =>
      match us, us_locked with
      | Some u, true =>
          (* do { CHANNEL_DEADLOCK_AVOIDANCE(us); } while (ast_mutex_trylock(&p->lock)); *)
          CHANNEL_DEADLOCK_AVOIDANCE u e ;;
          let* busy := ast_mutex_trylock p in
          if negb (busy =? 0) then queue_frame_backoff rest p isoutbound us us_locked
          else
            let* other := queue_frame_other p isoutbound in
            queue_frame_trylock p other rest
              (queue_frame_backoff rest p isoutbound us us_locked)
      | _, _ =>
          yield e ;;                     (* usleep(1) *)
          ast_mutex_lock p ;;
          let* other := queue_frame_other p isoutbound in
          queue_frame_trylock p other rest
            (queue_frame_backoff rest p isoutbound us us_locked)
      end
  end.

(** Lines 291-321: up to the end of the lock loop. *)
Definition local_queue_frame_acquire (sched : schedule) (p : pvt_ptr)
    (isoutbound : bool) (us : option chan_ptr) (us_locked : bool)
  : M (acquired * schedule) :=
  (* Recalculate outbound channel *)
  let* other := queue_frame_other p isoutbound in
  match other with
  | None => ret (Returned 0, sched)
  | Some o =>
      (* do not queue frame if generator is on both local channels *)
      let* us_gen :=
        match us with
        | Some u => let* uch := load_chan u in ret (generator uch)
        | None => ret false
        end in
      let* both_gen :=
        if us_gen then let* och := load_chan o in ret (generator och) else ret false in
      if both_gen then ret (Returned 0, sched)
      else
        (* Set glare detection *)
        update_pvt p (fun pv => set_flags (ast_set_flag (flags pv) LOCAL_GLARE_DETECT) pv) ;;
        (* Ensure that we have both channels locked *)
        queue_frame_trylock p (Some o) sched
          (queue_frame_backoff sched p isoutbound us us_locked)
  end.

(** Lines 326-347: after the lock loop. *)
Definition local_queue_frame_deliver (p : pvt_ptr) (other : option chan_ptr)
    (f : option ast_frame) : M Z :=
  let* pv := load_pvt p in
  if ast_test_flag (flags pv) LOCAL_CANCEL_QUEUE then
    (* We had a glare on the hangup.  Forget all this business,
       return and destroy p. *)
    ast_mutex_unlock p ;;
    local_pvt_destroy p ;;
    match other with
    | Some o => ast_channel_unlock o
    | None => ret tt
    end ;;
    ret (-1)
  else
    match other with
    | Some o =>
        let* fr := match f with Some fr => ret fr | None => fault end in
        when (frame_type_eqb (frametype fr) AST_FRAME_CONTROL
              && (subclass fr =? AST_CONTROL_RINGING))
          (ast_setstate o AST_STATE_RINGING) ;;
        ast_queue_frame o fr ;;
        ast_channel_unlock o
    | None => ret tt
    end ;;
    update_pvt p (fun pv => set_flags (ast_clear_flag (flags pv) LOCAL_GLARE_DETECT) pv) ;;
    ret 0.

Definition local_queue_frame (sched : schedule) (p : pvt_ptr) (isoutbound : bool)
    (f : option ast_frame) (us : option chan_ptr) (us_locked : bool)
  : M (Z * schedule) :=
  let* '(a, rest) := local_queue_frame_acquire sched p isoutbound us us_locked in
  match a with
  | Returned res => ret (res, rest)
  | Holding other =>
      let* res := local_queue_frame_deliver p other f in
      ret (res, rest)
  end.

(** [if (!res) ast_mutex_unlock(&p->lock);] *)
Definition unlock_unless_failed (p : pvt_ptr) (res : Z) : M unit :=
  if res =? 0 then ast_mutex_unlock p ;; ret tt else ret tt.

Definition local_answer (sched : schedule) (ast : chan_ptr) : M (Z * schedule) :=
  let* a := load_chan ast in
  match tech_pvt a with
  | None => ret (-1, sched)
  | Some p =>
      ast_mutex_lock p ;;
      let* pv := load_pvt p in
      let isoutbound := IS_OUTBOUND ast pv in
      let* '(res, rest) :=
        if isoutbound then
          (* Pass along answer since somebody answered us *)
          let answer := mk_frame AST_FRAME_CONTROL AST_CONTROL_ANSWER 0 data_none 0 in
          local_queue_frame sched p isoutbound (Some answer) (Some ast) true
        else
          emit (ev_log LOG_WARNING) ;; ret (-1, sched) in
      unlock_unless_failed p res ;;
      ret (res, rest)
  end.

(* ------------------------------------------------------------------ *)
(** [check_bridge] and [local_write] *)

Definition party_id_any_valid (i : ast_party_id) : bool :=
  name_valid i || number_valid i || subaddress_valid i.

(** The body of the innermost [if] of [check_bridge], lines 396-446:
    the pre-swaps, the group update and the masquerade of the bridged
    channel [b] into the owner [o]. *)
Definition check_bridge_masquerade (p : pvt_ptr) (c o b : chan_ptr) : M unit :=
  let* och := load_chan o in
  let* bch := load_chan b in
  when (bool_decide (monitor och <> None) && bool_decide (monitor bch = None))
    (let tmp := monitor och in
     update_chan o (set_monitor (monitor bch)) ;;
     update_chan b (set_monitor tmp)) ;;
  let* cch := load_chan c in
  when (bool_decide (audiohooks cch <> None))
    (let audiohooks_swapper := audiohooks cch in
     let* och := load_chan o in
     update_chan c (set_audiohooks (audiohooks och)) ;;
     update_chan o (set_audiohooks audiohooks_swapper)) ;;
  let* och := load_chan o in
  when (party_id_any_valid (caller_id (caller och))
        || party_id_any_valid (caller_ani (caller och)))
    (let tmp := caller och in
     let* bch := load_chan b in
     update_chan o (set_caller (caller bch)) ;;
     update_chan b (set_caller tmp)) ;;
  let* och := load_chan o in
  when (party_id_any_valid (redirecting_from (redirecting och))
        || party_id_any_valid (redirecting_to (redirecting och)))
    (let tmp := redirecting och in
     let* bch := load_chan b in
     update_chan o (set_redirecting (redirecting bch)) ;;
     update_chan b (set_redirecting tmp)) ;;
  let* och := load_chan o in
  when (bool_decide (dialed_number_str (dialed och) <> None)
        || dialed_subaddress_valid (dialed och))
    (let tmp := dialed och in
     let* bch := load_chan b in
     update_chan o (set_dialed (dialed bch)) ;;
     update_chan b (set_dialed tmp)) ;;
  emit (ev_group_update c o) ;;
  emit (ev_masquerade o b) ;;
  update_pvt p (fun pv => set_flags (ast_set_flag (flags pv) LOCAL_ALREADY_MASQED) pv).

Definition check_bridge (p : pvt_ptr) : M unit :=
  let* pv := load_pvt p in
  if ast_test_flag (flags pv) LOCAL_ALREADY_MASQED
     || ast_test_flag (flags pv) LOCAL_NO_OPTIMIZATION then ret tt
  else
    match chan pv with
    | None => ret tt
    | Some c =>
    match owner pv with
    | None => ret tt
    | Some o =>
        let* cch := load_chan c in
        let* w := get in
        if negb (bool_decide (_bridge cch = ast_bridged_channel w c)) then ret tt
        else
          match _bridge cch (* Not ast_bridged_channel!  Only go one step! *) with
          | None => ret tt
          | Some b =>
              let* och := load_chan o in
              match readq och with
              | _ :: _ => ret tt
              | [] =>
                  (* Lock everything we need, one by one, and give up if
                     we can't get everything. *)
                  let* busy := ast_channel_trylock b in
                  if negb (busy =? 0) then ret tt
                  else
                    let* w := get in
                    if ast_check_hangup w b then ret tt   (* returns holding b's lock *)
                    else
                      let* busy := ast_channel_trylock o in
                      when (busy =? 0)
                        (let* w := get in
                         when (negb (ast_check_hangup w o))
                           (check_bridge_masquerade p c o b) ;;
                         ast_channel_unlock o) ;;
                      ast_channel_unlock b
              end
          end
    end
    end.

Definition is_media (f : option ast_frame) : bool :=
  match f with
  | Some fr => frame_type_eqb (frametype fr) AST_FRAME_VOICE
               || frame_type_eqb (frametype fr) AST_FRAME_VIDEO
  | None => false
  end.

Definition local_write (sched : schedule) (ast : chan_ptr) (f : option ast_frame)
  : M (Z * schedule) :=
  let* a := load_chan ast in
  match tech_pvt a with
  | None => ret (-1, sched)
  | Some p =>
      (* Just queue for delivery to the other side *)
      ast_mutex_lock p ;;
      let* pv := load_pvt p in
      let isoutbound := IS_OUTBOUND ast pv in
      when (isoutbound && is_media f) (check_bridge p) ;;
      let* pv := load_pvt p in
      let* '(res, rest) :=
        if negb (ast_test_flag (flags pv) LOCAL_ALREADY_MASQED)
        then local_queue_frame sched p isoutbound f (Some ast) true
        else ret (0, sched) in
      unlock_unless_failed p res ;;
      ret (res, rest)
  end.

Definition local_fixup (oldchan newchan : chan_ptr) : M Z :=
  let* n := load_chan newchan in
  match tech_pvt n with
  | None => ret (-1)
  | Some p =>
      ast_mutex_lock p ;;
      let* pv := load_pvt p in
      if bool_decide (owner pv <> Some oldchan) && bool_decide (chan pv <> Some oldchan) then
        emit (ev_log LOG_WARNING) ;;
        ast_mutex_unlock p ;;
        ret (-1)
      else
        (if bool_decide (owner pv = Some oldchan)
         then update_pvt p (set_owner (Some newchan))
         else update_pvt p (set_chan (Some newchan))) ;;
        ast_mutex_unlock p ;;
        ret 0
  end.

(* ------------------------------------------------------------------ *)
(** The entry points that forward one frame *)

(** The common tail [if (!(res = local_queue_frame(...))) unlock]. *)
Definition queue_and_unlock (sched : schedule) (p : pvt_ptr) (isoutbound : bool)
    (f : ast_frame) (us : chan_ptr) (us_locked : bool) : M (Z * schedule) :=
  let* '(res, rest) := local_queue_frame sched p isoutbound (Some f) (Some us) us_locked in
  unlock_unless_failed p res ;;
  ret (res, rest).

Definition local_indicate (sched : schedule) (ast : chan_ptr) (condition : Z)
    (dat : frame_data) (dlen : Z) : M (Z * schedule) :=
  let* a := load_chan ast in
  match tech_pvt a with
  | None => ret (-1, sched)
  | Some p =>
      let* pv := load_pvt p in
      (* If this is an MOH hold or unhold, do it on the Local channel versus real channel *)
      if negb (ast_test_flag (flags pv) LOCAL_MOH_PASSTHRU) && (condition =? AST_CONTROL_HOLD) then
        emit (ev_moh_start ast) ;; ret (0, sched)
      else if negb (ast_test_flag (flags pv) LOCAL_MOH_PASSTHRU) && (condition =? AST_CONTROL_UNHOLD) then
        emit (ev_moh_stop ast) ;; ret (0, sched)
      else if (condition =? AST_CONTROL_CONNECTED_LINE) || (condition =? AST_CONTROL_REDIRECTING) then
        ast_mutex_lock p ;;
        let* pv := load_pvt p in
        let isoutbound := IS_OUTBOUND ast pv in
        let this_channel := if isoutbound then chan pv else owner pv in
        let the_other_channel := if isoutbound then owner pv else chan pv in
        match the_other_channel with
        | Some other =>
            let* this := match this_channel with Some t => ret t | None => fault end in
            let* '(frame_data, flen) :=
              if condition =? AST_CONTROL_CONNECTED_LINE then
                when isoutbound
                  (let* tch := load_chan this in
                   update_chan other (fun och =>
                     set_caller (ast_connected_line_copy_to_caller (caller och) (connected tch)) och)) ;;
                let* tch := load_chan this in
                ret (ast_connected_line_build_data (connected tch))
              else
                let* tch := load_chan this in
                ret (ast_redirecting_build_data (redirecting tch)) in
            queue_and_unlock sched p isoutbound
              (mk_frame AST_FRAME_CONTROL condition flen (data_ptr frame_data) 0) ast true
        | None => ast_mutex_unlock p ;; ret (0, sched)
        end
      else
        (* Queue up a frame representing the indication as a control frame *)
        ast_mutex_lock p ;;
        let* pv := load_pvt p in
        queue_and_unlock sched p (IS_OUTBOUND ast pv)
          (mk_frame AST_FRAME_CONTROL condition (to_int dlen) dat 0) ast true
  end.

Definition local_digit_begin (sched : schedule) (ast : chan_ptr) (digit : Z)
  : M (Z * schedule) :=
  let* a := load_chan ast in
  match tech_pvt a with
  | None => ret (-1, sched)
  | Some p =>
      ast_mutex_lock p ;;
      let* pv := load_pvt p in
      queue_and_unlock sched p (IS_OUTBOUND ast pv)
        (mk_frame AST_FRAME_DTMF_BEGIN digit 0 data_none 0) ast false
  end.

Definition local_digit_end (sched : schedule) (ast : chan_ptr) (digit : Z)
    (duration : Z) : M (Z * schedule) :=
  let* a := load_chan ast in
  match tech_pvt a with
  | None => ret (-1, sched)
  | Some p =>
      ast_mutex_lock p ;;
      let* pv := load_pvt p in
      queue_and_unlock sched p (IS_OUTBOUND ast pv)
        (mk_frame AST_FRAME_DTMF_END digit 0 data_none duration) ast false
  end.

Definition local_sendtext (sched : schedule) (ast : chan_ptr) (text : string)
  : M (Z * schedule) :=
  let* a := load_chan ast in
  match tech_pvt a with
  | None => ret (-1, sched)
  | Some p =>
      ast_mutex_lock p ;;
      let* pv := load_pvt p in
      queue_and_unlock sched p (IS_OUTBOUND ast pv)
        (mk_frame AST_FRAME_TEXT 0 (to_int (Z.of_nat (String.length text) + 1))
           (data_ptr text) 0)
        ast false
  end.

Definition local_sendhtml (sched : schedule) (ast : chan_ptr) (subcl : Z)
    (dat : string) (dlen : Z) : M (Z * schedule) :=
  let* a := load_chan ast in
  match tech_pvt a with
  | None => ret (-1, sched)
  | Some p =>
      ast_mutex_lock p ;;
      let* pv := load_pvt p in
      queue_and_unlock sched p (IS_OUTBOUND ast pv)
        (mk_frame AST_FRAME_HTML subcl dlen (data_ptr dat) 0) ast false
  end.

(* ------------------------------------------------------------------ *)
(** [local_call] *)

Definition deref {A} (x : option A) : M A :=
  match x with Some a => ret a | None => fault end.

(** The [start_over:] lock dance of [local_call]: it leaves [p->chan],
    [p->owner] and [p] locked. *)
Fixpoint local_call_start_over (sched : schedule) (p : pvt_ptr) : M schedule :=
  let* pv := load_pvt p in
  let* c := deref (chan pv) in
  let* busy := ast_channel_trylock c in
  if negb (busy =? 0) then
    match sched with
    | [] => starved
    | e :: rest =>
        let* o := deref (owner pv) in
        ast_channel_unlock o ;;
        yield e ;;
        let* pv := load_pvt p in
        let* o := deref (owner pv) in
        ast_channel_lock o ;;
        local_call_start_over rest p
    end
  else
    (* p->owner and p->chan are locked now. Let's get p locked *)
    let* busy := ast_mutex_trylock p in
    if negb (busy =? 0) then
      match sched with
      | [] => starved
      | e :: rest =>
          ast_channel_unlock c ;;
          let* o := deref (owner pv) in
          ast_channel_unlock o ;;
          yield e ;;
          let* pv := load_pvt p in
          let* o := deref (owner pv) in
          ast_channel_lock o ;;
          local_call_start_over rest p
      end
    else ret sched.

(** [S_COR(a, b, c)] with [c] NULL. *)
Definition S_COR (a : bool) (b : string) : option string :=
  if a && negb (String.eqb b EmptyString) then Some b else None.

Definition local_call (sched : schedule) (ast : chan_ptr) (dest : string)
    (timeout : Z) : M (Z * schedule) :=
  let* a := load_chan ast in
  let reduced_dest := dest in
  match tech_pvt a with
  | None => ret (-1, sched)
  | Some p =>
      let* rest := local_call_start_over sched p in
      let* pv := load_pvt p in
      let* c := deref (chan pv) in
      let* o := deref (owner pv) in
      (* each statement reads p->owner and writes p->chan *)
      let inherit (f : ast_channel -> ast_channel -> ast_channel) : M unit :=
        let* och := load_chan o in update_chan c (f och) in
      inherit (fun och => set_redirecting (redirecting och)) ;;
      inherit (fun och => set_dialed (dialed och)) ;;
      inherit (fun och cch =>
        set_caller (ast_connected_line_copy_to_caller (caller cch) (connected och)) cch) ;;
      inherit (fun och cch =>
        set_connected (ast_connected_line_copy_from_caller (connected cch) (caller och)) cch) ;;
      inherit (fun och => set_language (language och)) ;;
      inherit (fun och => set_accountcode (accountcode och)) ;;
      inherit (fun och => set_musicclass (musicclass och)) ;;
      emit (ev_cdr_update c) ;;
      emit (ev_cc_params_init c o) ;;
      let* cch := load_chan c in
      let* och := load_chan o in
      if negb (ast_exists_extension (chan_context cch) (chan_exten cch) 1
                 (S_COR (number_valid (caller_id (caller och)))
                        (number_str (caller_id (caller och))))) then
        emit (ev_log LOG_NOTICE) ;;
        ast_mutex_unlock p ;;
        ast_channel_unlock c ;;
        ret (-1, rest)
      else
        (* Make sure we inherit the ANSWERED_ELSEWHERE flag if it's set *)
        let* a := load_chan ast in
        when (ast_test_flag (chan_flags a) AST_FLAG_ANSWERED_ELSEWHERE)
          (update_chan c (fun cch =>
             set_chan_flags (ast_set_flag (chan_flags cch) AST_FLAG_ANSWERED_ELSEWHERE) cch)) ;;
        (* copy the channel variables, they MUST be in the same order *)
        let* och := load_chan o in
        update_chan c (fun cch => set_varshead (varshead cch ++ varshead och) cch) ;;
        emit (ev_datastore_inherit o c) ;;
        let reduced_dest :=
          match strrchr reduced_dest "/" with
          | Some i => cut i reduced_dest
          | None => reduced_dest
          end in
        emit (ev_set_cc_interfaces c reduced_dest) ;;
        (* Start switch on sub channel *)
        let* w := get in
        let res := ast_pbx_start w c in
        emit (ev_pbx_start c) ;;
        when (res =? 0)
          (update_pvt p (fun pv => set_flags (ast_set_flag (flags pv) LOCAL_LAUNCHED_PBX) pv)) ;;
        ast_mutex_unlock p ;;
        ast_channel_unlock c ;;
        ret (res, rest)
  end.

(* ------------------------------------------------------------------ *)
(** [local_hangup] *)

(** [AST_LIST_REMOVE(&locals, p, list)]: the first entry that is [p]. *)
Fixpoint AST_LIST_REMOVE (l : list pvt_ptr) (p : pvt_ptr) : list pvt_ptr :=
  match l with
  | [] => []
  | x :: l' => if Nat.eqb x p then l' else x :: AST_LIST_REMOVE l' p
  end.

(** The deadlock-avoidance loops of [local_hangup], lines 773-783 (to
    lock [p->owner], backing off from [p->chan]) and 794-804 (the same
    with the roles exchanged). *)
Fixpoint local_hangup_trylock (sched : schedule) (p : pvt_ptr)
    (wanted backed_off : local_pvt -> option chan_ptr) : M schedule :=
  let* pv := load_pvt p in
  match wanted pv with
  | None => ret sched
  | Some x =>
      let* busy := ast_channel_trylock x in
      if busy =? 0 then ret sched
      else
        match sched with
        | [] => starved
        | e :: rest =>
            ast_mutex_unlock p ;;
            let* pv := load_pvt p in
            match backed_off pv with Some y => ast_channel_unlock y | None => ret tt end ;;
            yield e ;;                   (* usleep(1) *)
            let* pv := load_pvt p in
            match backed_off pv with Some y => ast_channel_lock y | None => ret tt end ;;
            ast_mutex_lock p ;;
            local_hangup_trylock rest p wanted backed_off
        end
  end.

(** Lines 760-813: this side is detached from the pvt. *)
Definition local_hangup_detach (sched : schedule) (ast : chan_ptr) (p : pvt_ptr)
  : M (bool * schedule) :=
  ast_mutex_lock p ;;
  let* pv := load_pvt p in
  let isoutbound := IS_OUTBOUND ast pv in
  let* a := load_chan ast in
  match chan pv with
  | Some c =>
      when (ast_test_flag (chan_flags a) AST_FLAG_ANSWERED_ELSEWHERE)
        (update_chan c (fun cch =>
           set_chan_flags (ast_set_flag (chan_flags cch) AST_FLAG_ANSWERED_ELSEWHERE) cch))
  | None => ret tt
  end ;;
  let* rest :=
    if isoutbound then
      let* c := deref (chan pv) in
      let* cch := load_chan c in
      let* rest :=
        match pbx_builtin_getvar_helper cch "DIALSTATUS", owner pv with
        | Some status, Some _ =>
            (* Deadlock avoidance *)
            let* rest := local_hangup_trylock sched p owner chan in
            let* pv := load_pvt p in
            match owner pv with
            | Some o =>
                pbx_builtin_setvar_helper o "CHANLOCALSTATUS" status ;;
                ast_channel_unlock o
            | None => ret tt
            end ;;
            ret rest
        | _, _ => ret sched
        end in
      update_pvt p (set_chan None) ;;
      update_pvt p (fun pv => set_flags (ast_clear_flag (flags pv) LOCAL_LAUNCHED_PBX) pv) ;;
      let* pv := load_pvt p in
      emit (ev_module_user_remove (u_chan pv)) ;;
      ret rest
    else
      emit (ev_module_user_remove (u_owner pv)) ;;
      let* rest := local_hangup_trylock sched p chan owner in
      update_pvt p (set_owner None) ;;
      let* pv := load_pvt p in
      match chan pv with
      | Some c => ast_queue_hangup c ;; ast_channel_unlock c
      | None => ret tt
      end ;;
      ret rest in
  update_chan ast (set_tech_pvt None) ;;
  ret (isoutbound, rest).

(** Modelled from the spec: [ast_hangup(chan)] of channel.c on a channel
    of this driver ("directly hang up B"): the switch takes the channel
    down, which the event records, and on the way runs the hangup
    callback of the channel's technology on it, for a channel of a pvt
    [local_hangup] (line 108); what the callback returns is not looked
    at.  [reenter] is that callback, and [None] once the nesting allowed
    to the call is used up, the call then being [Starved]. *)
Definition ast_hangup (reenter : option (schedule -> chan_ptr -> M (Z * schedule)))
    (sched : schedule) (c : chan_ptr) : M schedule :=
  emit (ev_hangup c) ;;
  match reenter with
  | Some hangup => let* '(_, rest) := hangup sched c in ret rest
  | None => starved
  end.

(** Lines 815-843: the pvt is given up, or the other side is told. *)
Definition local_hangup_finish (sched : schedule) (p : pvt_ptr) (isoutbound : bool)
    (f : ast_frame) (reenter : option (schedule -> chan_ptr -> M (Z * schedule)))
  : M (Z * schedule) :=
  let* pv := load_pvt p in
  match owner pv, chan pv with
  | None, None =>
      (* Okay, done with the private part now, too. *)
      let glaredetect := ast_test_flag (flags pv) LOCAL_GLARE_DETECT in
      (* If we have a queue holding, don't actually destroy p yet, but
         let local_queue do it. *)
      when glaredetect
        (update_pvt p (fun pv => set_flags (ast_set_flag (flags pv) LOCAL_CANCEL_QUEUE) pv)) ;;
      (* Remove from list *)
      modify (fun w => set_locals (AST_LIST_REMOVE (locals w) p) w) ;;
      ast_mutex_unlock p ;;
      (* And destroy *)
      when (negb glaredetect) (local_pvt_destroy p ;; ret tt) ;;
      ret (0, sched)
  | _, _ =>
      let* '(ochan, res, rest) :=
        match chan pv with
        | Some c =>
            if negb (ast_test_flag (flags pv) LOCAL_LAUNCHED_PBX)
            then (* Need to actually hangup since there is no PBX *)
              ret (Some c, 0, sched)
            else
              let* '(res, rest) := local_queue_frame sched p isoutbound (Some f) None true in
              ret (None, res, rest)
        | None =>
            let* '(res, rest) := local_queue_frame sched p isoutbound (Some f) None true in
            ret (None, res, rest)
        end in
      unlock_unless_failed p res ;;
      let* rest :=
        match ochan with
        | Some c => ast_hangup reenter rest c
        | None => ret rest
        end in
      ret (0, rest)
  end.

(** The body of [local_hangup], [ast_hangup] calling [reenter]. *)
Definition local_hangup_body (reenter : option (schedule -> chan_ptr -> M (Z * schedule)))
    (sched : schedule) (ast : chan_ptr) : M (Z * schedule) :=
  let* a := load_chan ast in
  let f := mk_frame AST_FRAME_CONTROL AST_CONTROL_HANGUP 0
             (data_uint32 (to_uint32 (hangupcause a))) 0 in
  match tech_pvt a with
  | None => ret (-1, sched)
  | Some p =>
      let* '(isoutbound, rest) := local_hangup_detach sched ast p in
      local_hangup_finish rest p isoutbound f reenter
  end.

(** [local_hangup], which [ast_hangup] may re-enter [nesting] times. *)
Fixpoint local_hangup (nesting : nat) (sched : schedule) (ast : chan_ptr)
  : M (Z * schedule) :=
  local_hangup_body
    match nesting with
    | O => None
    | S n => Some (local_hangup n)
    end
    sched ast.

(* ------------------------------------------------------------------ *)
(** [local_alloc] *)

(** The structure [local_alloc] builds at [tmp] (lines 855-887), and
    what it logs on the way. *)
Definition local_alloc_init (dat : string) (format : Z) : local_pvt * list event :=
  (* ast_calloc zeroes the structure *)
  let tmp := mk_pvt (mk_mutex O false) 0 EmptyString EmptyString 0
                    (mk_jb_conf 0 0 0 EmptyString 0) None None None None in
  let tmp := set_exten (ast_copy_string dat AST_MAX_EXTENSION) tmp in
  let tmp := set_jb_conf g_jb_conf tmp in
  (* Look for options *)
  let '(tmp, logged) :=
    match strchr (exten tmp) "/" with
    | Some i =>
        let opts := from (S i) (exten tmp) in
        let tmp := set_exten (cut i (exten tmp)) tmp in
        let tmp :=
          if has opts "n"
          then set_flags (ast_set_flag (flags tmp) LOCAL_NO_OPTIMIZATION) tmp
          else tmp in
        let '(tmp, logged) :=
          if has opts "j" then
            if ast_test_flag (flags tmp) LOCAL_NO_OPTIMIZATION
            then (set_jb_conf (set_jb_flags (ast_set_flag (jb_flags (jb_conf tmp)) AST_JB_ENABLED)
                                 (jb_conf tmp)) tmp, [])
            else (tmp, [ev_log LOG_ERROR])
          else (tmp, []) in
        let tmp :=
          if has opts "b"
          then set_flags (ast_set_flag (flags tmp) LOCAL_BRIDGE) tmp
          else tmp in
        let tmp :=
          if has opts "m"
          then set_flags (ast_set_flag (flags tmp) LOCAL_MOH_PASSTHRU) tmp
          else tmp in
        (tmp, logged)
    | None => (tmp, [])
    end in
  (* Look for a context *)
  let '(tmp, c) :=
    match strchr (exten tmp) "@" with
    | Some i => (set_exten (cut i (exten tmp)) tmp, Some (from (S i) (exten tmp)))
    | None => (tmp, None)
    end in
  let tmp :=
    set_context (ast_copy_string (match c with Some c => c | None => "default" end)
                   AST_MAX_CONTEXT) tmp in
  let tmp := set_reqformat format tmp in
  (tmp, logged).

(** The extension and context [local_alloc] parses: those of the pvt
    it builds. *)
Definition alloc_parse (dat : string) : string * string :=
  let pv := fst (local_alloc_init dat 0) in (exten pv, context pv).

Definition local_alloc (dat : string) (format : Z) : M (option pvt_ptr) :=
  let* w := get in
  match ast_calloc w with
  | None => ret None
  | Some tmp =>
      let '(pv, logged) := local_alloc_init dat format in
      store_pvt tmp pv ;;
      modify (fun w => set_trace (trace w ++ logged) w) ;;
      (* Add to list *)
      modify (fun w => set_locals (tmp :: locals w) w) ;;
      ret (Some tmp)
  end.

End Driver.

(* ================================================================== *)
(** ** Destination strings, in the words of the specification *)

(** The options of a destination: what follows its first '/'. *)
Definition dest_options (s : string) : string :=
  match strchr s "/" with
  | Some i => from (S i) s
  | None => EmptyString
  end.

(** The destination with its options stripped: what precedes the first '/'. *)
Definition dest_stripped (s : string) : string :=
  match strchr s "/" with
  | Some i => cut i s
  | None => s
  end.

(** Some pvt of the registry [l] is for [ext]@[ctx] and has an owner. *)
Definition in_use (w : world) (l : list nat) (ext ctx : string) : Prop :=
  exists (p : nat) pv,
    p ∈ l /\ pvts w !! p = Some pv /\
    exten pv = ext /\ context pv = ctx /\ owner pv <> None.

(** How many times the pvt at [p] was destroyed in a trace. *)
Definition destroy_count (p : nat) (tr : list event) : nat :=
  List.length (List.filter
    (fun e => match e with ev_pvt_destroy q => Nat.eqb q p | _ => false end) tr).

(** The five conditions the optimize-away check asks of a pvt [pv]:
    neither flag set, both handles set, the outbound channel's one-step
    bridge partner equal to its resolved one, the owner's read queue empty. *)
Definition optimization_allowed `{Switch} (w : world) (pv : local_pvt) : bool :=
  negb (ast_test_flag (flags pv) LOCAL_ALREADY_MASQED)
  && negb (ast_test_flag (flags pv) LOCAL_NO_OPTIMIZATION)
  && match chan pv, owner pv with
     | Some c, Some o =>
         match chans w !! c, chans w !! o with
         | Some cch, Some och =>
             bool_decide (_bridge cch = ast_bridged_channel w c)
             && bool_decide (readq och = [])
         | _, _ => false
         end
     | _, _ => false
     end.

(* ================================================================== *)
(** ** A switch and a call to try the driver on *)

Module Demo.

(** Header constants as in Asterisk 1.8; a dialplan with the single
    extension 1000@internal; channels whose technology has no
    [bridged_channel] callback; an allocator that never fails. *)
Definition asterisk : Switch := {|
  AST_MAX_EXTENSION := 80;
  AST_MAX_CONTEXT := 80;
  AST_JB_ENABLED := Z.shiftl 1 0;
  AST_FLAG_ANSWERED_ELSEWHERE := Z.shiftl 1 15;
  AST_OPTION_T38_STATE := 10;
  AST_CONTROL_HANGUP := 1;
  AST_CONTROL_RINGING := 3;
  AST_CONTROL_ANSWER := 4;
  AST_CONTROL_HOLD := 16;
  AST_CONTROL_UNHOLD := 17;
  AST_CONTROL_CONNECTED_LINE := 22;
  AST_CONTROL_REDIRECTING := 23;
  ast_calloc := fun w => Some (fresh (dom (pvts w)));
  ast_exists_extension := fun ctx ext prio _ =>
    String.eqb ctx "internal" && String.eqb ext "1000" && (prio =? 1);
  ast_bridged_channel := fun w c =>
    match chans w !! c with Some ch => _bridge ch | None => None end;
  ast_check_hangup := fun _ _ => false;
  ast_channel_queryoption := fun _ _ _ => 0;
  ast_pbx_start := fun _ _ => 0;
  ast_connected_line_copy_to_caller := fun dest src =>
    mk_caller (connected_id src) (connected_ani src);
  ast_connected_line_copy_from_caller := fun dest src =>
    mk_connected (caller_id src) (caller_ani src);
  ast_connected_line_build_data := fun _ => (EmptyString, 0);
  ast_redirecting_build_data := fun _ => (EmptyString, 0)
|}.

Definition no_party : ast_party_id := mk_party_id false false EmptyString false.

(** A channel fresh from [ast_channel_alloc]. *)
Definition new_chan (pvt : option pvt_ptr) (bridge : option chan_ptr) : ast_channel :=
  mk_chan pvt bridge [] false None None
    (mk_caller no_party no_party) (mk_connected no_party no_party)
    (mk_redirecting no_party no_party) (mk_dialed None false)
    "en" EmptyString "default" [] 0 0 AST_STATE_DOWN "internal" "1000"
    (mk_mutex O false).

Definition new_pvt (fl : Z) (ow ch : option chan_ptr) : local_pvt :=
  mk_pvt (mk_mutex O false) fl "internal" "1000" 0 g_jb_conf ow ch None None.

Definition busy (c : ast_channel) : ast_channel :=
  set_chan_lock (mk_mutex (held (chan_lock c)) true) c.

Definition heap_of {A} (l : list (nat * A)) : gmap nat A := list_to_map l.

(** Local/1000@internal: owner 1 bridged with caller 3, outbound
    channel 2 bridged with callee 4, pvt at address 7. *)
Definition call (fl : Z) : world :=
  mk_world
    (heap_of [(1%nat, new_chan (Some 7%nat) (Some 3%nat));
              (2%nat, new_chan (Some 7%nat) (Some 4%nat));
              (3%nat, new_chan None (Some 1%nat));
              (4%nat, new_chan None (Some 2%nat))])
    (heap_of [(7%nat, new_pvt fl (Some 1%nat) (Some 2%nat))])
    [7%nat] [].

(** The same with the outbound channel not bridged to anything. *)
Definition call_unbridged (fl : Z) : world :=
  mk_world
    (heap_of [(1%nat, new_chan (Some 7%nat) (Some 3%nat));
              (2%nat, new_chan (Some 7%nat) None);
              (3%nat, new_chan None (Some 1%nat))])
    (heap_of [(7%nat, new_pvt fl (Some 1%nat) (Some 2%nat))])
    [7%nat] [].

(** The owner has hung up, the PBX runs on the outbound channel. *)
Definition half_hungup (fl : Z) : world :=
  mk_world
    (heap_of [(1%nat, new_chan None None);
              (2%nat, new_chan (Some 7%nat) None)])
    (heap_of [(7%nat, new_pvt fl None (Some 2%nat))])
    [7%nat] [].

(** Channel 2 is held by another thread. *)
Definition glare_world : world :=
  set_chans (<[2%nat := busy (new_chan (Some 7%nat) (Some 4%nat))]> (chans (call 0))) (call 0).

Definition run {A} (m : M A) (w : world) : world :=
  match m w with Ret _ w' => w' | _ => w end.

(** That thread hangs up the owner and so, no PBX having been started,
    the outbound channel. *)
Definition hangs_up_both : interference := fun w =>
  let w := set_chans (<[2%nat := new_chan (Some 7%nat) (Some 4%nat)]> (chans w)) w in
  run (local_hangup (H := asterisk) 1 [] 1%nat) w.

Definition text : ast_frame := mk_frame AST_FRAME_TEXT 0 3 (data_ptr "hi") 0.

(** [glare_world] as a caller of [local_queue_frame] has it: pvt locked. *)
Definition glare_locked : world := run (ast_mutex_lock 7%nat) glare_world.

Definition voice : ast_frame := mk_frame AST_FRAME_VOICE 0 160 (data_ptr "pcm") 0.

End Demo.

(* ================================================================== *)
(** ** Conditions on a forward, in the words of the source *)

(** [us && us->generator && other->generator] *)
Definition generators_on_both (w : world) (us : option nat) (o : nat) : bool :=
  match us with
  | Some u =>
      match chans w !! u, chans w !! o with
      | Some uch, Some och => generator uch && generator och
      | _, _ => false
      end
  | None => false
  end.

(** [f->frametype == AST_FRAME_CONTROL && f->subclass.integer == AST_CONTROL_RINGING] *)
Definition is_ringing `{Switch} (fr : ast_frame) : bool :=
  frame_type_eqb (frametype fr) AST_FRAME_CONTROL && (subclass fr =? AST_CONTROL_RINGING).

(** The channel [och] once [fr] has been queued on it. *)
Definition queued `{Switch} (fr : ast_frame) (och : ast_channel) : ast_channel :=
  set_readq (readq och ++ [fr])
    (if is_ringing fr then set_state AST_STATE_RINGING och else och).

(** The world once [fr] has been forwarded to [o] through the pvt at
    [p]: the frame at the tail of [o]'s read queue, LOCAL_GLARE_DETECT
    clear. *)
Definition delivered `{Switch} (w : world) (p : nat) (pv : local_pvt) (o : nat)
    (och : ast_channel) (fr : ast_frame) : world :=
  set_chans (<[o := queued fr och]> (chans w))
    (set_pvts (<[p := set_flags (ast_clear_flag (flags pv) LOCAL_GLARE_DETECT) pv]>
                 (pvts w)) w).

(** The world once an entry point has forwarded [fr] for the channel
    [ast]: as [delivered], unless a generator runs on [ast] and on the
    other endpoint [o], when nothing is forwarded. *)
Definition forwarded `{Switch} (w : world) (p : nat) (pv : local_pvt) (ast o : nat)
    (och : ast_channel) (fr : ast_frame) : world :=
  if generators_on_both w (Some ast) o then w else delivered w p pv o och fr.

(** The endpoint opposite to [ast]. *)
Definition partner (ast : nat) (pv : local_pvt) : option nat :=
  if IS_OUTBOUND ast pv then owner pv else chan pv.

(** An indication that [local_indicate] does not serve itself:
    not a hold or unhold to be played locally, not a connected-line or
    redirecting update. *)
Definition plain_indication `{Switch} (pv : local_pvt) (condition : Z) : Prop :=
  (ast_test_flag (flags pv) LOCAL_MOH_PASSTHRU = true
   \/ condition <> AST_CONTROL_HOLD /\ condition <> AST_CONTROL_UNHOLD) /\
  condition <> AST_CONTROL_CONNECTED_LINE /\
  condition <> AST_CONTROL_REDIRECTING.


(** A connected-line or redirecting update that is not caught by the
    local hold and unhold handling. *)
Definition party_update `{Switch} (pv : local_pvt) (condition : Z) : Prop :=
  (condition = AST_CONTROL_CONNECTED_LINE \/ condition = AST_CONTROL_REDIRECTING) /\
  (ast_test_flag (flags pv) LOCAL_MOH_PASSTHRU = true
   \/ condition <> AST_CONTROL_HOLD /\ condition <> AST_CONTROL_UNHOLD).

(** The other endpoint [och] of a party update made on the channel [a]:
    an outbound connected-line update has [a]'s connected line copied
    into its caller. *)
Definition party_copied `{Switch} (condition : Z) (isoutbound : bool)
    (a och : ast_channel) : ast_channel :=
  if (condition =? AST_CONTROL_CONNECTED_LINE) && isoutbound
  then set_caller (ast_connected_line_copy_to_caller (caller och) (connected a)) och
  else och.

(** The frame [local_indicate] builds for a party update from the
    channel [a] the indication was made on. *)
Definition party_frame `{Switch} (condition : Z) (a : ast_channel) : ast_frame :=
  let built := if condition =? AST_CONTROL_CONNECTED_LINE
               then ast_connected_line_build_data (connected a)
               else ast_redirecting_build_data (redirecting a) in
  mk_frame AST_FRAME_CONTROL condition (snd built) (data_ptr (fst built)) 0.

(** The three channels of an optimize-away once [check_bridge] has made
    its pre-swaps, for an outbound channel [cch], an owner [och] and the
    outbound channel's bridge peer [bch] that are three different
    channels. *)
Definition preswap_monitor (och bch : ast_channel) : bool :=
  bool_decide (monitor och <> None) && bool_decide (monitor bch = None).
Definition preswap_audiohooks (cch : ast_channel) : bool :=
  bool_decide (audiohooks cch <> None).
Definition preswap_caller (och : ast_channel) : bool :=
  party_id_any_valid (caller_id (caller och)) || party_id_any_valid (caller_ani (caller och)).
Definition preswap_redirecting (och : ast_channel) : bool :=
  party_id_any_valid (redirecting_from (redirecting och))
  || party_id_any_valid (redirecting_to (redirecting och)).
Definition preswap_dialed (och : ast_channel) : bool :=
  bool_decide (dialed_number_str (dialed och) <> None) || dialed_subaddress_valid (dialed och).

Definition preswapped_chan (cch och : ast_channel) : ast_channel :=
  set_audiohooks (if preswap_audiohooks cch then audiohooks och else audiohooks cch) cch.

Definition preswapped_owner (cch och bch : ast_channel) : ast_channel :=
  set_dialed (if preswap_dialed och then dialed bch else dialed och)
    (set_redirecting (if preswap_redirecting och then redirecting bch else redirecting och)
       (set_caller (if preswap_caller och then caller bch else caller och)
          (set_audiohooks (if preswap_audiohooks cch then audiohooks cch else audiohooks och)
             (set_monitor (if preswap_monitor och bch then monitor bch else monitor och)
                och)))).

Definition preswapped_peer (och bch : ast_channel) : ast_channel :=
  set_dialed (if preswap_dialed och then dialed och else dialed bch)
    (set_redirecting (if preswap_redirecting och then redirecting och else redirecting bch)
       (set_caller (if preswap_caller och then caller och else caller bch)
          (set_monitor (if preswap_monitor och bch then monitor och else monitor bch)
             bch))).

(** The world after a successful optimize-away. *)
Definition masqueraded (w : world) (p : nat) (pv : local_pvt) (c o b : nat)
    (cch och bch : ast_channel) : world :=
  mk_world
    (<[b := preswapped_peer och bch]>
       (<[o := preswapped_owner cch och bch]>
          (<[c := preswapped_chan cch och]> (chans w))))
    (<[p := set_flags (ast_set_flag (flags pv) LOCAL_ALREADY_MASQED) pv]> (pvts w))
    (locals w)
    (trace w ++ [ev_group_update c o; ev_masquerade o b]).
(* ================================================================== *)
(** ** The manager action LocalOptimizeAway *)

(** What [astman_send_error] and [astman_send_ack] send to the session. *)
Inductive astman_reply :=
| astman_send_error (error : string)
| astman_send_ack (msg : string).

Section Manager.

(** [ast_channel_get_by_name(name)] of channel.c, and the value of
    [AST_LIST_LOCK(&locals)], 0 once the list is locked. *)
Variable ast_channel_get_by_name : world -> string -> option chan_ptr.
Variable AST_LIST_LOCK : world -> Z.

(** Lines 1062-1070, the value of [found]. *)
Fixpoint optimize_away_traverse (l : list pvt_ptr) (p : option pvt_ptr) : M bool :=
  match l with
  | [] => ret false
  | tmp :: rest =>
      if bool_decide (Some tmp = p) then
        ast_mutex_lock tmp ;;
        update_pvt tmp
          (fun pv => set_flags (ast_clear_flag (flags pv) LOCAL_NO_OPTIMIZATION) pv) ;;
        ast_mutex_unlock tmp ;;
        ret true                           (* break *)
      else optimize_away_traverse rest p
  end.

(** [manager_optimize_away(s, m)], [channel] being the "Channel" header
    of [m] (empty when there is none): the value returned and what is
    sent to the session. *)
Definition manager_optimize_away (channel : string) : M (Z * astman_reply) :=
  if String.eqb channel EmptyString then
    ret (0, astman_send_error "'Channel' not specified.")
  else
    let* w := get in
    match ast_channel_get_by_name w channel with
    | None => ret (0, astman_send_error "Channel does not exist.")
    | Some c =>
        let* ch := load_chan c in
        let p := tech_pvt ch in
        let* w := get in
        if negb (AST_LIST_LOCK w =? 0) then
          ret (0, astman_send_error "Unable to lock the monitor")
        else
          let* found := optimize_away_traverse (locals w) p in
          if found then ret (0, astman_send_ack "Queued channel to be optimized away")
          else ret (0, astman_send_error "Unable to find channel")
    end.

End Manager.
(* ================================================================== *)
(** ** More sample calls *)

Module Sample.

(** An owner that is monitored, has a caller number, speaks French and
    carries a variable. *)
Definition owner_chan : ast_channel :=
  mk_chan (Some 7%nat) (Some 3%nat) [] false (Some 5%nat) None
    (mk_caller (mk_party_id false true "100" false) Demo.no_party)
    (mk_connected (mk_party_id false true "200" false) Demo.no_party)
    (mk_redirecting Demo.no_party Demo.no_party) (mk_dialed (Some "1000") false)
    "fr" "sales" "jazz" [("FOO", "bar")] 0 0 AST_STATE_UP "internal" "1000"
    (mk_mutex O false).

(** An outbound channel with audio hooks, whose Dial has ended. *)
Definition outbound_chan : ast_channel :=
  mk_chan (Some 7%nat) (Some 4%nat) [] false None (Some 9%nat)
    (mk_caller Demo.no_party Demo.no_party) (mk_connected Demo.no_party Demo.no_party)
    (mk_redirecting Demo.no_party Demo.no_party) (mk_dialed None false)
    "en" EmptyString "default" [("DIALSTATUS", "ANSWER")] 0 16 AST_STATE_UP
    "internal" "1000" (mk_mutex O false).

(** Local/1000@internal between them: owner 1 bridged with 3, outbound
    channel 2 bridged with 4, pvt at address 7. *)
Definition call (fl : Z) : world :=
  mk_world
    (Demo.heap_of [(1%nat, owner_chan); (2%nat, outbound_chan);
                   (3%nat, Demo.new_chan None (Some 1%nat));
                   (4%nat, Demo.new_chan None (Some 2%nat))])
    (Demo.heap_of [(7%nat, Demo.new_pvt fl (Some 1%nat) (Some 2%nat))])
    [7%nat] [].

(** The same, the lock of channel [c] being held by another thread. *)
Definition contended_on (c : nat) : world :=
  match chans (call 0) !! c with
  | Some ch => set_chans (<[c := Demo.busy ch]> (chans (call 0))) (call 0)
  | None => call 0
  end.

(** The same, the outbound channel being for an extension that the
    dialplan does not have. *)
Definition stray : world :=
  set_chans
    (<[2%nat := mk_chan (Some 7%nat) None [] false None None
         (mk_caller Demo.no_party Demo.no_party)
         (mk_connected Demo.no_party Demo.no_party)
         (mk_redirecting Demo.no_party Demo.no_party) (mk_dialed None false)
         "en" EmptyString "default" [] 0 0 AST_STATE_RING "internal" "2000"
         (mk_mutex O false)]> (chans (call 0))) (call 0).

(** The same, the outbound channel carrying the hangup cause -1. *)
Definition no_cause_chan : ast_channel :=
  mk_chan (Some 7%nat) (Some 4%nat) [] false None (Some 9%nat)
    (mk_caller Demo.no_party Demo.no_party) (mk_connected Demo.no_party Demo.no_party)
    (mk_redirecting Demo.no_party Demo.no_party) (mk_dialed None false)
    "en" EmptyString "default" [("DIALSTATUS", "ANSWER")] 0 (-1) AST_STATE_UP
    "internal" "1000" (mk_mutex O false).

Definition no_cause (fl : Z) : world :=
  set_chans (<[2%nat := no_cause_chan]> (chans (call fl))) (call fl).

(** [Demo.call] with a third channel on the pvt, as a masquerade leaves
    one before the fixup. *)
Definition with_clone : world :=
  set_chans (<[5%nat := Demo.new_chan (Some 7%nat) None]> (chans (Demo.call 0)))
    (Demo.call 0).

(** A switch on which channel 4 is being hung up. *)
Definition hanging_up : Switch := {|
  AST_MAX_EXTENSION := 80;
  AST_MAX_CONTEXT := 80;
  AST_JB_ENABLED := Z.shiftl 1 0;
  AST_FLAG_ANSWERED_ELSEWHERE := Z.shiftl 1 15;
  AST_OPTION_T38_STATE := 10;
  AST_CONTROL_HANGUP := 1;
  AST_CONTROL_RINGING := 3;
  AST_CONTROL_ANSWER := 4;
  AST_CONTROL_HOLD := 16;
  AST_CONTROL_UNHOLD := 17;
  AST_CONTROL_CONNECTED_LINE := 22;
  AST_CONTROL_REDIRECTING := 23;
  ast_calloc := ast_calloc (Switch := Demo.asterisk);
  ast_exists_extension := ast_exists_extension (Switch := Demo.asterisk);
  ast_bridged_channel := ast_bridged_channel (Switch := Demo.asterisk);
  ast_check_hangup := fun _ c => Nat.eqb c 4;
  ast_channel_queryoption := fun _ _ _ => 0;
  ast_pbx_start := fun _ _ => 0;
  ast_connected_line_copy_to_caller :=
    ast_connected_line_copy_to_caller (Switch := Demo.asterisk);
  ast_connected_line_copy_from_caller :=
    ast_connected_line_copy_from_caller (Switch := Demo.asterisk);
  ast_connected_line_build_data := fun _ => (EmptyString, 0);
  ast_redirecting_build_data := fun _ => (EmptyString, 0)
|}.

(** The channels by name, and a registry lock that is always granted. *)
Definition ast_channel_get_by_name (w : world) (name : string) : option chan_ptr :=
  if String.eqb name "Local/1000@internal-0001;1" then Some 1%nat
  else if String.eqb name "Local/1000@internal-0001;2" then Some 2%nat
  else if String.eqb name "SIP/alice-0001" then Some 3%nat
  else if String.eqb name "SIP/bob-0001" then Some 4%nat
  else None.

Definition AST_LIST_LOCK (w : world) : Z := 0.

End Sample.

(* ================================================================== *)
(** ** Reasoning about driver code *)

Section MonadFacts.

Lemma bind_bind {A B C} (m : M A) (k : A -> M B) (k' : B -> M C) w :
  bind (bind m k) k' w = bind m (fun a => bind (k a) k') w.
Proof. unfold bind. destruct (m w); reflexivity. Qed.

Lemma bind_ret {A B} (a : A) (k : A -> M B) w : bind (ret a) k w = k a w.
Proof. reflexivity. Qed.

Lemma bind_get {B} (k : world -> M B) w : bind get k w = k w w.
Proof. reflexivity. Qed.

Lemma bind_modify {B} f (k : unit -> M B) w : bind (modify f) k w = k tt (f w).
Proof. reflexivity. Qed.

Lemma bind_fault {A B} (k : A -> M B) w : bind fault k w = Fault.
Proof. reflexivity. Qed.

Lemma bind_load_chan {B} c ch (k : ast_channel -> M B) w :
  chans w !! c = Some ch -> bind (load_chan c) k w = k ch w.
Proof. unfold bind, load_chan. intros ->. reflexivity. Qed.

Lemma bind_load_pvt {B} p pv (k : local_pvt -> M B) w :
  pvts w !! p = Some pv -> bind (load_pvt p) k w = k pv w.
Proof. unfold bind, load_pvt. intros ->. reflexivity. Qed.

Lemma bind_bind_unfold {A B} (m : M A) (k : A -> M B) w :
  bind m k w = match m w with
               | Ret a w' => k a w'
               | Fault => Fault
               | Starved => Starved
               end.
Proof. reflexivity. Qed.

Lemma bind_Ret {A B} (m : M A) (k : A -> M B) w a w' :
  m w = Ret a w' -> bind m k w = k a w'.
Proof. unfold bind. intros ->. reflexivity. Qed.

Lemma world_eta w : mk_world (chans w) (pvts w) (locals w) (trace w) = w.
Proof. destruct w; reflexivity. Qed.

Lemma mutex_eta m : mk_mutex (held m) (contended m) = m.
Proof. destruct m; reflexivity. Qed.

End MonadFacts.


Ltac wsimpl :=
  cbn [chans pvts locals trace set_chans set_pvts set_locals set_trace
       acquire release pvt_locked pvt_unlocked chan_locked chan_unlocked
       Nat.pred
       lock flags context exten reqformat jb_conf owner chan u_owner u_chan
       set_lock set_flags set_context set_exten set_reqformat set_jb_conf
       set_owner set_chan tech_pvt _bridge readq generator monitor
       audiohooks caller connected redirecting dialed language accountcode
       musicclass varshead chan_flags hangupcause _state chan_context
       chan_exten chan_lock set_tech_pvt set_readq set_monitor
       set_audiohooks set_caller set_connected set_redirecting set_dialed
       set_language set_accountcode set_musicclass set_varshead
       set_chan_flags set_state set_chan_lock held contended set_held
       jb_flags max_size resync_threshold impl target_extra set_jb_flags] in *.

(** Solve [m !! k = Some ?x] for a heap built by inserts. *)
Ltac lookup :=
  wsimpl;
  first
    [ eassumption
    | apply lookup_insert_eq
    | rewrite lookup_insert_ne by congruence; lookup ].

(** Unfold the derived operations down to loads and [modify]. *)
Ltac drv_unfold :=
  unfold DEADLOCK_AVOIDANCE, CHANNEL_DEADLOCK_AVOIDANCE, unlock_unless_failed,
    local_pvt_destroy, ast_queue_hangup in *;
  unfold ast_mutex_lock, ast_mutex_unlock, ast_mutex_trylock,
    ast_channel_lock, ast_channel_unlock, ast_channel_trylock,
    ast_queue_frame, ast_setstate, pbx_builtin_setvar_helper, yield, deref in *;
  unfold update_pvt, update_chan, store_pvt, store_chan, emit, when in *.

(** Run the code at the head of the goal as far as the heap is known. *)
Ltac drv_step :=
  first
    [ rewrite bind_bind
    | rewrite bind_ret
    | rewrite bind_get
    | rewrite bind_modify
    | rewrite bind_fault
    | erewrite bind_load_pvt by lookup
    | erewrite bind_load_chan by lookup ].

Ltac drv := drv_unfold; repeat (drv_step; wsimpl).

Lemma pvt_eta pv :
  mk_pvt (mk_mutex (held (lock pv)) (contended (lock pv))) (flags pv) (context pv)
    (exten pv) (reqformat pv) (jb_conf pv) (owner pv) (chan pv) (u_owner pv)
    (u_chan pv) = pv.
Proof. destruct pv as [[? ?] ? ? ? ? ? ? ? ? ?]. reflexivity. Qed.

Lemma chan_eta c :
  mk_chan (tech_pvt c) (_bridge c) (readq c) (generator c) (monitor c)
    (audiohooks c) (caller c) (connected c) (redirecting c) (dialed c)
    (language c) (accountcode c) (musicclass c) (varshead c) (chan_flags c)
    (hangupcause c) (_state c) (chan_context c) (chan_exten c)
    (mk_mutex (held (chan_lock c)) (contended (chan_lock c))) = c.
Proof. destruct c; cbn. rewrite mutex_eta. reflexivity. Qed.

Ltac unfold_setters :=
  unfold pvt_locked, pvt_unlocked, chan_locked, chan_unlocked, acquire, release,
    set_chans, set_pvts, set_locals, set_trace,
    set_lock, set_flags, set_context, set_exten, set_reqformat, set_jb_conf,
    set_owner, set_chan, set_jb_flags, set_held,
    set_tech_pvt, set_readq, set_monitor, set_audiohooks, set_caller,
    set_connected, set_redirecting, set_dialed, set_language, set_accountcode,
    set_musicclass, set_varshead, set_chan_flags, set_state, set_chan_lock in *;
  wsimpl.

(** A world whose heaps were written and written back. *)
Ltac world_back :=
  unfold_setters;
  repeat first
    [ rewrite insert_insert_eq
    | rewrite pvt_eta
    | rewrite chan_eta
    | rewrite insert_id by eassumption ];
  try apply world_eta.

(* ================================================================== *)
(** ** Entry points on a channel without a pvt *)

Section NullPvt.
Context `{Switch}.

Lemma local_hangup_unfold nesting sched ast :
  local_hangup nesting sched ast
  = local_hangup_body
      match nesting with
      | O => None
      | S n => Some (local_hangup n)
      end
      sched ast.
Proof. destruct nesting; reflexivity. Qed.

(** C10: every adapter entry point called on a channel whose [tech_pvt]
    is NULL (answer, write, indicate, digit_begin, digit_end, sendtext,
    sendhtml, call, hangup, fixup, query_option) returns -1 and leaves
    the world as it was: no pvt is modified, no frame is enqueued. *)
Theorem null_tech_pvt_rejected (w : world) (ast : nat) (a : ast_channel) :
  chans w !! ast = Some a ->
  tech_pvt a = None ->
  (forall sched, local_answer sched ast w = Ret (-1, sched) w) /\
  (forall sched f, local_write sched ast f w = Ret (-1, sched) w) /\
  (forall sched condition dat dlen,
      local_indicate sched ast condition dat dlen w = Ret (-1, sched) w) /\
  (forall sched digit, local_digit_begin sched ast digit w = Ret (-1, sched) w) /\
  (forall sched digit duration,
      local_digit_end sched ast digit duration w = Ret (-1, sched) w) /\
  (forall sched text, local_sendtext sched ast text w = Ret (-1, sched) w) /\
  (forall sched subcl dat dlen,
      local_sendhtml sched ast subcl dat dlen w = Ret (-1, sched) w) /\
  (forall sched dest timeout, local_call sched ast dest timeout w = Ret (-1, sched) w) /\
  (forall nesting sched, local_hangup nesting sched ast w = Ret (-1, sched) w) /\
  (forall oldchan, local_fixup oldchan ast w = Ret (-1) w) /\
  (forall sched opt, local_queryoption sched ast opt w = Ret (-1, sched) w).
Proof.
  intros Ha Hnull.
  repeat split; intros; rewrite ?local_hangup_unfold;
    unfold local_answer, local_write, local_indicate, local_digit_begin,
      local_digit_end, local_sendtext, local_sendhtml, local_call,
      local_hangup_body, local_fixup, local_queryoption;
    erewrite bind_load_chan by eassumption; rewrite Hnull; reflexivity.
Qed.

End NullPvt.

Lemma null_tech_pvt_rejected_witness :
  chans (Demo.call 0) !! 3%nat = Some (Demo.new_chan None (Some 1%nat)) /\
  tech_pvt (Demo.new_chan None (Some 1%nat)) = None /\
  local_write (H := Demo.asterisk) [] 3%nat (Some Demo.voice) (Demo.call 0)
    = Ret (-1, []) (Demo.call 0).
Proof.
  split; [reflexivity | split; [reflexivity |]].
  apply (null_tech_pvt_rejected (H := Demo.asterisk) (Demo.call 0) 3%nat
           (Demo.new_chan None (Some 1%nat))); reflexivity.
Defined.

(* ================================================================== *)
(** ** Writes after the masquerade *)

Section Write.
Context `{Switch}.

Lemma check_bridge_flagged w p pv :
  pvts w !! p = Some pv ->
  ast_test_flag (flags pv) LOCAL_ALREADY_MASQED
    || ast_test_flag (flags pv) LOCAL_NO_OPTIMIZATION = true ->
  check_bridge p w = Ret tt w.
Proof.
  intros Hp Hf. unfold check_bridge.
  erewrite bind_load_pvt by eassumption. rewrite Hf. reflexivity.
Qed.

(** C1: once LOCAL_ALREADY_MASQED is set on a pvt, [local_write] on a
    channel of that pvt (either endpoint, any frame) returns 0 and
    leaves the world as it was; in particular nothing is enqueued on the
    partner's read queue and the flag is still set for the next write. *)
Theorem local_write_already_masqed sched w (ast : nat) a f (p : nat) pv :
  chans w !! ast = Some a ->
  tech_pvt a = Some p ->
  pvts w !! p = Some pv ->
  ast_test_flag (flags pv) LOCAL_ALREADY_MASQED = true ->
  local_write sched ast f w = Ret (0, sched) w.
Proof.
  intros Ha Hp Hpv Hf. unfold local_write.
  erewrite bind_load_chan by eassumption. rewrite Hp.
  unfold ast_mutex_lock. drv.
  set (w1 := set_pvts _ w).
  set (pv1 := pvt_locked pv) in *.
  assert (Hpv1 : pvts w1 !! p = Some pv1) by (subst w1; lookup).
  assert (Hf1 : ast_test_flag (flags pv1) LOCAL_ALREADY_MASQED = true) by exact Hf.
  assert (Hcb : (if IS_OUTBOUND ast pv1 && is_media f then check_bridge p else ret tt) w1
                = Ret tt w1).
  { destruct (IS_OUTBOUND ast pv1 && is_media f); [| reflexivity].
    eapply check_bridge_flagged; [eassumption |]. rewrite Hf1. reflexivity. }
  rewrite (bind_Ret _ _ _ _ _ Hcb).
  erewrite bind_load_pvt by eassumption.
  rewrite Hf1. cbn [negb]. repeat drv_step.
  change (0 =? 0) with true. cbn iota.
  subst pv1 w1. drv.
  unfold ret. f_equal. world_back.
Qed.

End Write.

Lemma local_write_already_masqed_witness :
  chans (Demo.call LOCAL_ALREADY_MASQED) !! 2%nat
    = Some (Demo.new_chan (Some 7%nat) (Some 4%nat)) /\
  tech_pvt (Demo.new_chan (Some 7%nat) (Some 4%nat)) = Some 7%nat /\
  pvts (Demo.call LOCAL_ALREADY_MASQED) !! 7%nat
    = Some (Demo.new_pvt LOCAL_ALREADY_MASQED (Some 1%nat) (Some 2%nat)) /\
  ast_test_flag (flags (Demo.new_pvt LOCAL_ALREADY_MASQED (Some 1%nat) (Some 2%nat)))
    LOCAL_ALREADY_MASQED = true /\
  local_write (H := Demo.asterisk) [] 2%nat (Some Demo.voice)
    (Demo.call LOCAL_ALREADY_MASQED) = Ret (0, []) (Demo.call LOCAL_ALREADY_MASQED).
Proof.
  repeat (split; [reflexivity |]).
  apply (local_write_already_masqed (H := Demo.asterisk) [] _ 2%nat
           (Demo.new_chan (Some 7%nat) (Some 4%nat)) _ 7%nat
           (Demo.new_pvt LOCAL_ALREADY_MASQED (Some 1%nat) (Some 2%nat)));
    reflexivity.
Defined.

(* ================================================================== *)
(** ** C strings and flag words *)

Section Strings.

Lemma cut_all n s : (String.length s <= n)%nat -> cut n s = s.
Proof.
  revert n. induction s as [| a s IH]; intros [| n] Hn; cbn in *;
    try reflexivity; try lia.
  rewrite IH by lia. reflexivity.
Qed.

Lemma cut_length n s : (String.length (cut n s) <= String.length s)%nat.
Proof.
  revert n. induction s as [| a s IH]; intros [| n]; cbn; try lia.
  specialize (IH n). lia.
Qed.

Lemma from_length n s : (String.length (from n s) <= String.length s)%nat.
Proof.
  revert n. induction s as [| a s IH]; intros [| n]; cbn; try lia.
  specialize (IH n). lia.
Qed.

Lemma ast_copy_string_fits s size :
  (String.length s < size)%nat -> ast_copy_string s size = s.
Proof. intros Hl. unfold ast_copy_string. apply cut_all. lia. Qed.

Lemma strchr_cons a s c :
  strchr (String a s) c = if Ascii.eqb a c then Some O else S <$> strchr s c.
Proof. reflexivity. Qed.

Lemma from_cons n a s : from (S n) (String a s) = from n s.
Proof. reflexivity. Qed.

Lemma cut_cons n a s : cut (S n) (String a s) = String a (cut n s).
Proof. reflexivity. Qed.

(** With no '/' before its first '@', a destination keeps that '@' when
    its options are stripped, and the two ways of splitting it agree. *)
Lemma strip_then_split s i :
  strchr s "@" = Some i ->
  strchr (cut i s) "/" = None ->
  strchr (dest_stripped s) "@" = Some i /\
  cut i (dest_stripped s) = cut i s /\
  from (S i) (dest_stripped s) = dest_stripped (from (S i) s).
Proof.
  revert i. induction s as [| a s IH]; intros i Hat Hslash; [discriminate |].
  rewrite strchr_cons in Hat.
  destruct (Ascii.eqb a "@") eqn:Ea.
  - apply Ascii.eqb_eq in Ea. subst a. injection Hat as <-.
    rewrite from_cons. change (from 0 s) with s.
    unfold dest_stripped. rewrite strchr_cons. change ("@" =? "/")%char with false.
    destruct (strchr s "/") as [j |]; cbn [fmap option_fmap option_map].
    + rewrite cut_cons, from_cons. auto.
    + rewrite from_cons. auto.
  - destruct (strchr s "@") as [i' |] eqn:Es; [| discriminate].
    injection Hat as <-. rewrite cut_cons, strchr_cons in Hslash.
    destruct (Ascii.eqb a "/") eqn:Eb; [discriminate |].
    destruct (strchr (cut i' s) "/") eqn:Ec; [discriminate |].
    destruct (IH i' eq_refl Ec) as (H1 & H2 & H3).
    rewrite from_cons, <- H3. clear H3.
    unfold dest_stripped in *. rewrite strchr_cons, Eb.
    destruct (strchr s "/") as [j |]; cbn [fmap option_fmap option_map].
    + rewrite !cut_cons, strchr_cons, Ea, H1, H2, from_cons. auto.
    + rewrite strchr_cons, Ea, Es, from_cons. auto.
Qed.

End Strings.

(* ================================================================== *)
(** ** Parsing the destination *)

Section Alloc.
Context `{Switch}.

(** What [local_alloc_init] builds, field by field. *)
Lemma local_alloc_init_fields dat format :
  let s := ast_copy_string dat AST_MAX_EXTENSION in
  let opts := dest_options s in
  let target := dest_stripped s in
  let pv := fst (local_alloc_init dat format) in
  ast_test_flag (flags pv) LOCAL_NO_OPTIMIZATION = has opts "n" /\
  ast_test_flag (flags pv) LOCAL_BRIDGE = has opts "b" /\
  ast_test_flag (flags pv) LOCAL_MOH_PASSTHRU = has opts "m" /\
  jb_flags (jb_conf pv)
    = (if has opts "j" && has opts "n" then AST_JB_ENABLED else 0) /\
  snd (local_alloc_init dat format)
    = (if has opts "j" && negb (has opts "n") then [ev_log LOG_ERROR] else []) /\
  exten pv = match strchr target "@" with Some i => cut i target | None => target end /\
  context pv = ast_copy_string
                 (match strchr target "@" with
                  | Some i => from (S i) target
                  | None => "default"
                  end) AST_MAX_CONTEXT /\
  owner pv = None /\ chan pv = None /\ reqformat pv = format.
Proof.
  cbv zeta. unfold local_alloc_init, dest_options, dest_stripped.
  generalize (ast_copy_string dat AST_MAX_EXTENSION) as s. intros s.
  cbn [exten set_exten set_jb_conf flags jb_conf].
  destruct (strchr s "/") as [i |].
  - cbn [exten set_exten set_jb_conf flags jb_conf].
    destruct (has (from (S i) s) "n"), (has (from (S i) s) "j"),
      (has (from (S i) s) "b"), (has (from (S i) s) "m");
      cbv -[strchr cut from ast_copy_string AST_JB_ENABLED AST_MAX_CONTEXT];
      destruct (strchr (cut i s) "@");
      repeat split; try reflexivity; destruct AST_JB_ENABLED; reflexivity.
  - change (has EmptyString ?c) with false. cbn [andb].
    cbv -[strchr cut from ast_copy_string AST_JB_ENABLED AST_MAX_CONTEXT].
    destruct (strchr s "@"); repeat split; reflexivity.
Qed.

(** C7, as amended: [local_alloc] stores at the allocated address a pvt
    parsed from the destination as copied into the [exten] buffer (all
    of it when it is shorter than AST_MAX_EXTENSION).  It cuts at the
    first '/': all that follows, an '@CONTEXT' written there included,
    is the option text, and '@' is sought only in what precedes the '/'
    (the shape parsed is EXTEN[@CONTEXT][/OPTS]).  An 'n' anywhere in
    the option text sets LOCAL_NO_OPTIMIZATION, a 'b' LOCAL_BRIDGE, an
    'm' LOCAL_MOH_PASSTHRU; a 'j' sets AST_JB_ENABLED in the
    jitterbuffer flags when an 'n' is in the option text too and
    otherwise only logs an error; when no '@' precedes the first '/' the
    context is "default".  The pvt is put at the head of [locals]. *)
Theorem local_alloc_parses dat format w (tmp : nat) :
  ast_calloc w = Some tmp ->
  (7 < AST_MAX_CONTEXT)%nat ->
  let s := ast_copy_string dat AST_MAX_EXTENSION in
  let opts := dest_options s in
  let target := dest_stripped s in
  exists pv,
    local_alloc dat format w
      = Ret (Some tmp)
          (mk_world (chans w) (<[tmp := pv]> (pvts w)) (tmp :: locals w)
             (trace w ++ if has opts "j" && negb (has opts "n")
                         then [ev_log LOG_ERROR] else [])) /\
    ast_test_flag (flags pv) LOCAL_NO_OPTIMIZATION = has opts "n" /\
    ast_test_flag (flags pv) LOCAL_BRIDGE = has opts "b" /\
    ast_test_flag (flags pv) LOCAL_MOH_PASSTHRU = has opts "m" /\
    jb_flags (jb_conf pv)
      = (if has opts "j" && has opts "n" then AST_JB_ENABLED else 0) /\
    (strchr target "@" = None -> exten pv = target /\ context pv = "default") /\
    (forall i, strchr target "@" = Some i ->
       exten pv = cut i target /\
       context pv = ast_copy_string (from (S i) target) AST_MAX_CONTEXT).
Proof.
  intros Halloc Hmax s opts target.
  destruct (local_alloc_init_fields dat format)
    as (Hn & Hb & Hm & Hj & Hlog & Hext & Hctx & _).
  fold s opts target in Hn, Hb, Hm, Hj, Hlog, Hext, Hctx.
  exists (fst (local_alloc_init dat format)).
  refine (conj _ (conj Hn (conj Hb (conj Hm (conj Hj (conj _ _)))))).
  - unfold local_alloc. rewrite bind_get, Halloc.
    destruct (local_alloc_init dat format) as [pv logged]. cbn [fst snd] in *.
    subst logged. drv. reflexivity.
  - intros Hat. rewrite Hat in Hext, Hctx. split; [exact Hext |].
    rewrite Hctx. apply ast_copy_string_fits. cbn. lia.
  - intros i Hat. rewrite Hat in Hext, Hctx. split; assumption.
Qed.

(** C6, as amended: for a destination that fits the buffers, contains
    '@' and has no '/' before its first '@' (the EXTEN@CONTEXT[/OPTS]
    shape), [local_devicestate] and [local_alloc] parse the same
    extension and context. *)
Theorem devicestate_parse_agrees_with_alloc dat i :
  (String.length dat < AST_MAX_EXTENSION)%nat ->
  (String.length dat < AST_MAX_CONTEXT)%nat ->
  strchr dat "@" = Some i ->
  strchr (cut i dat) "/" = None ->
  devicestate_parse dat = Some (alloc_parse dat).
Proof.
  intros Hle Hlc Hat Hslash. unfold alloc_parse.
  destruct (local_alloc_init_fields dat 0) as (_ & _ & _ & _ & _ & Hext & Hctx & _).
  cbv zeta in Hext, Hctx. rewrite (ast_copy_string_fits _ _ Hle) in Hext, Hctx.
  destruct (strip_then_split dat i Hat Hslash) as (H1 & H2 & H3).
  rewrite H1 in Hext, Hctx. rewrite Hext, Hctx, H2, H3.
  unfold devicestate_parse. rewrite Hat. fold (dest_stripped (from (S i) dat)).
  rewrite ast_copy_string_fits; [reflexivity |].
  rewrite <- H3.
  pose proof (from_length (S i) (dest_stripped dat)).
  assert (String.length (dest_stripped dat) <= String.length dat)%nat.
  { unfold dest_stripped. destruct (strchr dat "/"); [apply cut_length | lia]. }
  lia.
Qed.

End Alloc.

Lemma local_alloc_parses_witness :
  ast_calloc (Switch := Demo.asterisk) (Demo.call 0) = Some 8%nat /\
  (7 < AST_MAX_CONTEXT (Switch := Demo.asterisk))%nat /\
  exists pv,
    local_alloc (H := Demo.asterisk) "1000@internal/nj" 0 (Demo.call 0)
      = Ret (Some 8%nat)
          (mk_world (chans (Demo.call 0)) (<[8%nat := pv]> (pvts (Demo.call 0)))
             [8%nat; 7%nat] []) /\
    ast_test_flag (flags pv) LOCAL_NO_OPTIMIZATION = true /\
    ast_test_flag (flags pv) LOCAL_BRIDGE = false /\
    ast_test_flag (flags pv) LOCAL_MOH_PASSTHRU = false /\
    jb_flags (jb_conf pv) = 1 /\
    exten pv = "1000" /\ context pv = "internal".
Proof.
  split; [vm_compute; reflexivity | split; [vm_compute; lia |]].
  destruct (local_alloc_parses (H := Demo.asterisk) "1000@internal/nj" 0
              (Demo.call 0) 8%nat) as (pv & Hrun & Hn & Hb & Hm & Hj & _ & Hat);
    [vm_compute; reflexivity | vm_compute; lia |].
  exists pv. destruct (Hat 4%nat eq_refl) as [He Hc].
  repeat split; assumption.
Defined.

(** C7 as worded fails on a destination of the shape it names,
    EXTEN[/OPTS][@CONTEXT].  In "1000/j@internal" the only option is 'j'
    and the context is "internal"; [local_alloc] takes "j@internal" for
    the option text and finds an 'n' in it, so it sets
    LOCAL_NO_OPTIMIZATION, enables the jitterbuffer and logs nothing,
    and it leaves the context at "default". *)
Lemma local_alloc_options_take_context :
  let pv := fst (local_alloc_init (H := Demo.asterisk) "1000/j@internal" 0) in
  local_alloc (H := Demo.asterisk) "1000/j@internal" 0 (Demo.call 0)
    = Ret (Some 8%nat)
        (mk_world (chans (Demo.call 0)) (<[8%nat := pv]> (pvts (Demo.call 0)))
           [8%nat; 7%nat] []) /\
  ast_test_flag (flags pv) LOCAL_NO_OPTIMIZATION = true /\
  jb_flags (jb_conf pv) = AST_JB_ENABLED (Switch := Demo.asterisk) /\
  exten pv = "1000" /\ context pv = "default".
Proof. cbv zeta. repeat split; vm_compute; reflexivity. Qed.

(** C6 as stated fails: with the options before the '@', as in the
    grammar EXTEN[/OPTS][@CONTEXT], [local_devicestate] keeps "/n" in the
    extension and takes the context "internal", while [local_alloc]
    strips "/n@internal" as options and falls back to "default". *)
Lemma devicestate_parse_differs_from_alloc :
  devicestate_parse "1000/n@internal" = Some ("1000/n", "internal") /\
  alloc_parse (H := Demo.asterisk) "1000/n@internal" = ("1000", "default") /\
  devicestate_parse "1000/n@internal"
    <> Some (alloc_parse (H := Demo.asterisk) "1000/n@internal").
Proof.
  split; [reflexivity | split; [reflexivity |]].
  vm_compute. discriminate.
Qed.

Lemma devicestate_parse_agrees_with_alloc_witness :
  (String.length "1000@internal/n" < AST_MAX_EXTENSION (Switch := Demo.asterisk))%nat /\
  (String.length "1000@internal/n" < AST_MAX_CONTEXT (Switch := Demo.asterisk))%nat /\
  strchr "1000@internal/n" "@" = Some 4%nat /\
  strchr (cut 4 "1000@internal/n") "/" = None /\
  devicestate_parse "1000@internal/n"
    = Some (alloc_parse (H := Demo.asterisk) "1000@internal/n").
Proof.
  split; [vm_compute; lia | split; [vm_compute; lia |]].
  split; [reflexivity | split; [reflexivity |]].
  apply (devicestate_parse_agrees_with_alloc (H := Demo.asterisk)
           "1000@internal/n" 4%nat);
    [vm_compute; lia | vm_compute; lia | reflexivity | reflexivity].
Defined.

(* ================================================================== *)
(** ** Device state *)

Section DeviceState.
Context `{Switch}.

Lemma devicestate_traverse_spec ext ctx (l : list nat) w :
  (forall p : nat, p ∈ l -> is_Some (pvts w !! p)) ->
  exists r,
    devicestate_traverse ext ctx l w = Ret r w /\
    (r = AST_DEVICE_INUSE /\ in_use w l ext ctx \/
     r = AST_DEVICE_NOT_INUSE /\ ~ in_use w l ext ctx).
Proof.
  induction l as [| lp l IH]; intros Hlive.
  - exists AST_DEVICE_NOT_INUSE. split; [reflexivity |]. right. split; [reflexivity |].
    intros (p & pv & Hin & _). inversion Hin.
  - destruct (Hlive lp) as [pv Hpv]; [constructor |].
    cbn [devicestate_traverse]. erewrite bind_load_pvt by eassumption.
    destruct (streq ext (exten pv) && streq ctx (context pv)
              && bool_decide (owner pv <> None)) eqn:Hm.
    + exists AST_DEVICE_INUSE. split; [reflexivity |]. left. split; [reflexivity |].
      apply andb_prop in Hm as [Hm Ho]. apply andb_prop in Hm as [He Hc].
      apply String.eqb_eq in He, Hc. apply bool_decide_eq_true in Ho.
      exists lp, pv. repeat split; auto. constructor.
    + destruct IH as (r & Hr & Hcase).
      { intros p Hp. apply Hlive. constructor. exact Hp. }
      exists r. split; [exact Hr |].
      destruct Hcase as [[-> Hin] | [-> Hout]]; [left | right]; split; try reflexivity.
      * destruct Hin as (p & pv' & Hp & Hrest). exists p, pv'. split; [| exact Hrest].
        constructor. exact Hp.
      * intros (p & pv' & Hp & Hpv' & He & Hc & Ho).
        apply elem_of_cons in Hp as [-> | Hp].
        -- rewrite Hpv in Hpv'. injection Hpv' as <-.
           unfold streq in Hm. rewrite He, Hc, !String.eqb_refl in Hm.
           rewrite bool_decide_eq_true_2 in Hm by exact Ho. discriminate.
        -- apply Hout. exists p, pv'. auto.
Qed.

(** C5: [local_devicestate] returns AST_DEVICE_INVALID (after logging a
    warning) when the destination has no '@', and AST_DEVICE_INVALID when
    the extension and context it parsed do not exist in the dialplan;
    otherwise it returns AST_DEVICE_INUSE when some pvt of the registry
    has that extension and context and a non-NULL owner, and
    AST_DEVICE_NOT_INUSE when none has.  The world is not changed. *)
Theorem local_devicestate_spec dat w :
  (forall p : nat, p ∈ locals w -> is_Some (pvts w !! p)) ->
  (strchr dat "@" = None ->
     local_devicestate dat w
       = Ret AST_DEVICE_INVALID (set_trace (trace w ++ [ev_log LOG_WARNING]) w)) /\
  (forall ext ctx, devicestate_parse dat = Some (ext, ctx) ->
     strchr dat "@" <> None /\
     (ast_exists_extension ctx ext 1 None = false ->
        local_devicestate dat w = Ret AST_DEVICE_INVALID w) /\
     (ast_exists_extension ctx ext 1 None = true ->
        exists r, local_devicestate dat w = Ret r w /\
          (r = AST_DEVICE_INUSE \/ r = AST_DEVICE_NOT_INUSE) /\
          (r = AST_DEVICE_INUSE <-> in_use w (locals w) ext ctx))).
Proof.
  intros Hlive. split.
  - intros Hat. unfold local_devicestate, devicestate_parse. rewrite Hat.
    drv. reflexivity.
  - intros ext ctx Hparse. split; [| split].
    + unfold devicestate_parse in Hparse. destruct (strchr dat "@"); congruence.
    + intros Hex. unfold local_devicestate. rewrite Hparse, Hex. reflexivity.
    + intros Hex. unfold local_devicestate. rewrite Hparse, Hex. cbn [negb].
      rewrite bind_get.
      destruct (devicestate_traverse_spec ext ctx (locals w) w Hlive)
        as (r & Hr & Hcase).
      exists r. split; [exact Hr |].
      destruct Hcase as [[-> Hin] | [-> Hout]].
      * split; [left; reflexivity | split; auto].
      * split; [right; reflexivity | split; [discriminate | intros; contradiction]].
Qed.

End DeviceState.

Lemma local_devicestate_spec_witness :
  (forall p : nat, p ∈ locals (Demo.call 0) -> is_Some (pvts (Demo.call 0) !! p)) /\
  devicestate_parse "1000@internal/n" = Some ("1000", "internal") /\
  ast_exists_extension (Switch := Demo.asterisk) "internal" "1000" 1 None = true /\
  local_devicestate (H := Demo.asterisk) "1000@internal/n" (Demo.call 0)
    = Ret AST_DEVICE_INUSE (Demo.call 0).
Proof.
  assert (Hlive : forall p : nat,
             p ∈ locals (Demo.call 0) -> is_Some (pvts (Demo.call 0) !! p)).
  { intros p Hp. apply list_elem_of_singleton in Hp. subst p. vm_compute. eauto. }
  split; [exact Hlive | split; [reflexivity | split; [reflexivity |]]].
  destruct (local_devicestate_spec (H := Demo.asterisk) "1000@internal/n"
              (Demo.call 0) Hlive) as [_ Hparsed].
  destruct (Hparsed "1000" "internal" eq_refl) as (_ & _ & Hexists).
  destruct (Hexists eq_refl) as (r & Hrun & _).
  rewrite Hrun. vm_compute in Hrun. injection Hrun as <-. reflexivity.
Defined.

(* ================================================================== *)
(** ** Bridged channel and option queries *)

Section Queries.
Context `{Switch}.

(** C8, as amended: [local_bridgedchannel(chan, bridge)] leaves the
    world as it was and returns [bridge] when LOCAL_BRIDGE is clear or
    the opposite endpoint is NULL; with LOCAL_BRIDGE set it returns the
    opposite endpoint's bridge partner when it has one, and the opposite
    endpoint itself when it has none. *)
Theorem local_bridgedchannel_spec w (ch bridge : nat) b (p : nat) pv :
  chans w !! bridge = Some b ->
  tech_pvt b = Some p ->
  pvts w !! p = Some pv ->
  let opposite := if bool_decide (Some bridge = owner pv) then chan pv else owner pv in
  (ast_test_flag (flags pv) LOCAL_BRIDGE = false ->
     local_bridgedchannel ch bridge w = Ret (Some bridge) w) /\
  (ast_test_flag (flags pv) LOCAL_BRIDGE = true ->
     (opposite = None -> local_bridgedchannel ch bridge w = Ret (Some bridge) w) /\
     (forall (o : nat) och, opposite = Some o -> chans w !! o = Some och ->
        (forall far : nat, _bridge och = Some far ->
           local_bridgedchannel ch bridge w = Ret (Some far) w) /\
        (_bridge och = None ->
           local_bridgedchannel ch bridge w = Ret (Some o) w))).
Proof.
  intros Hb Hp Hpv opposite.
  split; [| split].
  - intros Hf. unfold local_bridgedchannel.
    erewrite bind_load_chan by eassumption. rewrite Hp. drv.
    rewrite Hf. drv. unfold ret; f_equal; world_back.
  - intros Hopp. unfold local_bridgedchannel.
    erewrite bind_load_chan by eassumption. rewrite Hp. drv.
    rewrite H0. fold opposite. rewrite Hopp. drv. unfold ret; f_equal; world_back.
  - intros o och Hopp Ho. split.
    + intros far Hfar. unfold local_bridgedchannel.
      erewrite bind_load_chan by eassumption. rewrite Hp. drv.
      rewrite H0. fold opposite. rewrite Hopp. drv. rewrite Hfar. drv.
      unfold ret; f_equal; world_back.
    + intros Hfar. unfold local_bridgedchannel.
      erewrite bind_load_chan by eassumption. rewrite Hp. drv.
      rewrite H0. fold opposite. rewrite Hopp. drv. rewrite Hfar. drv.
      unfold ret; f_equal; world_back.
Qed.

(** Every round of the [try_again:] loop, the first or one after a
    back-off, that finds the far endpoint NULL, or locks it and finds it
    without a bridged channel, returns -1; it gives back the locks and
    changes nothing else. *)
Lemma local_queryoption_round_not_supported sched (ast p : nat) opt w pv n :
  pvts w !! p = Some pv ->
  held (lock pv) = S n ->
  local_queryoption_try_again sched ast p opt None w
    = Ret (-1, sched) (set_pvts (<[p := pvt_unlocked pv]> (pvts w)) w) /\
  (forall (c : nat) cch,
     chans w !! c = Some cch ->
     contended (chan_lock cch) = false ->
     ast_bridged_channel (set_chans (<[c := chan_locked cch]> (chans w)) w) c = None ->
     local_queryoption_try_again sched ast p opt (Some c) w
       = Ret (-1, sched) (set_pvts (<[p := pvt_unlocked pv]> (pvts w)) w)).
Proof.
  intros Hpv Hheld. split.
  - destruct sched; cbn [local_queryoption_try_again]; drv; rewrite Hheld; drv;
      reflexivity.
  - intros c cch Hc Hfree Hnone.
    destruct sched; cbn [local_queryoption_try_again]; drv;
      rewrite Hfree; drv; change (0 =? 0) with true; cbn [negb]; drv;
      rewrite Hnone; drv; rewrite Hheld; drv; unfold ret; f_equal;
      unfold_setters; rewrite insert_insert_eq, chan_eta,
        (insert_id _ _ _ Hc); reflexivity.
Qed.

(** C9: [local_queryoption] returns -1 for every option other than
    AST_OPTION_T38_STATE; for AST_OPTION_T38_STATE it returns -1 when the
    far endpoint of the pvt is NULL, and when the far endpoint, locked at
    the first try, has no bridged channel.  In each case the world, the
    pvt included, is left as it was. *)
Theorem local_queryoption_not_supported sched w (ast : nat) a :
  chans w !! ast = Some a ->
  (forall opt, opt <> AST_OPTION_T38_STATE ->
     local_queryoption sched ast opt w = Ret (-1, sched) w) /\
  (forall (p : nat) pv,
     tech_pvt a = Some p -> pvts w !! p = Some pv ->
     let far := if IS_OUTBOUND ast pv then owner pv else chan pv in
     (far = None ->
        local_queryoption sched ast AST_OPTION_T38_STATE w = Ret (-1, sched) w) /\
     (forall (c : nat) cch,
        far = Some c -> chans w !! c = Some cch ->
        contended (chan_lock cch) = false ->
        ast_bridged_channel
          (set_chans (<[c := chan_locked cch]> (chans w))
             (set_pvts (<[p := pvt_locked pv]> (pvts w)) w)) c = None ->
        local_queryoption sched ast AST_OPTION_T38_STATE w = Ret (-1, sched) w)).
Proof.
  intros Ha. split.
  - intros opt Hopt. unfold local_queryoption.
    erewrite bind_load_chan by eassumption.
    destruct (tech_pvt a); [| reflexivity].
    apply Z.eqb_neq in Hopt. rewrite Hopt. reflexivity.
  - intros p pv Hp Hpv far.
    split.
    + intros Hfar. unfold local_queryoption.
      erewrite bind_load_chan by eassumption. rewrite Hp, Z.eqb_refl. cbn [negb].
      unfold local_queryoption_far. drv.
      change (IS_OUTBOUND ast (pvt_locked pv)) with (IS_OUTBOUND ast pv).
      fold far. rewrite Hfar. destruct sched; cbn [local_queryoption_try_again];
        drv; unfold ret; f_equal; world_back.
    + intros c cch Hfar Hc Hfree Hnone. unfold local_queryoption.
      erewrite bind_load_chan by eassumption. rewrite Hp, Z.eqb_refl. cbn [negb].
      unfold local_queryoption_far. drv.
      change (IS_OUTBOUND ast (pvt_locked pv)) with (IS_OUTBOUND ast pv).
      fold far. rewrite Hfar.
      destruct sched; cbn [local_queryoption_try_again]; drv;
        rewrite Hfree; drv; change (0 =? 0) with true; cbn [negb]; drv;
        rewrite Hnone; drv; unfold ret; f_equal; world_back.
Qed.

End Queries.

(** C8 as stated fails: with LOCAL_BRIDGE set and both endpoints
    present, a query on the owner whose partner, the outbound channel 2,
    is not bridged returns channel 2 itself, not its bridge partner
    (there is none). *)
Lemma local_bridgedchannel_far_not_bridged :
  exists pv och,
    pvts (Demo.call_unbridged LOCAL_BRIDGE) !! 7%nat = Some pv /\
    ast_test_flag (flags pv) LOCAL_BRIDGE = true /\
    owner pv = Some 1%nat /\ chan pv = Some 2%nat /\
    chans (Demo.call_unbridged LOCAL_BRIDGE) !! 2%nat = Some och /\
    local_bridgedchannel 1%nat 1%nat (Demo.call_unbridged LOCAL_BRIDGE)
      = Ret (Some 2%nat) (Demo.call_unbridged LOCAL_BRIDGE) /\
    local_bridgedchannel 1%nat 1%nat (Demo.call_unbridged LOCAL_BRIDGE)
      <> Ret (_bridge och) (Demo.call_unbridged LOCAL_BRIDGE).
Proof.
  exists (Demo.new_pvt LOCAL_BRIDGE (Some 1%nat) (Some 2%nat)),
         (Demo.new_chan (Some 7%nat) None).
  repeat (split; [vm_compute; reflexivity |]).
  vm_compute. discriminate.
Qed.

Lemma local_bridgedchannel_spec_witness :
  chans (Demo.call LOCAL_BRIDGE) !! 1%nat = Some (Demo.new_chan (Some 7%nat) (Some 3%nat)) /\
  tech_pvt (Demo.new_chan (Some 7%nat) (Some 3%nat)) = Some 7%nat /\
  pvts (Demo.call LOCAL_BRIDGE) !! 7%nat
    = Some (Demo.new_pvt LOCAL_BRIDGE (Some 1%nat) (Some 2%nat)) /\
  local_bridgedchannel 1%nat 1%nat (Demo.call LOCAL_BRIDGE)
    = Ret (Some 4%nat) (Demo.call LOCAL_BRIDGE).
Proof.
  repeat (split; [reflexivity |]).
  destruct (local_bridgedchannel_spec (Demo.call LOCAL_BRIDGE)
              1%nat 1%nat (Demo.new_chan (Some 7%nat) (Some 3%nat)) 7%nat
              (Demo.new_pvt LOCAL_BRIDGE (Some 1%nat) (Some 2%nat))
              eq_refl eq_refl eq_refl) as [_ Hset].
  destruct (Hset eq_refl) as [_ Hopp].
  destruct (Hopp 2%nat (Demo.new_chan (Some 7%nat) (Some 4%nat)) eq_refl eq_refl)
    as [Hfar _].
  exact (Hfar 4%nat eq_refl).
Defined.

Lemma local_queryoption_not_supported_witness :
  chans (Demo.call_unbridged 0) !! 1%nat = Some (Demo.new_chan (Some 7%nat) (Some 3%nat)) /\
  local_queryoption (H := Demo.asterisk) [] 1%nat 11 (Demo.call_unbridged 0)
    = Ret (-1, []) (Demo.call_unbridged 0) /\
  local_queryoption (H := Demo.asterisk) [] 1%nat
    (AST_OPTION_T38_STATE (Switch := Demo.asterisk)) (Demo.call_unbridged 0)
    = Ret (-1, []) (Demo.call_unbridged 0).
Proof.
  split; [reflexivity |].
  destruct (local_queryoption_not_supported (H := Demo.asterisk) []
              (Demo.call_unbridged 0) 1%nat
              (Demo.new_chan (Some 7%nat) (Some 3%nat)) eq_refl) as [Hother Ht38].
  split.
  - apply Hother. vm_compute. discriminate.
  - destruct (Ht38 7%nat (Demo.new_pvt 0 (Some 1%nat) (Some 2%nat)) eq_refl eq_refl)
      as [_ Hfar].
    apply (Hfar 2%nat (Demo.new_chan (Some 7%nat) None)); reflexivity.
Defined.

(* ================================================================== *)
(** ** The optimize-away check *)

Section CheckBridge.
Context `{Switch}.

(** C2: unless LOCAL_ALREADY_MASQED and LOCAL_NO_OPTIMIZATION are clear,
    both endpoints are set, the outbound channel's [_bridge] equals its
    [ast_bridged_channel] and the owner's read queue is empty,
    [check_bridge] leaves the world as it was: no masquerade is
    requested, nothing is swapped, no flag changes. *)
Theorem check_bridge_guarded w (p : nat) pv :
  pvts w !! p = Some pv ->
  (forall c : nat, chan pv = Some c -> is_Some (chans w !! c)) ->
  (forall o : nat, owner pv = Some o -> is_Some (chans w !! o)) ->
  optimization_allowed w pv = false ->
  check_bridge p w = Ret tt w.
Proof.
  intros Hpv Hc Ho Hno. unfold check_bridge, optimization_allowed in *.
  erewrite bind_load_pvt by eassumption.
  destruct (ast_test_flag (flags pv) LOCAL_ALREADY_MASQED); [reflexivity |].
  destruct (ast_test_flag (flags pv) LOCAL_NO_OPTIMIZATION); [reflexivity |].
  cbn [negb andb orb] in *.
  destruct (chan pv) as [c |]; [| reflexivity].
  destruct (owner pv) as [o |]; [| reflexivity].
  destruct (Hc c eq_refl) as [cch Hcch]. destruct (Ho o eq_refl) as [och Hoch].
  rewrite Hcch, Hoch in Hno.
  erewrite bind_load_chan by eassumption. rewrite bind_get.
  destruct (bool_decide (_bridge cch = ast_bridged_channel w c)); [| reflexivity].
  cbn [negb andb] in *.
  destruct (_bridge cch); [| reflexivity].
  erewrite bind_load_chan by eassumption.
  destruct (readq och); [| reflexivity].
  rewrite bool_decide_eq_true_2 in Hno by reflexivity. discriminate.
Qed.

End CheckBridge.

Lemma check_bridge_guarded_witness :
  pvts (Demo.call LOCAL_NO_OPTIMIZATION) !! 7%nat
    = Some (Demo.new_pvt LOCAL_NO_OPTIMIZATION (Some 1%nat) (Some 2%nat)) /\
  optimization_allowed (H := Demo.asterisk) (Demo.call LOCAL_NO_OPTIMIZATION)
    (Demo.new_pvt LOCAL_NO_OPTIMIZATION (Some 1%nat) (Some 2%nat)) = false /\
  check_bridge (H := Demo.asterisk) 7%nat (Demo.call LOCAL_NO_OPTIMIZATION)
    = Ret tt (Demo.call LOCAL_NO_OPTIMIZATION).
Proof.
  split; [reflexivity | split; [reflexivity |]].
  apply (check_bridge_guarded (H := Demo.asterisk) (Demo.call LOCAL_NO_OPTIMIZATION)
           7%nat (Demo.new_pvt LOCAL_NO_OPTIMIZATION (Some 1%nat) (Some 2%nat))).
  - reflexivity.
  - intros c [= <-]. vm_compute. eauto.
  - intros o [= <-]. vm_compute. eauto.
  - reflexivity.
Defined.

(** When the five conditions hold and the locks are free, the check
    does request the masquerade of the far peer into the owner. *)
Example check_bridge_masquerades :
  exists w',
    check_bridge (H := Demo.asterisk) 7%nat (Demo.call 0) = Ret tt w' /\
    trace w' = [ev_group_update 2%nat 1%nat; ev_masquerade 1%nat 4%nat] /\
    (flags <$> pvts w' !! 7%nat) = Some LOCAL_ALREADY_MASQED.
Proof. eexists. split; [vm_compute; reflexivity | split; reflexivity]. Qed.

(* ================================================================== *)
(** ** Glare: the forwarder and the last hangup *)

Section Glare.
Context `{Switch}.

Lemma bind_load_chan_None {B} c (k : ast_channel -> M B) w :
  chans w !! c = None -> bind (load_chan c) k w = Fault.
Proof. intros Hc. rewrite bind_bind_unfold. unfold load_chan. rewrite Hc. reflexivity. Qed.

Lemma bind_load_pvt_None {B} p (k : local_pvt -> M B) w :
  pvts w !! p = None -> bind (load_pvt p) k w = Fault.
Proof. intros Hp. rewrite bind_bind_unfold. unfold load_pvt. rewrite Hp. reflexivity. Qed.

Lemma destroy_count_app p tr1 tr2 :
  destroy_count p (tr1 ++ tr2) = (destroy_count p tr1 + destroy_count p tr2)%nat.
Proof. unfold destroy_count. rewrite List.filter_app, List.length_app. reflexivity. Qed.

Lemma destroy_count_destroy p : destroy_count p [ev_pvt_destroy p] = 1%nat.
Proof. unfold destroy_count. cbn. rewrite Nat.eqb_refl. reflexivity. Qed.

(** The second half of [local_queue_frame] on a pvt flagged
    LOCAL_CANCEL_QUEUE: the pvt is destroyed, nothing is queued. *)
Lemma deliver_cancelled (p : nat) other f w pv :
  pvts w !! p = Some pv ->
  ast_test_flag (flags pv) LOCAL_CANCEL_QUEUE = true ->
  (forall o : nat, other = Some o -> is_Some (chans w !! o)) ->
  exists w',
    local_queue_frame_deliver p other f w = Ret (-1) w' /\
    pvts w' = delete p (pvts w) /\
    trace w' = (trace w ++ [ev_pvt_destroy p])%list /\
    locals w' = locals w /\
    (forall c : nat, readq <$> chans w' !! c = readq <$> chans w !! c).
Proof.
  intros Hpv Hf Hlive. unfold local_queue_frame_deliver.
  erewrite bind_load_pvt by eassumption. rewrite Hf.
  destruct other as [o |].
  - destruct (Hlive o eq_refl) as [och Hoch].
    destruct (held (lock pv)) eqn:Hheld; drv; rewrite ?Hheld; drv;
      (eexists; split; [reflexivity |]); wsimpl;
      rewrite ?delete_insert_eq;
      (split; [reflexivity | split; [reflexivity | split; [reflexivity |]]]);
      intros c; (destruct (decide (c = o)) as [-> |];
        [rewrite lookup_insert_eq, Hoch; reflexivity
        | rewrite lookup_insert_ne by congruence; reflexivity]).
  - destruct (held (lock pv)) eqn:Hheld; drv; rewrite ?Hheld; drv;
      (eexists; split; [reflexivity |]); wsimpl;
      rewrite ?delete_insert_eq; auto.
Qed.

(** Case analysis on the load at the head of the goal; a load that
    faults cannot lead to a return. *)
Ltac drv_case :=
  match goal with
  | |- context [bind (load_chan ?c) ?k ?w] =>
      let E := fresh "Hload" in
      destruct (chans w !! c) eqn:E;
      [ rewrite (bind_load_chan c _ k w E)
      | rewrite (bind_load_chan_None c k w E); intros; discriminate ]
  | |- context [bind (load_pvt ?p) ?k ?w] =>
      let E := fresh "Hload" in
      destruct (pvts w !! p) eqn:E;
      [ rewrite (bind_load_pvt p _ k w E)
      | rewrite (bind_load_pvt_None p k w E); intros; discriminate ]
  end.

Ltac drv_inv := drv_unfold; repeat (first [drv_step | drv_case]; wsimpl).

Ltac case_contended :=
  match goal with
  | |- context [if contended ?m then _ else _] => destruct (contended m)
  end.
Ltac case_held :=
  match goal with
  | |- context [match held ?m with O => _ | S _ => _ end] => destruct (held m)
  end.
Ltac case_generator :=
  match goal with
  | |- context [if generator ?c then _ else _] => destruct (generator c)
  end.

Lemma queue_frame_trylock_holding (p : nat) other rest backoff w (o : nat) r w1 :
  queue_frame_trylock p other rest backoff w = Ret (Holding (Some o), r) w1 ->
  (forall w0, backoff w0 = Ret (Holding (Some o), r) w1 -> is_Some (chans w1 !! o)) ->
  is_Some (chans w1 !! o).
Proof.
  intros Hrun Hback. revert Hrun. unfold queue_frame_trylock.
  destruct other as [o' |]; [| intros [=]].
  unfold ast_channel_trylock. drv_inv.
  case_contended.
  - drv_inv. change (1 =? 0) with false. cbn iota. drv_inv.
    case_held; drv_inv.
    + intros [=].
    + change (0 =? 0) with true. cbn [negb]. apply Hback.
  - drv_inv. change (0 =? 0) with true. cbn iota.
    intros [= <- <- <-]. wsimpl. rewrite lookup_insert_eq. eauto.
Qed.

Lemma queue_frame_backoff_holding sched (p : nat) isoutbound us us_locked w (o : nat) r w1 :
  queue_frame_backoff sched p isoutbound us us_locked w = Ret (Holding (Some o), r) w1 ->
  is_Some (chans w1 !! o).
Proof.
  revert w. induction sched as [| e rest IH]; intros w; [intros [=] |].
  cbn [queue_frame_backoff].
  assert (Hslow :
    (yield e ;; ast_mutex_lock p ;;
     let* other := queue_frame_other p isoutbound in
     queue_frame_trylock p other rest
       (queue_frame_backoff rest p isoutbound us us_locked)) w
      = Ret (Holding (Some o), r) w1 -> is_Some (chans w1 !! o)).
  { unfold queue_frame_other. drv_inv. intros Hrun.
    eapply queue_frame_trylock_holding; [exact Hrun | intros w0; apply IH]. }
  destruct us as [u |]; [| exact Hslow].
  destruct us_locked; [| exact Hslow]. clear Hslow.
  unfold queue_frame_other. drv_inv.
  case_contended.
  - drv_inv. apply IH.
  - drv_inv. change (0 =? 0) with true. cbn [negb]. drv_inv. intros Hrun.
    eapply queue_frame_trylock_holding; [exact Hrun | intros w0; apply IH].
Qed.

Lemma local_queue_frame_acquire_holding sched (p : nat) isoutbound us us_locked w
    (o : nat) r w1 :
  local_queue_frame_acquire sched p isoutbound us us_locked w
    = Ret (Holding (Some o), r) w1 ->
  is_Some (chans w1 !! o).
Proof.
  unfold local_queue_frame_acquire, queue_frame_other. drv_inv.
  match goal with
  | |- context [match ?x with Some _ => _ | None => _ end] =>
      destruct x as [o' |]; [| intros [=]]
  end.
  destruct us as [u |].
  - drv_inv. case_generator.
    + drv_inv. case_generator; [intros [=] |]. drv_inv. intros Hrun.
      eapply queue_frame_trylock_holding;
        [exact Hrun | intros w0; apply queue_frame_backoff_holding].
    + drv_inv. intros Hrun.
      eapply queue_frame_trylock_holding;
        [exact Hrun | intros w0; apply queue_frame_backoff_holding].
  - drv_inv. intros Hrun.
    eapply queue_frame_trylock_holding;
      [exact Hrun | intros w0; apply queue_frame_backoff_holding].
Qed.

(** C3: when [local_queue_frame] comes out of its lock loop, holding
    [other] (or with [other] NULL), in a world [w1] where the pvt carries
    LOCAL_CANCEL_QUEUE, it returns -1; on return the pvt has been
    destroyed, once ([w1] plus one [ev_pvt_destroy] event, the pvt gone
    from the heap), the registry is as it was and no read queue has
    changed. *)
Theorem local_queue_frame_cancelled sched (p : nat) isoutbound f us us_locked
    w other rest w1 pv :
  local_queue_frame_acquire sched p isoutbound us us_locked w
    = Ret (Holding other, rest) w1 ->
  pvts w1 !! p = Some pv ->
  ast_test_flag (flags pv) LOCAL_CANCEL_QUEUE = true ->
  exists w2,
    local_queue_frame sched p isoutbound f us us_locked w = Ret (-1, rest) w2 /\
    pvts w2 !! p = None /\
    pvts w2 = delete p (pvts w1) /\
    trace w2 = (trace w1 ++ [ev_pvt_destroy p])%list /\
    destroy_count p (trace w2) = S (destroy_count p (trace w1)) /\
    locals w2 = locals w1 /\
    (forall c : nat, readq <$> chans w2 !! c = readq <$> chans w1 !! c).
Proof.
  intros Hacq Hpv Hf.
  destruct (deliver_cancelled p other f w1 pv Hpv Hf)
    as (w2 & Hrun & Hpvts & Htrace & Hlocals & Hq).
  { intros o ->. eapply local_queue_frame_acquire_holding. exact Hacq. }
  exists w2. unfold local_queue_frame.
  rewrite (bind_Ret _ _ _ _ _ Hacq). rewrite (bind_Ret _ _ _ _ _ Hrun).
  split; [reflexivity |]. split; [rewrite Hpvts; apply lookup_delete_eq |].
  split; [exact Hpvts |]. split; [exact Htrace |].
  split; [| split; assumption].
  rewrite Htrace, destroy_count_app, destroy_count_destroy. lia.
Qed.

Lemma test_set_flag x f : f <> 0 -> ast_test_flag (ast_set_flag x f) f = true.
Proof.
  intros Hf. unfold ast_test_flag, ast_set_flag.
  replace (Z.land (Z.lor x f) f) with f.
  - apply Z.eqb_neq in Hf. rewrite Hf. reflexivity.
  - apply Z.bits_inj'. intros n _. rewrite Z.land_spec, Z.lor_spec.
    destruct (Z.testbit x n), (Z.testbit f n); reflexivity.
Qed.



(** The end of [local_hangup] (lines 815-832) on a pvt with both
    handles NULL. *)
Lemma local_hangup_finish_last sched (p : nat) isoutbound f reenter w pv :
  pvts w !! p = Some pv ->
  owner pv = None -> chan pv = None ->
  exists w',
    local_hangup_finish sched p isoutbound f reenter w = Ret (0, sched) w' /\
    locals w' = AST_LIST_REMOVE (locals w) p /\
    chans w' = chans w /\
    if ast_test_flag (flags pv) LOCAL_GLARE_DETECT then
      trace w' = trace w /\
      exists pv', pvts w' !! p = Some pv' /\
        flags pv' = ast_set_flag (flags pv) LOCAL_CANCEL_QUEUE /\
        owner pv' = None /\ chan pv' = None
    else
      pvts w' !! p = None /\ trace w' = (trace w ++ [ev_pvt_destroy p])%list.
Proof.
  intros Hpv Ho Hc. unfold local_hangup_finish.
  erewrite bind_load_pvt by eassumption. rewrite Ho, Hc.
  destruct (ast_test_flag (flags pv) LOCAL_GLARE_DETECT);
    destruct (held (lock pv)) eqn:Hheld; drv; rewrite ?Hheld; drv;
    cbn [negb]; drv;
    (eexists; split; [reflexivity |]); wsimpl;
    (split; [reflexivity | split; [reflexivity |]]);
    try (split; [reflexivity |]; eexists; split; [apply lookup_insert_eq |];
         wsimpl; auto);
    try (split; [apply lookup_delete_eq | reflexivity]).
Qed.

(** The same decision whatever happened while [local_hangup] backed
    off: if, once this side is detached, both handles are NULL, the pvt
    leaves the registry and is destroyed at once, or marked for the
    forwarder, according to LOCAL_GLARE_DETECT. *)
Lemma local_hangup_last_after_backoff nesting sched w (ast : nat) a (p : nat)
    isoutbound rest w1 pv1 :
  chans w !! ast = Some a ->
  tech_pvt a = Some p ->
  local_hangup_detach sched ast p w = Ret (isoutbound, rest) w1 ->
  pvts w1 !! p = Some pv1 ->
  owner pv1 = None -> chan pv1 = None ->
  exists w',
    local_hangup nesting sched ast w = Ret (0, rest) w' /\
    locals w' = AST_LIST_REMOVE (locals w1) p /\
    if ast_test_flag (flags pv1) LOCAL_GLARE_DETECT then
      trace w' = trace w1 /\
      exists pv', pvts w' !! p = Some pv' /\
        ast_test_flag (flags pv') LOCAL_CANCEL_QUEUE = true /\
        owner pv' = None /\ chan pv' = None
    else
      pvts w' !! p = None /\ trace w' = (trace w1 ++ [ev_pvt_destroy p])%list.
Proof.
  intros Ha Hp Hdetach Hpv1 Ho Hc. rewrite local_hangup_unfold. unfold local_hangup_body.
  erewrite bind_load_chan by eassumption. rewrite Hp.
  rewrite (bind_Ret _ _ _ _ _ Hdetach).
  destruct (local_hangup_finish_last rest p isoutbound
              (mk_frame AST_FRAME_CONTROL AST_CONTROL_HANGUP 0
                 (data_uint32 (to_uint32 (hangupcause a))) 0)
              match nesting with
              | O => None
              | S n => Some (local_hangup n)
              end w1 pv1 Hpv1 Ho Hc)
    as (w' & Hrun & Hl & _ & Hcase).
  exists w'. split; [exact Hrun |]. split; [exact Hl |].
  destruct (ast_test_flag (flags pv1) LOCAL_GLARE_DETECT); [| exact Hcase].
  destruct Hcase as (Htrace & pv' & Hpv' & Hfl & Ho' & Hc').
  split; [exact Htrace |]. exists pv'. repeat split; try assumption.
  rewrite Hfl. apply test_set_flag. discriminate.
Qed.


End Glare.

Lemma local_queue_frame_cancelled_witness :
  let acquire := local_queue_frame_acquire
                   [Demo.hangs_up_both] 7%nat false (Some 1%nat) false in
  let w1 := Demo.run acquire Demo.glare_locked in
  acquire Demo.glare_locked = Ret (Holding None, []) w1 /\
  (flags <$> pvts w1 !! 7%nat)
    = Some (ast_set_flag LOCAL_GLARE_DETECT LOCAL_CANCEL_QUEUE) /\
  exists w2,
    local_queue_frame (H := Demo.asterisk) [Demo.hangs_up_both] 7%nat false
      (Some Demo.text) (Some 1%nat) false Demo.glare_locked = Ret (-1, []) w2 /\
    pvts w2 !! 7%nat = None /\
    destroy_count 7%nat (trace w2) = 1%nat /\
    (readq <$> chans w2 !! 2%nat) = (readq <$> chans w1 !! 2%nat).
Proof.
  cbv zeta.
  split; [vm_compute; reflexivity | split; [vm_compute; reflexivity |]].
  destruct (local_queue_frame_cancelled (H := Demo.asterisk) [Demo.hangs_up_both]
              7%nat false (Some Demo.text) (Some 1%nat) false Demo.glare_locked None []
              (Demo.run (local_queue_frame_acquire
                           [Demo.hangs_up_both] 7%nat false (Some 1%nat) false)
                 Demo.glare_locked)
              (mk_pvt (mk_mutex 1 false)
                 (ast_set_flag LOCAL_GLARE_DETECT LOCAL_CANCEL_QUEUE)
                 "internal" "1000" 0 g_jb_conf None None None None))
    as (w2 & Hrun & Hgone & _ & _ & Hcount & _ & Hq);
    [vm_compute; reflexivity | vm_compute; reflexivity | vm_compute; reflexivity |].
  exists w2. split; [exact Hrun |]. split; [exact Hgone |].
  split; [exact Hcount | apply Hq].
Defined.


(** Glare from end to end.  A text is sent on the owner while another
    thread holds the outbound channel; during the back-off that thread
    hangs up both channels.  The second of the two hangups finds
    LOCAL_GLARE_DETECT set and only marks the pvt; the forwarder, back
    from its sleep, destroys it and fails.  One destruction in all. *)
Example glare_end_to_end :
  exists w',
    local_sendtext (H := Demo.asterisk) [Demo.hangs_up_both] 1%nat "hi"
      Demo.glare_world = Ret (-1, []) w' /\
    destroy_count 7%nat (trace (Demo.hangs_up_both
      (Demo.run (ast_mutex_lock 7%nat ;;
                 update_pvt 7%nat (set_flags LOCAL_GLARE_DETECT))%drv
         Demo.glare_world))) = 0%nat /\
    destroy_count 7%nat (trace w') = 1%nat /\
    pvts w' !! 7%nat = None /\
    locals w' = [].
Proof.
  eexists. split; [vm_compute; reflexivity |].
  repeat split; vm_compute; reflexivity.
Qed.

(** Before any masquerade a write is forwarded: the frame written on the
    owner lands on the outbound channel's read queue, and only there. *)
Example local_write_forwards :
  exists w',
    local_write (H := Demo.asterisk) [] 1%nat (Some Demo.text) (Demo.call 0)
      = Ret (0, []) w' /\
    (readq <$> chans w' !! 2%nat) = Some [Demo.text] /\
    (readq <$> chans w' !! 1%nat) = Some [] /\
    pvts w' = pvts (Demo.call 0).
Proof.
  eexists. split; [vm_compute; reflexivity |].
  repeat split; vm_compute; reflexivity.
Qed.

(* ================================================================== *)
(** ** Records and heaps, by their fields *)

Lemma chan_ext a b :
  tech_pvt a = tech_pvt b -> _bridge a = _bridge b -> readq a = readq b ->
  generator a = generator b -> monitor a = monitor b ->
  audiohooks a = audiohooks b -> caller a = caller b ->
  connected a = connected b -> redirecting a = redirecting b ->
  dialed a = dialed b -> language a = language b ->
  accountcode a = accountcode b -> musicclass a = musicclass b ->
  varshead a = varshead b -> chan_flags a = chan_flags b ->
  hangupcause a = hangupcause b -> _state a = _state b ->
  chan_context a = chan_context b -> chan_exten a = chan_exten b ->
  held (chan_lock a) = held (chan_lock b) ->
  contended (chan_lock a) = contended (chan_lock b) ->
  a = b.
Proof.
  destruct a as [? ? ? ? ? ? ? ? ? ? ? ? ? ? ? ? ? ? ? [? ?]].
  destruct b as [? ? ? ? ? ? ? ? ? ? ? ? ? ? ? ? ? ? ? [? ?]].
  cbn. intros; subst; reflexivity.
Qed.

Lemma world_ext w1 w2 :
  chans w1 = chans w2 -> pvts w1 = pvts w2 -> locals w1 = locals w2 ->
  trace w1 = trace w2 -> w1 = w2.
Proof. destruct w1, w2; cbn; congruence. Qed.

Lemma pvt_ext (a b : local_pvt) :
  held (lock a) = held (lock b) -> contended (lock a) = contended (lock b) ->
  flags a = flags b -> context a = context b -> exten a = exten b ->
  reqformat a = reqformat b -> jb_conf a = jb_conf b ->
  owner a = owner b -> chan a = chan b ->
  u_owner a = u_owner b -> u_chan a = u_chan b ->
  a = b.
Proof.
  destruct a as [[? ?] ? ? ? ? ? ? ? ? ?], b as [[? ?] ? ? ? ? ? ? ? ? ?].
  cbn. intros; subst; reflexivity.
Qed.

Lemma chan_unlocked_locked ch : chan_unlocked (chan_locked ch) = ch.
Proof. apply chan_ext; reflexivity. Qed.

Lemma pvt_unlocked_locked pv : pvt_unlocked (pvt_locked pv) = pv.
Proof. apply pvt_ext; reflexivity. Qed.

Lemma release_acquire m : release (acquire m) = m.
Proof. destruct m; reflexivity. Qed.

(* ================================================================== *)
(** ** Forwarding a frame *)

Section Forward.
Context `{Switch}.

Lemma test_cancel_set_glare x :
  ast_test_flag (ast_set_flag x LOCAL_GLARE_DETECT) LOCAL_CANCEL_QUEUE
  = ast_test_flag x LOCAL_CANCEL_QUEUE.
Proof.
  unfold ast_test_flag, ast_set_flag. rewrite Z.land_lor_distr_l.
  change (Z.land LOCAL_GLARE_DETECT LOCAL_CANCEL_QUEUE) with 0.
  rewrite Z.lor_0_r. reflexivity.
Qed.

Lemma clear_set_glare x :
  ast_clear_flag (ast_set_flag x LOCAL_GLARE_DETECT) LOCAL_GLARE_DETECT
  = ast_clear_flag x LOCAL_GLARE_DETECT.
Proof.
  unfold ast_clear_flag, ast_set_flag. rewrite Z.land_lor_distr_l.
  change (Z.land LOCAL_GLARE_DETECT (Z.lnot LOCAL_GLARE_DETECT)) with 0.
  rewrite Z.lor_0_r. reflexivity.
Qed.

Ltac deliver_tail Hfree Hcancel :=
  unfold queue_frame_trylock, local_queue_frame_deliver; drv;
  rewrite Hfree; drv; change (0 =? 0) with true; cbn iota; drv;
  rewrite test_cancel_set_glare, Hcancel; drv;
  match goal with
  | |- context [frame_type_eqb (frametype ?fr) _ && _] =>
      fold (is_ringing fr); unfold queued; destruct (is_ringing fr)
  end; drv;
  unfold ret; f_equal; rewrite clear_set_glare; unfold_setters;
  rewrite ?insert_insert_eq, ?mutex_eta; reflexivity.

(** [local_queue_frame] when nothing stands in the way. *)
Lemma local_queue_frame_delivers sched (p : nat) (isoutbound : bool) fr us us_locked w
    (pv : local_pvt) (o : nat) och :
  pvts w !! p = Some pv ->
  (if isoutbound then owner pv else chan pv) = Some o ->
  chans w !! o = Some och ->
  (forall u : nat, us = Some u -> is_Some (chans w !! u)) ->
  generators_on_both w us o = false ->
  contended (chan_lock och) = false ->
  ast_test_flag (flags pv) LOCAL_CANCEL_QUEUE = false ->
  local_queue_frame sched p isoutbound (Some fr) us us_locked w
  = Ret (0, sched)
      (set_chans (<[o := queued fr och]> (chans w))
         (set_pvts (<[p := set_flags (ast_clear_flag (flags pv) LOCAL_GLARE_DETECT) pv]>
                      (pvts w)) w)).
Proof.
  intros Hpv Hother Ho Hus Hgen Hfree Hcancel.
  unfold local_queue_frame, local_queue_frame_acquire, queue_frame_other.
  repeat (drv_step; wsimpl). rewrite Hother.
  unfold generators_on_both in Hgen. destruct us as [u |].
  - destruct (Hus u eq_refl) as [uch Hu]. rewrite Hu, Ho in Hgen.
    repeat (drv_step; wsimpl).
    destruct (generator uch); cbn [andb] in Hgen; repeat (drv_step; wsimpl);
      rewrite ?Hgen; deliver_tail Hfree Hcancel.
  - repeat (drv_step; wsimpl). deliver_tail Hfree Hcancel.
Qed.

Lemma test_glare_cleared x :
  ast_test_flag (ast_clear_flag x LOCAL_GLARE_DETECT) LOCAL_GLARE_DETECT = false.
Proof.
  unfold ast_test_flag, ast_clear_flag. rewrite <- Z.land_assoc.
  change (Z.land (Z.lnot LOCAL_GLARE_DETECT) LOCAL_GLARE_DETECT) with 0.
  rewrite Z.land_0_r. reflexivity.
Qed.

Lemma test_cancel_clear_glare x :
  ast_test_flag (ast_clear_flag x LOCAL_GLARE_DETECT) LOCAL_CANCEL_QUEUE
  = ast_test_flag x LOCAL_CANCEL_QUEUE.
Proof.
  unfold ast_test_flag, ast_clear_flag. rewrite <- Z.land_assoc. reflexivity.
Qed.

(** X1. A frame forwarded by [local_queue_frame] to a partner whose lock
    is free lands at the tail of the partner's read queue, and nowhere
    else: the call returns 0, every other channel is as it was, the
    partner's lock is held no more than before, and the pvt keeps its
    handles, with LOCAL_GLARE_DETECT clear. *)
Theorem local_queue_frame_appends sched (p : nat) (isoutbound : bool) fr us us_locked w
    (pv : local_pvt) (o : nat) och :
  pvts w !! p = Some pv ->
  (if isoutbound then owner pv else chan pv) = Some o ->
  chans w !! o = Some och ->
  (forall u : nat, us = Some u -> is_Some (chans w !! u)) ->
  generators_on_both w us o = false ->
  contended (chan_lock och) = false ->
  ast_test_flag (flags pv) LOCAL_CANCEL_QUEUE = false ->
  exists w' och' pv',
    local_queue_frame sched p isoutbound (Some fr) us us_locked w = Ret (0, sched) w' /\
    chans w' !! o = Some och' /\
    readq och' = (readq och ++ [fr])%list /\
    chan_lock och' = chan_lock och /\
    (forall c : nat, c <> o -> chans w' !! c = chans w !! c) /\
    pvts w' !! p = Some pv' /\
    owner pv' = owner pv /\ chan pv' = chan pv /\
    ast_test_flag (flags pv') LOCAL_GLARE_DETECT = false /\
    locals w' = locals w /\ trace w' = trace w.
Proof.
  intros Hpv Hother Ho Hus Hgen Hfree Hcancel.
  eexists _, _, _. split.
  - eapply local_queue_frame_delivers; eassumption.
  - wsimpl. split; [apply lookup_insert_eq |].
    split; [reflexivity |]. split; [unfold queued; destruct (is_ringing fr); reflexivity |].
    split; [intros c Hc; apply lookup_insert_ne; congruence |].
    split; [apply lookup_insert_eq |]. wsimpl.
    repeat split; try reflexivity. apply test_glare_cleared.
Qed.

(** X2. When the forwarded frame is the control frame
    AST_CONTROL_RINGING, the partner is in state AST_STATE_RINGING when
    the call returns; any other frame leaves the partner's state alone. *)
Theorem local_queue_frame_ringing sched (p : nat) (isoutbound : bool) fr us us_locked w
    (pv : local_pvt) (o : nat) och :
  pvts w !! p = Some pv ->
  (if isoutbound then owner pv else chan pv) = Some o ->
  chans w !! o = Some och ->
  (forall u : nat, us = Some u -> is_Some (chans w !! u)) ->
  generators_on_both w us o = false ->
  contended (chan_lock och) = false ->
  ast_test_flag (flags pv) LOCAL_CANCEL_QUEUE = false ->
  exists w' och',
    local_queue_frame sched p isoutbound (Some fr) us us_locked w = Ret (0, sched) w' /\
    chans w' !! o = Some och' /\
    _state och' = (if frame_type_eqb (frametype fr) AST_FRAME_CONTROL
                      && (subclass fr =? AST_CONTROL_RINGING)
                   then AST_STATE_RINGING else _state och).
Proof.
  intros Hpv Hother Ho Hus Hgen Hfree Hcancel.
  eexists _, _. split; [eapply local_queue_frame_delivers; eassumption |].
  wsimpl. split; [apply lookup_insert_eq |].
  unfold queued. fold (is_ringing fr). destruct (is_ringing fr); reflexivity.
Qed.

(** X3. [local_queue_frame] has nothing to do, and returns 0 leaving the
    world as it was, when the partner handle is NULL and when a
    generator runs on both the sending channel and the partner. *)
Theorem local_queue_frame_nothing_to_do sched (p : nat) (isoutbound : bool) f us
    us_locked w (pv : local_pvt) :
  pvts w !! p = Some pv ->
  ((if isoutbound then owner pv else chan pv) = None ->
     local_queue_frame sched p isoutbound f us us_locked w = Ret (0, sched) w) /\
  (forall (o u : nat) och uch,
     (if isoutbound then owner pv else chan pv) = Some o ->
     us = Some u ->
     chans w !! o = Some och -> chans w !! u = Some uch ->
     generator uch = true -> generator och = true ->
     local_queue_frame sched p isoutbound f us us_locked w = Ret (0, sched) w).
Proof.
  intros Hpv. split.
  - intros Hother. unfold local_queue_frame, local_queue_frame_acquire, queue_frame_other.
    repeat (drv_step; wsimpl). rewrite Hother. repeat (drv_step; wsimpl). reflexivity.
  - intros o u och uch Hother -> Ho Hu Hgu Hgo.
    unfold local_queue_frame, local_queue_frame_acquire, queue_frame_other.
    repeat (drv_step; wsimpl). rewrite Hother. repeat (drv_step; wsimpl).
    rewrite Hgu. repeat (drv_step; wsimpl). rewrite Hgo.
    repeat (drv_step; wsimpl). reflexivity.
Qed.

(** X4. Entered without the pvt lock held, [local_queue_frame] gives up
    at the first contention on the partner: it logs an error and returns
    -1; the pvt is not destroyed and nothing is queued, but
    LOCAL_GLARE_DETECT stays set. *)
Theorem local_queue_frame_not_locked sched (p : nat) (isoutbound : bool) f us us_locked w
    (pv : local_pvt) (o : nat) och :
  pvts w !! p = Some pv ->
  held (lock pv) = O ->
  (if isoutbound then owner pv else chan pv) = Some o ->
  chans w !! o = Some och ->
  (forall u : nat, us = Some u -> is_Some (chans w !! u)) ->
  generators_on_both w us o = false ->
  contended (chan_lock och) = true ->
  local_queue_frame sched p isoutbound f us us_locked w
  = Ret (-1, sched)
      (set_trace (trace w ++ [ev_log LOG_ERROR])
         (set_pvts (<[p := set_flags (ast_set_flag (flags pv) LOCAL_GLARE_DETECT) pv]>
                      (pvts w)) w)).
Proof.
  intros Hpv Hheld Hother Ho Hus Hgen Hbusy.
  unfold local_queue_frame, local_queue_frame_acquire, queue_frame_other.
  repeat (drv_step; wsimpl). rewrite Hother.
  unfold generators_on_both in Hgen. destruct us as [u |].
  - destruct (Hus u eq_refl) as [uch Hu]. rewrite Hu, Ho in Hgen.
    repeat (drv_step; wsimpl).
    destruct (generator uch); cbn [andb] in Hgen; repeat (drv_step; wsimpl);
      rewrite ?Hgen; unfold queue_frame_trylock; drv; rewrite Hbusy; drv;
      change (1 =? 0) with false; cbn iota; drv; rewrite Hheld; drv;
      reflexivity.
  - repeat (drv_step; wsimpl). unfold queue_frame_trylock; drv; rewrite Hbusy; drv;
      change (1 =? 0) with false; cbn iota; drv; rewrite Hheld; drv; reflexivity.
Qed.

(** X5. Frames forwarded one after the other arrive in the order they
    were sent: after two calls the partner's read queue is the old queue
    followed by the first and then the second frame. *)
Theorem local_queue_frame_in_order sched (p : nat) (isoutbound : bool) fr1 fr2 us us_locked
    w (pv : local_pvt) (o : nat) och :
  pvts w !! p = Some pv ->
  (if isoutbound then owner pv else chan pv) = Some o ->
  chans w !! o = Some och ->
  (forall u : nat, us = Some u -> is_Some (chans w !! u)) ->
  generators_on_both w us o = false ->
  contended (chan_lock och) = false ->
  ast_test_flag (flags pv) LOCAL_CANCEL_QUEUE = false ->
  exists w1 w2 och2,
    local_queue_frame sched p isoutbound (Some fr1) us us_locked w = Ret (0, sched) w1 /\
    local_queue_frame sched p isoutbound (Some fr2) us us_locked w1 = Ret (0, sched) w2 /\
    chans w2 !! o = Some och2 /\
    readq och2 = (readq och ++ [fr1; fr2])%list.
Proof.
  intros Hpv Hother Ho Hus Hgen Hfree Hcancel.
  eexists _, _, _. split; [eapply local_queue_frame_delivers; eassumption |].
  split.
  - eapply local_queue_frame_delivers.
    + wsimpl. apply lookup_insert_eq.
    + wsimpl. exact Hother.
    + wsimpl. apply lookup_insert_eq.
    + intros u Hu. wsimpl. destruct (decide (u = o)) as [-> |].
      * rewrite lookup_insert_eq. eauto.
      * rewrite lookup_insert_ne by congruence. eauto.
    + unfold generators_on_both in *. wsimpl. destruct us as [u |]; [| reflexivity].
      destruct (Hus u eq_refl) as [uch Hu]. rewrite Hu, Ho in Hgen.
      rewrite lookup_insert_eq.
      destruct (decide (u = o)) as [-> |].
      * rewrite lookup_insert_eq. rewrite Ho in Hu. injection Hu as ->.
        unfold queued. destruct (is_ringing fr1); exact Hgen.
      * rewrite lookup_insert_ne, Hu by congruence.
        unfold queued. destruct (is_ringing fr1); exact Hgen.
    + unfold queued. destruct (is_ringing fr1); exact Hfree.
    + wsimpl. rewrite test_cancel_clear_glare. exact Hcancel.
  - wsimpl. split; [apply lookup_insert_eq |].
    unfold queued. destruct (is_ringing fr1), (is_ringing fr2); wsimpl;
      rewrite <- app_assoc; reflexivity.
Qed.

(** The entry points that lock the pvt, forward one frame and unlock. *)
Lemma forward_under_lock sched (p ast : nat) fr us_locked w a (pv : local_pvt)
    (o : nat) och :
  chans w !! ast = Some a ->
  pvts w !! p = Some pv ->
  partner ast pv = Some o ->
  chans w !! o = Some och ->
  generators_on_both w (Some ast) o = false ->
  contended (chan_lock och) = false ->
  ast_test_flag (flags pv) LOCAL_CANCEL_QUEUE = false ->
  (ast_mutex_lock p ;;
   let* pv := load_pvt p in
   queue_and_unlock sched p (IS_OUTBOUND ast pv) fr ast us_locked) w
  = Ret (0, sched) (delivered w p pv o och fr).
Proof.
  intros Ha Hpv Hpartner Ho Hgen Hfree Hcancel. unfold ast_mutex_lock. drv.
  unfold queue_and_unlock.
  erewrite bind_Ret; cycle 1.
  { eapply (local_queue_frame_delivers sched p _ fr (Some ast) us_locked _ (pvt_locked pv) o och).
    - lookup.
    - exact Hpartner.
    - wsimpl. exact Ho.
    - intros u [= <-]. wsimpl. eauto.
    - exact Hgen.
    - exact Hfree.
    - exact Hcancel. }
  cbn beta iota. unfold unlock_unless_failed. change (0 =? 0) with true. cbn iota.
  drv. unfold ret, delivered. f_equal. unfold_setters.
  rewrite ?insert_insert_eq, ?mutex_eta. reflexivity.
Qed.

Lemma local_queue_frame_generators sched (p : nat) (isoutbound : bool) f (u : nat)
    us_locked w (pv : local_pvt) (o : nat) :
  pvts w !! p = Some pv ->
  (if isoutbound then owner pv else chan pv) = Some o ->
  generators_on_both w (Some u) o = true ->
  local_queue_frame sched p isoutbound f (Some u) us_locked w = Ret (0, sched) w.
Proof.
  intros Hpv Hother Hgen. unfold generators_on_both in Hgen.
  destruct (chans w !! u) as [uch |] eqn:Hu; [| discriminate].
  destruct (chans w !! o) as [och |] eqn:Ho; [| discriminate].
  apply andb_prop in Hgen as [Hgu Hgo].
  unfold local_queue_frame, local_queue_frame_acquire, queue_frame_other.
  repeat (drv_step; wsimpl). rewrite Hother. repeat (drv_step; wsimpl).
  rewrite Hgu. repeat (drv_step; wsimpl). rewrite Hgo.
  repeat (drv_step; wsimpl). reflexivity.
Qed.

(** An entry point that locks the pvt, forwards and unlocks: the frame
    is delivered, or dropped under the generator guard. *)
Lemma forward_under_lock_either sched (p ast : nat) fr us_locked w a (pv : local_pvt)
    (o : nat) och :
  chans w !! ast = Some a ->
  pvts w !! p = Some pv ->
  partner ast pv = Some o ->
  chans w !! o = Some och ->
  contended (chan_lock och) = false ->
  ast_test_flag (flags pv) LOCAL_CANCEL_QUEUE = false ->
  (ast_mutex_lock p ;;
   let* pv := load_pvt p in
   queue_and_unlock sched p (IS_OUTBOUND ast pv) fr ast us_locked) w
  = Ret (0, sched) (forwarded w p pv ast o och fr).
Proof.
  intros Ha Hpv Hpartner Ho Hfree Hcancel. unfold forwarded.
  destruct (generators_on_both w (Some ast) o) eqn:Hgen.
  - unfold ast_mutex_lock. drv. unfold queue_and_unlock.
    erewrite bind_Ret; cycle 1.
    { eapply (local_queue_frame_generators sched p _ (Some fr) ast us_locked _
                (pvt_locked pv) o).
      - lookup.
      - exact Hpartner.
      - exact Hgen. }
    cbn beta iota. unfold unlock_unless_failed. change (0 =? 0) with true. cbn iota.
    drv. unfold ret. f_equal. apply world_ext; try reflexivity.
    cbn [pvts set_pvts]. rewrite insert_insert_eq, pvt_unlocked_locked.
    apply insert_id. exact Hpv.
  - eapply forward_under_lock; eassumption.
Qed.

(** X6. Digits, text and HTML written on one endpoint, when the other
    endpoint's lock is free and no forward was cancelled, reach the
    other endpoint as one frame each, unless a generator runs on both
    endpoints: then nothing is forwarded and nothing changes.  DTMF_BEGIN
    and DTMF_END carry the digit in the subclass, DTMF_END the duration
    in [len], TEXT the string with [datalen] its length plus one as an
    [int], HTML the subclass, data and length given.  Either way the
    call returns 0 and leaves the pvt unlocked as before. *)
Theorem local_frames_forwarded sched (p ast : nat) w a (pv : local_pvt) (o : nat) och :
  chans w !! ast = Some a ->
  tech_pvt a = Some p ->
  pvts w !! p = Some pv ->
  partner ast pv = Some o ->
  chans w !! o = Some och ->
  contended (chan_lock och) = false ->
  ast_test_flag (flags pv) LOCAL_CANCEL_QUEUE = false ->
  (forall digit,
     local_digit_begin sched ast digit w
     = Ret (0, sched)
         (forwarded w p pv ast o och
            (mk_frame AST_FRAME_DTMF_BEGIN digit 0 data_none 0))) /\
  (forall digit duration,
     local_digit_end sched ast digit duration w
     = Ret (0, sched)
         (forwarded w p pv ast o och
            (mk_frame AST_FRAME_DTMF_END digit 0 data_none duration))) /\
  (forall text,
     local_sendtext sched ast text w
     = Ret (0, sched)
         (forwarded w p pv ast o och
            (mk_frame AST_FRAME_TEXT 0 (to_int (Z.of_nat (String.length text) + 1))
               (data_ptr text) 0))) /\
  (forall subcl dat dlen,
     local_sendhtml sched ast subcl dat dlen w
     = Ret (0, sched)
         (forwarded w p pv ast o och
            (mk_frame AST_FRAME_HTML subcl dlen (data_ptr dat) 0))).
Proof.
  intros Ha Hp Hpv Hpartner Ho Hfree Hcancel.
  repeat split; intros;
    unfold local_digit_begin, local_digit_end, local_sendtext, local_sendhtml;
    erewrite bind_load_chan by eassumption; rewrite Hp;
    eapply forward_under_lock_either; eassumption.
Qed.

(** X7. [local_answer] on the outbound channel, when the owner's lock
    is free and no forward was cancelled, passes the answer on: the
    control frame AST_CONTROL_ANSWER is queued on the owner and 0 is
    returned; unless a generator runs on both endpoints, when 0 is
    returned and nothing is queued or changed. *)
Theorem local_answer_forwards sched (p ast : nat) w a (pv : local_pvt) (o : nat) och :
  chans w !! ast = Some a ->
  tech_pvt a = Some p ->
  pvts w !! p = Some pv ->
  chan pv = Some ast ->
  owner pv = Some o ->
  chans w !! o = Some och ->
  contended (chan_lock och) = false ->
  ast_test_flag (flags pv) LOCAL_CANCEL_QUEUE = false ->
  local_answer sched ast w
  = Ret (0, sched)
      (forwarded w p pv ast o och
         (mk_frame AST_FRAME_CONTROL AST_CONTROL_ANSWER 0 data_none 0)).
Proof.
  intros Ha Hp Hpv Hchan Howner Ho Hfree Hcancel. unfold local_answer.
  erewrite bind_load_chan by eassumption. rewrite Hp.
  assert (Hob : IS_OUTBOUND ast pv = true)
    by (unfold IS_OUTBOUND; rewrite Hchan; apply bool_decide_eq_true_2; reflexivity).
  pose proof (forward_under_lock_either sched p ast
                (mk_frame AST_FRAME_CONTROL AST_CONTROL_ANSWER 0 data_none 0)
                true w a pv o och Ha Hpv) as Hfwd.
  unfold partner in Hfwd. rewrite Hob in Hfwd.
  specialize (Hfwd Howner Ho Hfree Hcancel).
  unfold queue_and_unlock, ast_mutex_lock in *. revert Hfwd. drv.
  change (IS_OUTBOUND ast (pvt_locked pv)) with (IS_OUTBOUND ast pv).
  rewrite Hob. intros Hfwd. exact Hfwd.
Qed.

(** X8. [local_answer] on the owner side is refused: a warning is
    logged, -1 is returned and nothing is queued.  The pvt lock taken on
    entry is not given back on this path. *)
Theorem local_answer_on_owner sched (p ast : nat) w a (pv : local_pvt) :
  chans w !! ast = Some a ->
  tech_pvt a = Some p ->
  pvts w !! p = Some pv ->
  chan pv <> Some ast ->
  local_answer sched ast w
  = Ret (-1, sched)
      (set_trace (trace w ++ [ev_log LOG_WARNING])
         (set_pvts (<[p := pvt_locked pv]> (pvts w)) w)).
Proof.
  intros Ha Hp Hpv Hchan. unfold local_answer.
  erewrite bind_load_chan by eassumption. rewrite Hp. unfold ast_mutex_lock. drv.
  change (IS_OUTBOUND ast (pvt_locked pv)) with (IS_OUTBOUND ast pv).
  unfold IS_OUTBOUND. rewrite bool_decide_eq_false_2 by congruence.
  drv. reflexivity.
Qed.

(** X9. As long as LOCAL_ALREADY_MASQED is clear, the other endpoint's
    lock is free and no forward was cancelled, [local_write] forwards
    the frame to the other endpoint and returns 0 whenever the
    optimize-away check is not run (the write is on the owner, or the
    frame is neither voice nor video) or is barred by
    LOCAL_NO_OPTIMIZATION; unless a generator runs on both endpoints,
    when it returns 0 and the frame is dropped, nothing changing. *)
Theorem local_write_passes_through sched (p ast : nat) fr w a (pv : local_pvt)
    (o : nat) och :
  chans w !! ast = Some a ->
  tech_pvt a = Some p ->
  pvts w !! p = Some pv ->
  ast_test_flag (flags pv) LOCAL_ALREADY_MASQED = false ->
  IS_OUTBOUND ast pv && is_media (Some fr) = false
    \/ ast_test_flag (flags pv) LOCAL_NO_OPTIMIZATION = true ->
  partner ast pv = Some o ->
  chans w !! o = Some och ->
  contended (chan_lock och) = false ->
  ast_test_flag (flags pv) LOCAL_CANCEL_QUEUE = false ->
  local_write sched ast (Some fr) w = Ret (0, sched) (forwarded w p pv ast o och fr).
Proof.
  intros Ha Hp Hpv Hmasq Hnocheck Hpartner Ho Hfree Hcancel.
  unfold local_write. erewrite bind_load_chan by eassumption. rewrite Hp.
  unfold ast_mutex_lock. drv.
  change (IS_OUTBOUND ast (pvt_locked pv)) with (IS_OUTBOUND ast pv).
  set (w1 := set_pvts _ w).
  assert (Hpv1 : pvts w1 !! p = Some (pvt_locked pv)) by (subst w1; lookup).
  assert (Hcb : (if IS_OUTBOUND ast pv && is_media (Some fr)
                 then check_bridge p else ret tt) w1 = Ret tt w1).
  { destruct Hnocheck as [-> | Hno]; [reflexivity |].
    destruct (IS_OUTBOUND ast pv && is_media (Some fr)); [| reflexivity].
    eapply check_bridge_flagged; [exact Hpv1 |].
    change (flags (pvt_locked pv)) with (flags pv). rewrite Hno. apply orb_true_r. }
  rewrite (bind_Ret _ _ _ _ _ Hcb).
  erewrite bind_load_pvt by exact Hpv1.
  change (flags (pvt_locked pv)) with (flags pv). rewrite Hmasq. cbn [negb].
  unfold forwarded. destruct (generators_on_both w (Some ast) o) eqn:Hgen.
  - erewrite bind_Ret; cycle 1.
    { eapply (local_queue_frame_generators sched p _ (Some fr) ast true w1
                (pvt_locked pv) o).
      - exact Hpv1.
      - exact Hpartner.
      - exact Hgen. }
    cbn beta iota. unfold unlock_unless_failed. change (0 =? 0) with true. cbn iota.
    subst w1. drv. unfold ret. f_equal. apply world_ext; try reflexivity.
    cbn [pvts set_pvts]. rewrite insert_insert_eq, pvt_unlocked_locked.
    apply insert_id. exact Hpv.
  - erewrite bind_Ret; cycle 1.
    { eapply (local_queue_frame_delivers sched p _ fr (Some ast) true w1
                (pvt_locked pv) o och).
      - exact Hpv1.
      - exact Hpartner.
      - exact Ho.
      - intros u [= <-]. subst w1. wsimpl. eauto.
      - exact Hgen.
      - exact Hfree.
      - exact Hcancel. }
    cbn beta iota. unfold unlock_unless_failed. change (0 =? 0) with true. cbn iota.
    subst w1. drv. unfold ret, delivered. f_equal. unfold_setters.
    rewrite ?insert_insert_eq, ?mutex_eta. reflexivity.
Qed.

End Forward.

(* ================================================================== *)
(** ** Indications *)

Section Indicate.
Context `{Switch}.

(** X10. Without LOCAL_MOH_PASSTHRU, a hold or unhold indication is
    served on the channel itself: music on hold is started, respectively
    stopped, on [ast]; 0 is returned, the pvt is not locked and no frame
    goes to the other endpoint. *)
Theorem local_indicate_hold_local sched (p ast : nat) dat dlen w a (pv : local_pvt) :
  chans w !! ast = Some a ->
  tech_pvt a = Some p ->
  pvts w !! p = Some pv ->
  ast_test_flag (flags pv) LOCAL_MOH_PASSTHRU = false ->
  local_indicate sched ast AST_CONTROL_HOLD dat dlen w
    = Ret (0, sched) (set_trace (trace w ++ [ev_moh_start ast]) w) /\
  (AST_CONTROL_UNHOLD <> AST_CONTROL_HOLD ->
   local_indicate sched ast AST_CONTROL_UNHOLD dat dlen w
    = Ret (0, sched) (set_trace (trace w ++ [ev_moh_stop ast]) w)).
Proof.
  intros Ha Hp Hpv Hmoh. split.
  - unfold local_indicate. erewrite bind_load_chan by eassumption. rewrite Hp.
    erewrite bind_load_pvt by eassumption. rewrite Hmoh, Z.eqb_refl. cbn [negb andb].
    drv. reflexivity.
  - intros Hne. unfold local_indicate. erewrite bind_load_chan by eassumption.
    rewrite Hp. erewrite bind_load_pvt by eassumption. rewrite Hmoh, Z.eqb_refl.
    apply Z.eqb_neq in Hne. rewrite Hne. cbn [negb andb]. drv. reflexivity.
Qed.

(** X11. An indication that is not served locally and is no party
    update ([plain_indication]) travels as a control frame when the
    other endpoint's lock is free and no forward was cancelled: the
    other endpoint gets one AST_FRAME_CONTROL frame whose subclass is
    the condition, whose data are those given and whose [datalen] is
    the length given, a [size_t], as an [int]; 0 is returned.  With
    LOCAL_MOH_PASSTHRU set this includes hold and unhold, and no music
    on hold is started.  When a generator runs on both endpoints the
    frame is dropped: 0 is returned and nothing changes. *)
Theorem local_indicate_forwards sched (p ast : nat) condition dat dlen w a
    (pv : local_pvt) (o : nat) och :
  chans w !! ast = Some a ->
  tech_pvt a = Some p ->
  pvts w !! p = Some pv ->
  plain_indication pv condition ->
  partner ast pv = Some o ->
  chans w !! o = Some och ->
  contended (chan_lock och) = false ->
  ast_test_flag (flags pv) LOCAL_CANCEL_QUEUE = false ->
  local_indicate sched ast condition dat dlen w
  = Ret (0, sched)
      (forwarded w p pv ast o och
         (mk_frame AST_FRAME_CONTROL condition (to_int dlen) dat 0)).
Proof.
  intros Ha Hp Hpv (Hmoh & Hcl & Hrd) Hpartner Ho Hfree Hcancel.
  unfold local_indicate. erewrite bind_load_chan by eassumption. rewrite Hp.
  erewrite bind_load_pvt by eassumption.
  apply Z.eqb_neq in Hcl, Hrd. rewrite Hcl, Hrd. cbn [orb].
  assert (Hb1 : negb (ast_test_flag (flags pv) LOCAL_MOH_PASSTHRU)
                && (condition =? AST_CONTROL_HOLD) = false).
  { destruct Hmoh as [-> | [Hh _]]; [reflexivity |].
    apply Z.eqb_neq in Hh. rewrite Hh. apply andb_false_r. }
  assert (Hb2 : negb (ast_test_flag (flags pv) LOCAL_MOH_PASSTHRU)
                && (condition =? AST_CONTROL_UNHOLD) = false).
  { destruct Hmoh as [-> | [_ Hu]]; [reflexivity |].
    apply Z.eqb_neq in Hu. rewrite Hu. apply andb_false_r. }
  rewrite Hb1, Hb2.
  eapply forward_under_lock_either; eassumption.
Qed.

Lemma queue_and_unlock_delivers sched (p ast : nat) (isoutbound : bool) fr us_locked w
    (pv : local_pvt) (o : nat) och n :
  pvts w !! p = Some pv ->
  held (lock pv) = S n ->
  (if isoutbound then owner pv else chan pv) = Some o ->
  chans w !! o = Some och ->
  is_Some (chans w !! ast) ->
  generators_on_both w (Some ast) o = false ->
  contended (chan_lock och) = false ->
  ast_test_flag (flags pv) LOCAL_CANCEL_QUEUE = false ->
  queue_and_unlock sched p isoutbound fr ast us_locked w
  = Ret (0, sched)
      (set_chans (<[o := queued fr och]> (chans w))
         (set_pvts (<[p := pvt_unlocked
                            (set_flags (ast_clear_flag (flags pv) LOCAL_GLARE_DETECT) pv)]>
                      (pvts w)) w)).
Proof.
  intros Hpv Hheld Hother Ho Hast Hgen Hfree Hcancel. unfold queue_and_unlock.
  erewrite bind_Ret; cycle 1.
  { eapply (local_queue_frame_delivers sched p isoutbound fr (Some ast) us_locked w pv o och);
      try eassumption.
    intros u [= <-]. exact Hast. }
  cbn beta iota. unfold unlock_unless_failed. change (0 =? 0) with true. cbn iota.
  drv. rewrite Hheld. drv. unfold ret. f_equal. unfold_setters.
  rewrite ?insert_insert_eq. reflexivity.
Qed.

Lemma queue_and_unlock_generators sched (p ast : nat) (isoutbound : bool) fr us_locked w
    (pv : local_pvt) (o : nat) n :
  pvts w !! p = Some pv ->
  held (lock pv) = S n ->
  (if isoutbound then owner pv else chan pv) = Some o ->
  generators_on_both w (Some ast) o = true ->
  queue_and_unlock sched p isoutbound fr ast us_locked w
  = Ret (0, sched) (set_pvts (<[p := pvt_unlocked pv]> (pvts w)) w).
Proof.
  intros Hpv Hheld Hother Hgen. unfold queue_and_unlock.
  erewrite bind_Ret; cycle 1.
  { eapply (local_queue_frame_generators sched p isoutbound (Some fr) ast us_locked w pv o);
      eassumption. }
  cbn beta iota. unfold unlock_unless_failed. change (0 =? 0) with true. cbn iota.
  drv. rewrite Hheld. drv. reflexivity.
Qed.

(** X12. A connected-line or redirecting update, when the other
    endpoint's lock is free and no forward was cancelled, is forwarded
    with the party information held on the channel it was indicated on,
    not with the data passed in: the frame's payload is built from that
    channel's [connected], respectively [redirecting].  On the outbound
    side a connected-line update first copies the channel's connected
    line into the owner's caller; that copy is made even when a
    generator runs on both endpoints, and the frame is then dropped.
    0 is returned either way. *)
Theorem local_indicate_party_update sched (p ast : nat) condition dat dlen w a
    (pv : local_pvt) (o : nat) och :
  chans w !! ast = Some a ->
  tech_pvt a = Some p ->
  pvts w !! p = Some pv ->
  party_update pv condition ->
  (if IS_OUTBOUND ast pv then chan pv else owner pv) = Some ast ->
  partner ast pv = Some o ->
  o <> ast ->
  chans w !! o = Some och ->
  contended (chan_lock och) = false ->
  ast_test_flag (flags pv) LOCAL_CANCEL_QUEUE = false ->
  local_indicate sched ast condition dat dlen w
  = Ret (0, sched)
      (if generators_on_both w (Some ast) o
       then set_chans
              (<[o := party_copied condition (IS_OUTBOUND ast pv) a och]> (chans w)) w
       else delivered w p pv o (party_copied condition (IS_OUTBOUND ast pv) a och)
              (party_frame condition a)).
Proof.
  intros Ha Hp Hpv (Hcond & Hmoh) Hthis Hpartner Hne Ho Hfree Hcancel.
  unfold local_indicate. erewrite bind_load_chan by eassumption. rewrite Hp.
  erewrite bind_load_pvt by eassumption.
  assert (Hb1 : negb (ast_test_flag (flags pv) LOCAL_MOH_PASSTHRU)
                && (condition =? AST_CONTROL_HOLD) = false).
  { destruct Hmoh as [-> | [Hh _]]; [reflexivity |].
    apply Z.eqb_neq in Hh. rewrite Hh. apply andb_false_r. }
  assert (Hb2 : negb (ast_test_flag (flags pv) LOCAL_MOH_PASSTHRU)
                && (condition =? AST_CONTROL_UNHOLD) = false).
  { destruct Hmoh as [-> | [_ Hu]]; [reflexivity |].
    apply Z.eqb_neq in Hu. rewrite Hu. apply andb_false_r. }
  rewrite Hb1, Hb2.
  assert (Hb3 : (condition =? AST_CONTROL_CONNECTED_LINE)
                || (condition =? AST_CONTROL_REDIRECTING) = true).
  { destruct Hcond as [-> | ->]; rewrite Z.eqb_refl; [reflexivity | apply orb_true_r]. }
  rewrite Hb3. unfold ast_mutex_lock. drv.
  change (IS_OUTBOUND ast (pvt_locked pv)) with (IS_OUTBOUND ast pv).
  unfold partner in Hpartner. rewrite Hpartner, Hthis. drv.
  assert (Hgens : generators_on_both w (Some ast) o = generator a && generator och).
  { unfold generators_on_both. rewrite Ha, Ho. reflexivity. }
  unfold party_frame, party_copied, delivered.
  destruct (condition =? AST_CONTROL_CONNECTED_LINE); cbn [andb].
  - destruct (IS_OUTBOUND ast pv) eqn:Hob; drv.
    + destruct (ast_connected_line_build_data (connected a)) as [bytes blen] eqn:Hbuilt.
      cbn [fst snd].
      destruct (generators_on_both w (Some ast) o) eqn:Hgen.
      * etransitivity.
        { eapply (queue_and_unlock_generators sched p ast true _ true _ (pvt_locked pv) o);
            try reflexivity.
          - lookup.
          - wsimpl. exact Hpartner.
          - unfold generators_on_both. wsimpl.
            rewrite lookup_insert_ne, Ha, lookup_insert_eq by congruence.
            symmetry. exact Hgens. }
        unfold ret. f_equal. apply world_ext; try reflexivity.
        cbn [pvts set_pvts set_chans]. rewrite insert_insert_eq, pvt_unlocked_locked.
        apply insert_id. exact Hpv.
      * etransitivity.
        { eapply (queue_and_unlock_delivers sched p ast true _ true _ (pvt_locked pv) o);
            try reflexivity.
          - lookup.
          - wsimpl. exact Hpartner.
          - wsimpl. apply lookup_insert_eq.
          - wsimpl. rewrite lookup_insert_ne by congruence. eauto.
          - unfold generators_on_both. wsimpl.
            rewrite lookup_insert_ne, Ha, lookup_insert_eq by congruence.
            symmetry. exact Hgens.
          - exact Hfree.
          - exact Hcancel. }
        unfold ret. f_equal. unfold_setters.
        rewrite ?insert_insert_eq, ?mutex_eta. reflexivity.
    + destruct (ast_connected_line_build_data (connected a)) as [bytes blen] eqn:Hbuilt.
      cbn [fst snd].
      destruct (generators_on_both w (Some ast) o) eqn:Hgen.
      * etransitivity.
        { eapply (queue_and_unlock_generators sched p ast false _ true _ (pvt_locked pv) o);
            try reflexivity.
          - lookup.
          - wsimpl. exact Hpartner.
          - exact Hgen. }
        unfold ret. f_equal. apply world_ext; try reflexivity.
        -- cbn [chans set_chans set_pvts]. symmetry. apply insert_id. exact Ho.
        -- cbn [pvts set_pvts set_chans]. rewrite insert_insert_eq, pvt_unlocked_locked.
           apply insert_id. exact Hpv.
      * etransitivity.
        { eapply (queue_and_unlock_delivers sched p ast false _ true _ (pvt_locked pv) o och);
            try reflexivity.
          - lookup.
          - wsimpl. exact Hpartner.
          - wsimpl. exact Ho.
          - wsimpl. eauto.
          - exact Hgen.
          - exact Hfree.
          - exact Hcancel. }
        unfold ret. f_equal. unfold_setters.
        rewrite ?insert_insert_eq, ?mutex_eta. reflexivity.
  - drv.
    destruct (ast_redirecting_build_data (redirecting a)) as [bytes blen] eqn:Hbuilt.
    cbn [fst snd].
    destruct (generators_on_both w (Some ast) o) eqn:Hgen.
    + etransitivity.
      { eapply (queue_and_unlock_generators sched p ast _ _ true _ (pvt_locked pv) o);
          try reflexivity.
        - lookup.
        - wsimpl. exact Hpartner.
        - exact Hgen. }
      unfold ret. f_equal. apply world_ext; try reflexivity.
      * cbn [chans set_chans set_pvts]. symmetry. apply insert_id. exact Ho.
      * cbn [pvts set_pvts set_chans]. rewrite insert_insert_eq, pvt_unlocked_locked.
        apply insert_id. exact Hpv.
    + etransitivity.
      { eapply (queue_and_unlock_delivers sched p ast _ _ true _ (pvt_locked pv) o och);
          try reflexivity.
        - lookup.
        - wsimpl. exact Hpartner.
        - wsimpl. exact Ho.
        - wsimpl. eauto.
        - exact Hgen.
        - exact Hfree.
        - exact Hcancel. }
      unfold ret. f_equal. unfold_setters.
      rewrite ?insert_insert_eq, ?mutex_eta. reflexivity.
Qed.

(** X13. A connected-line or redirecting update indicated when the
    other endpoint is already gone is dropped: 0 is returned and the
    world is left as it was. *)
Theorem local_indicate_party_update_no_partner sched (p ast : nat) condition dat dlen w a
    (pv : local_pvt) :
  chans w !! ast = Some a ->
  tech_pvt a = Some p ->
  pvts w !! p = Some pv ->
  party_update pv condition ->
  partner ast pv = None ->
  local_indicate sched ast condition dat dlen w = Ret (0, sched) w.
Proof.
  intros Ha Hp Hpv (Hcond & Hmoh) Hpartner.
  unfold local_indicate. erewrite bind_load_chan by eassumption. rewrite Hp.
  erewrite bind_load_pvt by eassumption.
  assert (Hb1 : negb (ast_test_flag (flags pv) LOCAL_MOH_PASSTHRU)
                && (condition =? AST_CONTROL_HOLD) = false).
  { destruct Hmoh as [-> | [Hh _]]; [reflexivity |].
    apply Z.eqb_neq in Hh. rewrite Hh. apply andb_false_r. }
  assert (Hb2 : negb (ast_test_flag (flags pv) LOCAL_MOH_PASSTHRU)
                && (condition =? AST_CONTROL_UNHOLD) = false).
  { destruct Hmoh as [-> | [_ Hu]]; [reflexivity |].
    apply Z.eqb_neq in Hu. rewrite Hu. apply andb_false_r. }
  rewrite Hb1, Hb2.
  assert (Hb3 : (condition =? AST_CONTROL_CONNECTED_LINE)
                || (condition =? AST_CONTROL_REDIRECTING) = true).
  { destruct Hcond as [-> | ->]; rewrite Z.eqb_refl; [reflexivity | apply orb_true_r]. }
  rewrite Hb3. unfold ast_mutex_lock. drv.
  change (IS_OUTBOUND ast (pvt_locked pv)) with (IS_OUTBOUND ast pv).
  unfold partner in Hpartner. rewrite Hpartner. drv.
  unfold ret. f_equal. world_back.
Qed.

End Indicate.

(* ================================================================== *)
(** ** Fixup *)

Section Fixup.

(** The three ways through [local_fixup]. *)
Lemma local_fixup_cases (p oldchan newchan : nat) w n (pv : local_pvt) :
  chans w !! newchan = Some n ->
  tech_pvt n = Some p ->
  pvts w !! p = Some pv ->
  (owner pv = Some oldchan ->
     local_fixup oldchan newchan w
     = Ret 0 (set_pvts (<[p := set_owner (Some newchan) pv]> (pvts w)) w)) /\
  (owner pv <> Some oldchan -> chan pv = Some oldchan ->
     local_fixup oldchan newchan w
     = Ret 0 (set_pvts (<[p := set_chan (Some newchan) pv]> (pvts w)) w)) /\
  (owner pv <> Some oldchan -> chan pv <> Some oldchan ->
     local_fixup oldchan newchan w
     = Ret (-1) (set_trace (trace w ++ [ev_log LOG_WARNING]) w)).
Proof.
  intros Hn Hp Hpv. split; [| split].
  - intros Ho. unfold local_fixup. erewrite bind_load_chan by eassumption.
    rewrite Hp. unfold ast_mutex_lock. drv.
    rewrite (bool_decide_eq_false_2 (owner pv <> Some oldchan)) by (intros Hc; congruence).
    cbn [andb]. rewrite bool_decide_eq_true_2 by exact Ho. drv.
    unfold ret. f_equal. unfold_setters. rewrite ?insert_insert_eq, ?mutex_eta.
    reflexivity.
  - intros Ho Hc. unfold local_fixup. erewrite bind_load_chan by eassumption.
    rewrite Hp. unfold ast_mutex_lock. drv.
    rewrite (bool_decide_eq_true_2 (owner pv <> Some oldchan)) by exact Ho.
    rewrite (bool_decide_eq_false_2 (chan pv <> Some oldchan)) by (intros Hx; congruence).
    cbn [andb]. rewrite bool_decide_eq_false_2 by exact Ho. drv.
    unfold ret. f_equal. unfold_setters. rewrite ?insert_insert_eq, ?mutex_eta.
    reflexivity.
  - intros Ho Hc. unfold local_fixup. erewrite bind_load_chan by eassumption.
    rewrite Hp. unfold ast_mutex_lock. drv.
    rewrite (bool_decide_eq_true_2 (owner pv <> Some oldchan)) by exact Ho.
    rewrite (bool_decide_eq_true_2 (chan pv <> Some oldchan)) by exact Hc.
    cbn [andb]. drv. unfold ret. f_equal. world_back. reflexivity.
Qed.

(** X14. [local_fixup(oldchan, newchan)] puts [newchan] in the slot that
    held [oldchan], the owner slot first, and returns 0, changing nothing
    else; when neither slot holds [oldchan] it logs a warning and returns
    -1, the pvt untouched. *)
Theorem local_fixup_replaces (p oldchan newchan : nat) w n (pv : local_pvt) :
  chans w !! newchan = Some n ->
  tech_pvt n = Some p ->
  pvts w !! p = Some pv ->
  (owner pv = Some oldchan ->
     local_fixup oldchan newchan w
     = Ret 0 (set_pvts (<[p := set_owner (Some newchan) pv]> (pvts w)) w)) /\
  (owner pv <> Some oldchan -> chan pv = Some oldchan ->
     local_fixup oldchan newchan w
     = Ret 0 (set_pvts (<[p := set_chan (Some newchan) pv]> (pvts w)) w)) /\
  (owner pv <> Some oldchan -> chan pv <> Some oldchan ->
     local_fixup oldchan newchan w
     = Ret (-1) (set_trace (trace w ++ [ev_log LOG_WARNING]) w)).
Proof. intros Hn Hp Hpv. exact (local_fixup_cases p oldchan newchan w n pv Hn Hp Hpv). Qed.

(** X15. A fixup is undone by the opposite fixup: when [oldchan] is one
    of the pvt's handles and [newchan] is not, replacing [oldchan] by
    [newchan] and then [newchan] by [oldchan] gives back the world they
    started from. *)
Theorem local_fixup_round_trip (p oldchan newchan : nat) w n o (pv : local_pvt) :
  chans w !! newchan = Some n -> tech_pvt n = Some p ->
  chans w !! oldchan = Some o -> tech_pvt o = Some p ->
  pvts w !! p = Some pv ->
  owner pv = Some oldchan \/ chan pv = Some oldchan ->
  owner pv <> Some newchan -> chan pv <> Some newchan ->
  exists w1,
    local_fixup oldchan newchan w = Ret 0 w1 /\
    local_fixup newchan oldchan w1 = Ret 0 w.
Proof.
  intros Hn Hpn Ho Hpo Hpv Hold Hno Hnc.
  destruct (local_fixup_cases p oldchan newchan w n pv Hn Hpn Hpv) as (Ha & Hb & _).
  destruct (decide (owner pv = Some oldchan)) as [Hown | Hown].
  - eexists. split; [exact (Ha Hown) |].
    destruct (local_fixup_cases p newchan oldchan
                (set_pvts (<[p := set_owner (Some newchan) pv]> (pvts w)) w) o
                (set_owner (Some newchan) pv)) as (Ha' & _); [exact Ho | exact Hpo | lookup |].
    rewrite Ha' by reflexivity. f_equal.
    replace (set_owner (Some oldchan) (set_owner (Some newchan) pv)) with pv
      by (rewrite <- Hown; destruct pv; reflexivity).
    unfold set_pvts. wsimpl. rewrite insert_insert_eq, (insert_id _ _ _ Hpv).
    apply world_eta.
  - destruct Hold as [Hown' | Hchan]; [contradiction |].
    eexists. split; [exact (Hb Hown Hchan) |].
    destruct (local_fixup_cases p newchan oldchan
                (set_pvts (<[p := set_chan (Some newchan) pv]> (pvts w)) w) o
                (set_chan (Some newchan) pv)) as (_ & Hb' & _); [exact Ho | exact Hpo | lookup |].
    rewrite Hb' by (wsimpl; congruence). f_equal.
    replace (set_chan (Some oldchan) (set_chan (Some newchan) pv)) with pv
      by (rewrite <- Hchan; destruct pv; reflexivity).
    unfold set_pvts. wsimpl. rewrite insert_insert_eq, (insert_id _ _ _ Hpv).
    apply world_eta.
Qed.

End Fixup.

(* ================================================================== *)
(** ** The optimize-away *)
Section Splice.
Context `{Switch}.

Ltac heap_eq b o c :=
  let x := fresh "x" in
  apply map_eq; intros x;
  destruct (decide (x = b)) as [-> | ?];
    [| destruct (decide (x = o)) as [-> | ?];
       [| destruct (decide (x = c)) as [-> | ?]]];
  repeat first [ rewrite lookup_insert_eq
               | rewrite lookup_insert_ne by congruence ];
  try reflexivity.

Lemma check_bridge_splices w (p : nat) (pv : local_pvt) (c o b : nat) cch och bch :
  pvts w !! p = Some pv ->
  ast_test_flag (flags pv) LOCAL_ALREADY_MASQED = false ->
  ast_test_flag (flags pv) LOCAL_NO_OPTIMIZATION = false ->
  chan pv = Some c -> owner pv = Some o ->
  c <> o -> c <> b -> o <> b ->
  chans w !! c = Some cch -> chans w !! o = Some och -> chans w !! b = Some bch ->
  _bridge cch = Some b -> ast_bridged_channel w c = Some b ->
  readq och = [] ->
  contended (chan_lock bch) = false -> contended (chan_lock och) = false ->
  (forall w', ast_check_hangup w' b = false) ->
  (forall w', ast_check_hangup w' o = false) ->
  check_bridge p w = Ret tt (masqueraded w p pv c o b cch och bch).
Proof.
  intros Hpv Hmasq Hnoopt Hc Ho Hco Hcb Hob Hcch Hoch Hbch Hbridge Hbridged Hq
    Hbfree Hofree Hbup Houp.
  unfold check_bridge. erewrite bind_load_pvt by eassumption.
  rewrite Hmasq, Hnoopt, Hc, Ho. cbn [orb].
  erewrite bind_load_chan by eassumption. rewrite bind_get, Hbridge, Hbridged.
  rewrite bool_decide_eq_true_2 by reflexivity. cbn [negb].
  erewrite bind_load_chan by eassumption. rewrite Hq.
  drv. rewrite Hbfree. drv. change (0 =? 0) with true. cbn [negb]. drv.
  rewrite Hbup. drv. rewrite Hofree. drv. change (0 =? 0) with true. cbn iota. drv.
  rewrite Houp. cbn [negb]. unfold check_bridge_masquerade.
  unfold masqueraded, preswapped_chan, preswapped_owner, preswapped_peer,
    preswap_monitor, preswap_audiohooks, preswap_caller, preswap_redirecting, preswap_dialed.
  drv.
  repeat (match goal with
          | |- bind (if ?b then _ else _) _ _ = _ => destruct b
          end; drv).
  all: unfold modify, ret; f_equal; apply world_ext.
  all: cbn [chans pvts locals trace set_chans set_pvts set_locals set_trace].
  all: try reflexivity.
  all: try (rewrite <- app_assoc; reflexivity).
  all: heap_eq b o c.
  all: rewrite ?Hcch; f_equal; apply chan_ext; reflexivity.
Qed.

(** X16. When the five conditions hold, the outbound channel really is
    bridged, the locks of its bridge peer and of the owner are free and
    neither is being hung up, [check_bridge] asks the switch once for
    the masquerade of the peer into the owner, after the group update,
    and sets LOCAL_ALREADY_MASQED.  It returns with every lock as it
    found it, and changes no read queue, no bridge link, no handle of the
    pvt and no registry entry.  Run again on the result it does nothing,
    so a pvt asks for at most one masquerade. *)
Theorem check_bridge_optimizes w (p : nat) (pv : local_pvt) (c o b : nat) cch och bch :
  pvts w !! p = Some pv ->
  ast_test_flag (flags pv) LOCAL_ALREADY_MASQED = false ->
  ast_test_flag (flags pv) LOCAL_NO_OPTIMIZATION = false ->
  chan pv = Some c -> owner pv = Some o ->
  c <> o -> c <> b -> o <> b ->
  chans w !! c = Some cch -> chans w !! o = Some och -> chans w !! b = Some bch ->
  _bridge cch = Some b ->
  ast_bridged_channel w c = Some b ->
  readq och = [] ->
  contended (chan_lock bch) = false ->
  contended (chan_lock och) = false ->
  (forall w', ast_check_hangup w' b = false) ->
  (forall w', ast_check_hangup w' o = false) ->
  exists w' pv',
    check_bridge p w = Ret tt w' /\
    check_bridge p w' = Ret tt w' /\
    trace w' = (trace w ++ [ev_group_update c o; ev_masquerade o b])%list /\
    pvts w' !! p = Some pv' /\
    ast_test_flag (flags pv') LOCAL_ALREADY_MASQED = true /\
    owner pv' = owner pv /\ chan pv' = chan pv /\
    locals w' = locals w /\
    (forall x : nat,
       readq <$> chans w' !! x = readq <$> chans w !! x /\
       chan_lock <$> chans w' !! x = chan_lock <$> chans w !! x /\
       _bridge <$> chans w' !! x = _bridge <$> chans w !! x /\
       tech_pvt <$> chans w' !! x = tech_pvt <$> chans w !! x).
Proof.
  intros Hpv Hmasq Hnoopt Hc Ho Hco Hcb Hob Hcch Hoch Hbch Hbridge Hbridged Hq
    Hbfree Hofree Hbup Houp.
  eexists _, _. split; [eapply check_bridge_splices; eassumption |].
  split.
  { eapply check_bridge_flagged.
    - unfold masqueraded. wsimpl. apply lookup_insert_eq.
    - wsimpl. rewrite test_set_flag by discriminate. reflexivity. }
  unfold masqueraded. wsimpl. split; [reflexivity |].
  split; [apply lookup_insert_eq |]. wsimpl.
  split; [apply test_set_flag; discriminate |].
  repeat (split; [reflexivity |]).
  intros x. rewrite !lookup_insert. repeat case_decide; subst;
    rewrite ?Hcch, ?Hoch, ?Hbch; repeat split; reflexivity.
Qed.

(** X17. The pre-swaps exchange, they do not copy.  After a successful
    [check_bridge]: caller, redirecting and dialed information that is
    set on the owner has changed places with the peer's; a monitor on
    the owner has moved to a peer that had none; audio hooks on the
    outbound channel have changed places with the owner's.  What is not
    set stays where it was. *)
Theorem check_bridge_exchanges w (p : nat) (pv : local_pvt) (c o b : nat) cch och bch :
  pvts w !! p = Some pv ->
  ast_test_flag (flags pv) LOCAL_ALREADY_MASQED = false ->
  ast_test_flag (flags pv) LOCAL_NO_OPTIMIZATION = false ->
  chan pv = Some c -> owner pv = Some o ->
  c <> o -> c <> b -> o <> b ->
  chans w !! c = Some cch -> chans w !! o = Some och -> chans w !! b = Some bch ->
  _bridge cch = Some b ->
  ast_bridged_channel w c = Some b ->
  readq och = [] ->
  contended (chan_lock bch) = false ->
  contended (chan_lock och) = false ->
  (forall w', ast_check_hangup w' b = false) ->
  (forall w', ast_check_hangup w' o = false) ->
  exists w' cch' och' bch',
    check_bridge p w = Ret tt w' /\
    chans w' !! c = Some cch' /\ chans w' !! o = Some och' /\ chans w' !! b = Some bch' /\
    (caller och', caller bch')
      = (if preswap_caller och then (caller bch, caller och) else (caller och, caller bch)) /\
    (redirecting och', redirecting bch')
      = (if preswap_redirecting och then (redirecting bch, redirecting och)
         else (redirecting och, redirecting bch)) /\
    (dialed och', dialed bch')
      = (if preswap_dialed och then (dialed bch, dialed och) else (dialed och, dialed bch)) /\
    (monitor och', monitor bch')
      = (if preswap_monitor och bch then (None, monitor och)
         else (monitor och, monitor bch)) /\
    (audiohooks cch', audiohooks och')
      = (if preswap_audiohooks cch then (audiohooks och, audiohooks cch)
         else (audiohooks cch, audiohooks och)).
Proof.
  intros Hpv Hmasq Hnoopt Hc Ho Hco Hcb Hob Hcch Hoch Hbch Hbridge Hbridged Hq
    Hbfree Hofree Hbup Houp.
  eexists _, _, _, _. split; [eapply check_bridge_splices; eassumption |].
  unfold masqueraded. wsimpl.
  split; [rewrite !lookup_insert_ne by congruence; apply lookup_insert_eq |].
  split; [rewrite lookup_insert_ne by congruence; apply lookup_insert_eq |].
  split; [apply lookup_insert_eq |].
  unfold preswapped_chan, preswapped_owner, preswapped_peer. wsimpl.
  destruct (preswap_caller och), (preswap_redirecting och), (preswap_dialed och),
    (preswap_audiohooks cch); repeat (split; [reflexivity |]);
    (split; [| reflexivity]);
    destruct (preswap_monitor och bch) eqn:Hm; try reflexivity;
    unfold preswap_monitor in Hm; apply andb_prop in Hm as [_ Hm];
    apply bool_decide_eq_true in Hm; rewrite Hm; reflexivity.
Qed.

(** X18. When the bridge peer turns out to be hung up, [check_bridge]
    requests no masquerade and changes no flag, but it returns with the
    peer's lock, which it had just taken, still held. *)
Theorem check_bridge_peer_hungup w (p : nat) (pv : local_pvt) (c o b : nat) cch och bch :
  pvts w !! p = Some pv ->
  ast_test_flag (flags pv) LOCAL_ALREADY_MASQED = false ->
  ast_test_flag (flags pv) LOCAL_NO_OPTIMIZATION = false ->
  chan pv = Some c -> owner pv = Some o ->
  chans w !! c = Some cch -> chans w !! o = Some och -> chans w !! b = Some bch ->
  _bridge cch = Some b ->
  ast_bridged_channel w c = Some b ->
  readq och = [] ->
  contended (chan_lock bch) = false ->
  ast_check_hangup (set_chans (<[b := chan_locked bch]> (chans w)) w) b = true ->
  check_bridge p w = Ret tt (set_chans (<[b := chan_locked bch]> (chans w)) w).
Proof.
  intros Hpv Hmasq Hnoopt Hc Ho Hcch Hoch Hbch Hbridge Hbridged Hq Hbfree Hdown.
  unfold check_bridge. erewrite bind_load_pvt by eassumption.
  rewrite Hmasq, Hnoopt, Hc, Ho. cbn [orb].
  erewrite bind_load_chan by eassumption. rewrite bind_get, Hbridge, Hbridged.
  rewrite bool_decide_eq_true_2 by reflexivity. cbn [negb].
  erewrite bind_load_chan by eassumption. rewrite Hq.
  drv. rewrite Hbfree. drv. change (0 =? 0) with true. cbn [negb]. drv.
  rewrite Hdown. reflexivity.
Qed.

(** X19. Contention aborts the optimize-away silently: if the peer's
    lock is taken, or the peer's lock is free but the owner's is taken,
    [check_bridge] leaves the world as it was. *)
Theorem check_bridge_contended w (p : nat) (pv : local_pvt) (c o b : nat) cch och bch :
  pvts w !! p = Some pv ->
  ast_test_flag (flags pv) LOCAL_ALREADY_MASQED = false ->
  ast_test_flag (flags pv) LOCAL_NO_OPTIMIZATION = false ->
  chan pv = Some c -> owner pv = Some o ->
  o <> b ->
  chans w !! c = Some cch -> chans w !! o = Some och -> chans w !! b = Some bch ->
  _bridge cch = Some b ->
  ast_bridged_channel w c = Some b ->
  readq och = [] ->
  (contended (chan_lock bch) = true -> check_bridge p w = Ret tt w) /\
  (contended (chan_lock bch) = false ->
   ast_check_hangup (set_chans (<[b := chan_locked bch]> (chans w)) w) b = false ->
   contended (chan_lock och) = true ->
   check_bridge p w = Ret tt w).
Proof.
  intros Hpv Hmasq Hnoopt Hc Ho Hob Hcch Hoch Hbch Hbridge Hbridged Hq.
  split.
  - intros Hbusy. unfold check_bridge. erewrite bind_load_pvt by eassumption.
    rewrite Hmasq, Hnoopt, Hc, Ho. cbn [orb].
    erewrite bind_load_chan by eassumption. rewrite bind_get, Hbridge, Hbridged.
    rewrite bool_decide_eq_true_2 by reflexivity. cbn [negb].
    erewrite bind_load_chan by eassumption. rewrite Hq.
    drv. rewrite Hbusy. drv. reflexivity.
  - intros Hbfree Hup Hobusy. unfold check_bridge. erewrite bind_load_pvt by eassumption.
    rewrite Hmasq, Hnoopt, Hc, Ho. cbn [orb].
    erewrite bind_load_chan by eassumption. rewrite bind_get, Hbridge, Hbridged.
    rewrite bool_decide_eq_true_2 by reflexivity. cbn [negb].
    erewrite bind_load_chan by eassumption. rewrite Hq.
    drv. rewrite Hbfree. drv. change (0 =? 0) with true. cbn [negb]. drv.
    rewrite Hup. drv. rewrite Hobusy. drv. change (1 =? 0) with false. cbn iota. drv.
    unfold modify, ret. f_equal. apply world_ext; try reflexivity.
    cbn [chans set_chans]. rewrite chan_unlocked_locked, insert_insert_eq.
    apply insert_id. assumption.
Qed.


(** X20. A voice or video frame written to the outbound channel when
    the optimize-away goes through is not forwarded: [local_write]
    returns 0, the masquerade has been requested, the owner's read queue
    is as it was, and the pvt lock is released. *)
Theorem local_write_optimizes sched fr w (p : nat) (pv : local_pvt) (c o b : nat)
    cch och bch :
  is_media (Some fr) = true ->
  tech_pvt cch = Some p ->
  pvts w !! p = Some pv ->
  ast_test_flag (flags pv) LOCAL_ALREADY_MASQED = false ->
  ast_test_flag (flags pv) LOCAL_NO_OPTIMIZATION = false ->
  chan pv = Some c -> owner pv = Some o ->
  c <> o -> c <> b -> o <> b ->
  chans w !! c = Some cch -> chans w !! o = Some och -> chans w !! b = Some bch ->
  _bridge cch = Some b ->
  ast_bridged_channel (set_pvts (<[p := pvt_locked pv]> (pvts w)) w) c = Some b ->
  readq och = [] ->
  contended (chan_lock bch) = false ->
  contended (chan_lock och) = false ->
  (forall w', ast_check_hangup w' b = false) ->
  (forall w', ast_check_hangup w' o = false) ->
  local_write sched c (Some fr) w
  = Ret (0, sched) (masqueraded w p pv c o b cch och bch).
Proof.
  intros Hmedia Htech Hpv Hmasq Hnoopt Hc Ho Hco Hcb Hob Hcch Hoch Hbch Hbridge
    Hbridged Hq Hbfree Hofree Hbup Houp.
  unfold local_write. erewrite bind_load_chan by eassumption. rewrite Htech.
  unfold ast_mutex_lock. drv.
  unfold IS_OUTBOUND. change (chan (pvt_locked pv)) with (chan pv). rewrite Hc, Hmedia.
  rewrite bool_decide_eq_true_2 by reflexivity. cbn [andb].
  erewrite bind_Ret.
  2:{ eapply (check_bridge_splices _ p (pvt_locked pv) c o b cch och bch);
      try eassumption. apply lookup_insert_eq. }
  erewrite bind_load_pvt by (unfold masqueraded; apply lookup_insert_eq).
  cbn [flags set_flags]. rewrite test_set_flag by discriminate. cbn [negb].
  rewrite bind_ret. change (0 =? 0) with true. cbn iota.
  rewrite !bind_bind.
  erewrite bind_load_pvt by (unfold masqueraded; apply lookup_insert_eq).
  cbn [held lock set_flags pvt_locked set_lock acquire set_held].
  rewrite !bind_bind, bind_modify, !bind_ret.
  unfold ret. f_equal. unfold masqueraded. apply world_ext; try reflexivity.
  cbn [pvts set_pvts]. rewrite !insert_insert_eq. f_equal.
  apply pvt_ext; reflexivity.
Qed.

End Splice.

(* ================================================================== *)
(** ** Hanging up *)

Lemma readq_queued `{Switch} fr och : readq (queued fr och) = (readq och ++ [fr])%list.
Proof. reflexivity. Qed.

Lemma chan_lock_queued `{Switch} fr och : chan_lock (queued fr och) = chan_lock och.
Proof. unfold queued. destruct (is_ringing fr); reflexivity. Qed.

Lemma varshead_queued `{Switch} fr och : varshead (queued fr och) = varshead och.
Proof. unfold queued. destruct (is_ringing fr); reflexivity. Qed.

Lemma getvar_queued_head `{Switch} fr och name value rest :
  varshead och = (name, value) :: rest ->
  pbx_builtin_getvar_helper (queued fr och) name = Some value.
Proof.
  intros Hv. unfold pbx_builtin_getvar_helper. rewrite varshead_queued, Hv.
  cbn. unfold streq. rewrite String.eqb_refl. reflexivity.
Qed.

Lemma test_cancel_clear_launched x :
  ast_test_flag (ast_clear_flag x LOCAL_LAUNCHED_PBX) LOCAL_CANCEL_QUEUE
  = ast_test_flag x LOCAL_CANCEL_QUEUE.
Proof.
  unfold ast_test_flag, ast_clear_flag. rewrite <- Z.land_assoc. reflexivity.
Qed.

Lemma test_launched_cleared x :
  ast_test_flag
    (ast_clear_flag (ast_clear_flag x LOCAL_LAUNCHED_PBX) LOCAL_GLARE_DETECT)
    LOCAL_LAUNCHED_PBX = false.
Proof.
  unfold ast_test_flag, ast_clear_flag. rewrite <- !Z.land_assoc.
  change (Z.land (Z.lnot LOCAL_LAUNCHED_PBX)
            (Z.land (Z.lnot LOCAL_GLARE_DETECT) LOCAL_LAUNCHED_PBX)) with 0.
  rewrite Z.land_0_r. reflexivity.
Qed.

Section Hangup.
Context `{Switch}.


(** X22. Hanging up the owner when a PBX runs on the outbound channel
    (its lock free, no forward cancelled): the outbound channel is not
    hung up by the driver; after the hangup frame it gets a control
    frame AST_CONTROL_HANGUP that carries the owner's hangup cause as a
    [uint32_t], for its PBX to act on.  The pvt stays in the registry,
    the owner handle cleared; 0 is returned. *)
Theorem local_hangup_owner_first_pbx nesting sched w (ast : nat) a (p : nat) (pv : local_pvt)
    (c : nat) cch :
  chans w !! ast = Some a ->
  tech_pvt a = Some p ->
  pvts w !! p = Some pv ->
  owner pv = Some ast -> chan pv = Some c -> c <> ast ->
  chans w !! c = Some cch ->
  contended (chan_lock cch) = false ->
  ast_test_flag (flags pv) LOCAL_LAUNCHED_PBX = true ->
  ast_test_flag (flags pv) LOCAL_CANCEL_QUEUE = false ->
  exists w' a' cch' pv',
    local_hangup nesting sched ast w = Ret (0, sched) w' /\
    chans w' !! ast = Some a' /\ tech_pvt a' = None /\
    chans w' !! c = Some cch' /\
    readq cch'
      = (readq cch ++ [mk_frame AST_FRAME_CONTROL AST_CONTROL_HANGUP 0 data_none 0;
                       mk_frame AST_FRAME_CONTROL AST_CONTROL_HANGUP 0
                         (data_uint32 (to_uint32 (hangupcause a))) 0])%list /\
    chan_lock cch' = chan_lock cch /\
    pvts w' !! p = Some pv' /\
    owner pv' = None /\ chan pv' = Some c /\ lock pv' = lock pv /\
    locals w' = locals w /\
    trace w' = (trace w ++ [ev_module_user_remove (u_owner pv)])%list.
Proof.
  intros Ha Hp Hpv Ho Hc Hca Hcch Hfree Hpbx Hcancel.
  rewrite local_hangup_unfold. unfold local_hangup_body.
  erewrite bind_load_chan by eassumption. rewrite Hp.
  unfold local_hangup_detach. drv.
  change (IS_OUTBOUND ast (pvt_locked pv)) with (IS_OUTBOUND ast pv).
  assert (Hob : IS_OUTBOUND ast pv = false).
  { unfold IS_OUTBOUND. apply bool_decide_eq_false. congruence. }
  rewrite Hob, Hc.
  destruct (ast_test_flag (chan_flags a) AST_FLAG_ANSWERED_ELSEWHERE);
    drv; destruct sched; cbn [local_hangup_trylock]; drv; rewrite ?Hc; drv;
    rewrite ?Hfree; drv; change (0 =? 0) with true; cbn iota; drv.
  all: rewrite ?Hc; drv; cbn [fst snd]; unfold local_hangup_finish; drv.
  all: rewrite ?Hc, ?Hpbx; cbn [negb]; drv.
  all: erewrite bind_Ret;
    [| eapply local_queue_frame_delivers;
       [ lookup | wsimpl; eassumption | lookup | discriminate | reflexivity
       | wsimpl; assumption | wsimpl; assumption ] ].
  all: cbn beta iota; drv; change (0 =? 0) with true; cbn iota; drv.
  all: eexists _, _, _, _; (split; [reflexivity |]); wsimpl.
  all: split; [rewrite lookup_insert_ne by congruence; apply lookup_insert_eq |].
  all: split; [reflexivity |].
  all: split; [apply lookup_insert_eq |].
  all: rewrite readq_queued, chan_lock_queued.
  all: split; [wsimpl; rewrite <- app_assoc; reflexivity |].
  all: split; [apply release_acquire |].
  all: split; [apply lookup_insert_eq |].
  all: wsimpl; split; [reflexivity |].
  all: split; [assumption |].
  all: split; [apply release_acquire |].
  all: split; reflexivity.
Qed.

(** X23. Hanging up the outbound channel while the owner lives (its
    lock free, no forward cancelled): its DIALSTATUS, when it has one,
    is left on the owner as CHANLOCALSTATUS; the outbound handle and
    LOCAL_LAUNCHED_PBX are cleared; the owner gets a control frame
    AST_CONTROL_HANGUP with the outbound channel's hangup cause as a
    [uint32_t].  The pvt stays in the registry; 0 is returned. *)
Theorem local_hangup_outbound_first nesting sched w (ast : nat) a (p : nat) (pv : local_pvt)
    (o : nat) och :
  chans w !! ast = Some a ->
  tech_pvt a = Some p ->
  pvts w !! p = Some pv ->
  chan pv = Some ast -> owner pv = Some o -> o <> ast ->
  chans w !! o = Some och ->
  contended (chan_lock och) = false ->
  ast_test_flag (flags pv) LOCAL_CANCEL_QUEUE = false ->
  exists w' a' och' pv',
    local_hangup nesting sched ast w = Ret (0, sched) w' /\
    chans w' !! ast = Some a' /\ tech_pvt a' = None /\
    chans w' !! o = Some och' /\
    match pbx_builtin_getvar_helper a "DIALSTATUS" with
    | Some status => pbx_builtin_getvar_helper och' "CHANLOCALSTATUS" = Some status
    | None => varshead och' = varshead och
    end /\
    readq och'
      = (readq och ++ [mk_frame AST_FRAME_CONTROL AST_CONTROL_HANGUP 0
                         (data_uint32 (to_uint32 (hangupcause a))) 0])%list /\
    chan_lock och' = chan_lock och /\
    pvts w' !! p = Some pv' /\
    chan pv' = None /\ owner pv' = Some o /\ lock pv' = lock pv /\
    ast_test_flag (flags pv') LOCAL_LAUNCHED_PBX = false /\
    locals w' = locals w /\
    trace w' = (trace w ++ [ev_module_user_remove (u_chan pv)])%list.
Proof.
  intros Ha Hp Hpv Hc Ho Hoa Hoch Hfree Hcancel.
  rewrite local_hangup_unfold. unfold local_hangup_body.
  erewrite bind_load_chan by eassumption. rewrite Hp.
  unfold local_hangup_detach. drv.
  change (IS_OUTBOUND ast (pvt_locked pv)) with (IS_OUTBOUND ast pv).
  assert (Hob : IS_OUTBOUND ast pv = true).
  { unfold IS_OUTBOUND. apply bool_decide_eq_true. congruence. }
  rewrite Hob, Hc.
  destruct (ast_test_flag (chan_flags a) AST_FLAG_ANSWERED_ELSEWHERE); drv.
  all: destruct (pbx_builtin_getvar_helper a "DIALSTATUS") as [status |] eqn:Hstatus.
  all: change (pbx_builtin_getvar_helper (set_chan_flags ?x a) ?n)
         with (pbx_builtin_getvar_helper a n).
  all: rewrite ?Hstatus, ?Ho; drv.
  all: try (destruct sched; cbn [local_hangup_trylock]; drv; rewrite ?Ho; drv;
    rewrite ?Hfree; drv; change (0 =? 0) with true; cbn iota; drv; rewrite ?Ho; drv).
  all: unfold local_hangup_finish; drv; rewrite ?Ho; drv.
  all: erewrite bind_Ret;
    [| eapply local_queue_frame_delivers;
       [ lookup | wsimpl; eassumption | lookup | discriminate | reflexivity
       | wsimpl; assumption | wsimpl; try assumption ] ].
  all: try (rewrite test_cancel_clear_launched; assumption).
  all: cbn beta iota; drv; change (0 =? 0) with true; cbn iota; drv.
  all: eexists _, _, _, _; (split; [reflexivity |]); wsimpl.
  all: split; [rewrite lookup_insert_ne by congruence; apply lookup_insert_eq |].
  all: split; [reflexivity |].
  all: split; [apply lookup_insert_eq |].
  all: rewrite readq_queued, chan_lock_queued, ?varshead_queued.
  all: split; [first [ eapply getvar_queued_head; reflexivity | reflexivity ] |].
  all: split; [reflexivity |].
  all: split; [first [ apply release_acquire | reflexivity ] |].
  all: split; [apply lookup_insert_eq |].
  all: wsimpl; split; [reflexivity |].
  all: split; [assumption |].
  all: split; [apply release_acquire |].
  all: split; [apply test_launched_cleared |].
  all: split; reflexivity.
Qed.



End Hangup.

(* ================================================================== *)
(** ** Placing the call *)

Section Call.
Context `{Switch}.

(** X25. A call to an extension the dialplan does not have fails: a
    notice is logged and -1 returned, no PBX is started and no flag set;
    the pvt and the outbound channel are unlocked again, the owner is as
    it was. *)
Theorem local_call_no_extension sched dest timeout w (ast : nat) a (p : nat)
    (pv : local_pvt) (c : nat) cch :
  chans w !! ast = Some a ->
  tech_pvt a = Some p ->
  pvts w !! p = Some pv ->
  owner pv = Some ast -> chan pv = Some c -> c <> ast ->
  chans w !! c = Some cch ->
  contended (chan_lock cch) = false ->
  contended (lock pv) = false ->
  ast_exists_extension (chan_context cch) (chan_exten cch) 1
    (S_COR (number_valid (caller_id (caller a))) (number_str (caller_id (caller a))))
    = false ->
  exists w' cch',
    local_call sched ast dest timeout w = Ret (-1, sched) w' /\
    pvts w' !! p = Some pv /\
    chans w' !! ast = Some a /\
    chans w' !! c = Some cch' /\
    chan_lock cch' = chan_lock cch /\
    readq cch' = readq cch /\
    locals w' = locals w /\
    trace w' = (trace w ++ [ev_cdr_update c; ev_cc_params_init c ast;
                            ev_log LOG_NOTICE])%list.
Proof.
  intros Ha Hp Hpv Ho Hc Hca Hcch Hcfree Hpfree Hext.
  unfold local_call. erewrite bind_load_chan by eassumption. rewrite Hp.
  destruct sched; cbn [local_call_start_over]; drv; rewrite ?Hc; drv;
    rewrite ?Hcfree; drv; change (0 =? 0) with true; cbn [negb]; drv;
    rewrite ?Hpfree; drv; change (0 =? 0) with true; cbn [negb]; drv.
  all: rewrite ?Hc, ?Ho; drv.
  all: rewrite Hext; cbn [negb]; drv.
  all: eexists _, _; (split; [reflexivity |]); wsimpl.
  all: split; [rewrite <- (pvt_unlocked_locked pv) at 3; apply lookup_insert_eq |].
  all: split; [rewrite lookup_insert_ne by congruence; rewrite !lookup_insert_ne by congruence; assumption |].
  all: split; [apply lookup_insert_eq |].
  all: split; [apply release_acquire |].
  all: split; [reflexivity |].
  all: split; [reflexivity |].
  all: rewrite <- !app_assoc; reflexivity.
Qed.

Lemma local_call_runs sched dest timeout w (ast : nat) a (p : nat)
    (pv : local_pvt) (c : nat) cch r :
  chans w !! ast = Some a ->
  tech_pvt a = Some p ->
  pvts w !! p = Some pv ->
  owner pv = Some ast -> chan pv = Some c -> c <> ast ->
  chans w !! c = Some cch ->
  contended (chan_lock cch) = false ->
  contended (lock pv) = false ->
  ast_exists_extension (chan_context cch) (chan_exten cch) 1
    (S_COR (number_valid (caller_id (caller a))) (number_str (caller_id (caller a))))
    = true ->
  (forall w', ast_pbx_start w' c = r) ->
  exists w' cch',
    local_call sched ast dest timeout w = Ret (r, sched) w' /\
    pvts w' !! p
      = Some (if r =? 0 then set_flags (ast_set_flag (flags pv) LOCAL_LAUNCHED_PBX) pv
              else pv) /\
    chans w' !! ast = Some a /\
    chans w' !! c = Some cch' /\
    locals w' = locals w /\
    trace w' = (trace w ++ [ev_cdr_update c; ev_cc_params_init c ast;
                            ev_datastore_inherit ast c;
                            ev_set_cc_interfaces c
                              (match strrchr dest "/" with
                               | Some i => cut i dest
                               | None => dest
                               end);
                            ev_pbx_start c])%list /\
    chan_lock cch' = chan_lock cch /\
    readq cch' = readq cch /\
    chan_flags cch'
      = (if ast_test_flag (chan_flags a) AST_FLAG_ANSWERED_ELSEWHERE
         then ast_set_flag (chan_flags cch) AST_FLAG_ANSWERED_ELSEWHERE
         else chan_flags cch) /\
    varshead cch' = (varshead cch ++ varshead a)%list /\
    redirecting cch' = redirecting a /\
    dialed cch' = dialed a /\
    caller cch' = ast_connected_line_copy_to_caller (caller cch) (connected a) /\
    connected cch' = ast_connected_line_copy_from_caller (connected cch) (caller a) /\
    language cch' = language a /\
    accountcode cch' = accountcode a /\
    musicclass cch' = musicclass a.
Proof.
  intros Ha Hp Hpv Ho Hc Hca Hcch Hcfree Hpfree Hext Hstart.
  unfold local_call. erewrite bind_load_chan by eassumption. rewrite Hp.
  destruct sched; cbn [local_call_start_over]; drv; rewrite ?Hc; drv;
    rewrite ?Hcfree; drv; change (0 =? 0) with true; cbn [negb]; drv;
    rewrite ?Hpfree; drv; change (0 =? 0) with true; cbn [negb]; drv.
  all: rewrite ?Hc, ?Ho; drv.
  all: rewrite Hext; cbn [negb]; drv.
  all: destruct (ast_test_flag (chan_flags a) AST_FLAG_ANSWERED_ELSEWHERE); drv.
  all: rewrite Hstart; destruct (r =? 0); drv.
  all: eexists _, _; (split; [reflexivity |]); wsimpl.
  all: split; [etransitivity; [apply lookup_insert_eq | f_equal; apply pvt_ext; reflexivity] |].
  all: split; [rewrite !lookup_insert_ne by congruence; assumption |].
  all: split; [apply lookup_insert_eq |].
  all: split; [reflexivity |].
  all: split; [rewrite <- !app_assoc; reflexivity |].
  all: split; [apply release_acquire |].
  all: repeat (split; [reflexivity |]); reflexivity.
Qed.

(** X26. [local_call] returns what [ast_pbx_start] returned for the
    outbound channel, and LOCAL_LAUNCHED_PBX is set exactly when that is
    0.  The CC interfaces variable is set from the dial string cut at its
    last '/'.  The pvt and the outbound channel are unlocked again. *)
Theorem local_call_starts_pbx sched dest timeout w (ast : nat) a (p : nat)
    (pv : local_pvt) (c : nat) cch r :
  chans w !! ast = Some a ->
  tech_pvt a = Some p ->
  pvts w !! p = Some pv ->
  owner pv = Some ast -> chan pv = Some c -> c <> ast ->
  chans w !! c = Some cch ->
  contended (chan_lock cch) = false ->
  contended (lock pv) = false ->
  ast_exists_extension (chan_context cch) (chan_exten cch) 1
    (S_COR (number_valid (caller_id (caller a))) (number_str (caller_id (caller a))))
    = true ->
  (forall w', ast_pbx_start w' c = r) ->
  exists w' pv' cch',
    local_call sched ast dest timeout w = Ret (r, sched) w' /\
    pvts w' !! p = Some pv' /\
    ast_test_flag (flags pv') LOCAL_LAUNCHED_PBX
      = (if r =? 0 then true else ast_test_flag (flags pv) LOCAL_LAUNCHED_PBX) /\
    lock pv' = lock pv /\ owner pv' = owner pv /\ chan pv' = chan pv /\
    chans w' !! c = Some cch' /\
    chan_lock cch' = chan_lock cch /\
    readq cch' = readq cch /\
    trace w' = (trace w ++ [ev_cdr_update c; ev_cc_params_init c ast;
                            ev_datastore_inherit ast c;
                            ev_set_cc_interfaces c
                              (match strrchr dest "/" with
                               | Some i => cut i dest
                               | None => dest
                               end);
                            ev_pbx_start c])%list.
Proof.
  intros Ha Hp Hpv Ho Hc Hca Hcch Hcfree Hpfree Hext Hstart.
  destruct (local_call_runs sched dest timeout w ast a p pv c cch r)
    as (w' & cch' & Hrun & Hpv' & _ & Hcch' & _ & Htrace & Hlock & Hq & _);
    try assumption.
  exists w', (if r =? 0 then set_flags (ast_set_flag (flags pv) LOCAL_LAUNCHED_PBX) pv
              else pv), cch'.
  split; [exact Hrun |]. split; [exact Hpv' |].
  split; [destruct (r =? 0); [apply test_set_flag; discriminate | reflexivity] |].
  split; [destruct (r =? 0); reflexivity |].
  split; [destruct (r =? 0); reflexivity |].
  split; [destruct (r =? 0); reflexivity |].
  auto.
Qed.

(** X27. Before the PBX is started the outbound channel takes over
    from the owner: redirecting and dialed information, language,
    account code and music class are the owner's; its caller is made
    from the owner's connected line and its connected line from the
    owner's caller; AST_FLAG_ANSWERED_ELSEWHERE is inherited; the
    owner's variables follow its own, in the owner's order (each copy
    being allocated). *)
Theorem local_call_inherits sched dest timeout w (ast : nat) a (p : nat)
    (pv : local_pvt) (c : nat) cch r :
  chans w !! ast = Some a ->
  tech_pvt a = Some p ->
  pvts w !! p = Some pv ->
  owner pv = Some ast -> chan pv = Some c -> c <> ast ->
  chans w !! c = Some cch ->
  contended (chan_lock cch) = false ->
  contended (lock pv) = false ->
  ast_exists_extension (chan_context cch) (chan_exten cch) 1
    (S_COR (number_valid (caller_id (caller a))) (number_str (caller_id (caller a))))
    = true ->
  (forall w', ast_pbx_start w' c = r) ->
  exists w' cch',
    local_call sched ast dest timeout w = Ret (r, sched) w' /\
    chans w' !! ast = Some a /\
    chans w' !! c = Some cch' /\
    varshead cch' = (varshead cch ++ varshead a)%list /\
    chan_flags cch'
      = (if ast_test_flag (chan_flags a) AST_FLAG_ANSWERED_ELSEWHERE
         then ast_set_flag (chan_flags cch) AST_FLAG_ANSWERED_ELSEWHERE
         else chan_flags cch) /\
    redirecting cch' = redirecting a /\
    dialed cch' = dialed a /\
    caller cch' = ast_connected_line_copy_to_caller (caller cch) (connected a) /\
    connected cch' = ast_connected_line_copy_from_caller (connected cch) (caller a) /\
    language cch' = language a /\
    accountcode cch' = accountcode a /\
    musicclass cch' = musicclass a.
Proof.
  intros Ha Hp Hpv Ho Hc Hca Hcch Hcfree Hpfree Hext Hstart.
  destruct (local_call_runs sched dest timeout w ast a p pv c cch r)
    as (w' & cch' & Hrun & _ & Ha' & Hcch' & _ & _ & _ & _ & Hrest);
    try assumption.
  destruct Hrest as (Hflags & Hvars & Hparty).
  exists w', cch'. repeat (split; [assumption |]). exact Hparty.
Qed.

End Call.

(* ================================================================== *)
(** ** The manager action *)

Section ManagerFacts.
Variable ast_channel_get_by_name : world -> string -> option chan_ptr.
Variable AST_LIST_LOCK : world -> Z.

Lemma optimize_away_traverse_absent (l : list nat) p w :
  (forall q : nat, p = Some q -> q ∉ l) ->
  optimize_away_traverse l p w = Ret false w.
Proof.
  induction l as [| tmp l IH]; intros Hp; [reflexivity |].
  cbn [optimize_away_traverse].
  rewrite bool_decide_eq_false_2.
  - apply IH. intros q Hq Hin. eapply Hp; [exact Hq |]. right. exact Hin.
  - intros Heq. eapply Hp; [symmetry; exact Heq |]. left.
Qed.

Lemma optimize_away_traverse_found (l : list nat) (p : nat) w pv :
  p ∈ l ->
  pvts w !! p = Some pv ->
  optimize_away_traverse l (Some p) w
  = Ret true
      (set_pvts (<[p := set_flags (ast_clear_flag (flags pv) LOCAL_NO_OPTIMIZATION) pv]>
                   (pvts w)) w).
Proof.
  intros Hin Hpv. induction l as [| tmp l IH]; [inversion Hin |].
  cbn [optimize_away_traverse]. case_bool_decide as Heq.
  - injection Heq as ->. drv. unfold ret. f_equal.
    apply world_ext; try reflexivity. cbn [pvts set_pvts].
    rewrite !insert_insert_eq. f_equal. apply pvt_ext; reflexivity.
  - apply IH. apply elem_of_cons in Hin as [-> | Hin]; [congruence | exact Hin].
Qed.

(** X28. LocalOptimizeAway answers with an error and changes nothing
    when the Channel header is empty, when no channel has that name,
    when the registry cannot be locked, and when the channel's pvt is not
    in the registry (a channel of another driver, or with no pvt). *)
Theorem manager_optimize_away_refuses channel w :
  (channel = EmptyString ->
   manager_optimize_away ast_channel_get_by_name AST_LIST_LOCK channel w
   = Ret (0, astman_send_error "'Channel' not specified.") w) /\
  (channel <> EmptyString ->
   ast_channel_get_by_name w channel = None ->
   manager_optimize_away ast_channel_get_by_name AST_LIST_LOCK channel w
   = Ret (0, astman_send_error "Channel does not exist.") w) /\
  (forall (c : nat) ch,
     channel <> EmptyString ->
     ast_channel_get_by_name w channel = Some c ->
     chans w !! c = Some ch ->
     (AST_LIST_LOCK w <> 0 ->
      manager_optimize_away ast_channel_get_by_name AST_LIST_LOCK channel w
      = Ret (0, astman_send_error "Unable to lock the monitor") w) /\
     (AST_LIST_LOCK w = 0 ->
      (forall p : nat, tech_pvt ch = Some p -> p ∉ locals w) ->
      manager_optimize_away ast_channel_get_by_name AST_LIST_LOCK channel w
      = Ret (0, astman_send_error "Unable to find channel") w)).
Proof.
  split; [| split].
  - intros ->. reflexivity.
  - intros Hne Hnone. unfold manager_optimize_away.
    apply String.eqb_neq in Hne. rewrite Hne, bind_get, Hnone. reflexivity.
  - intros c ch Hne Hget Hch. apply String.eqb_neq in Hne.
    split.
    + intros Hlock. unfold manager_optimize_away.
      rewrite Hne, bind_get, Hget. erewrite bind_load_chan by eassumption.
      rewrite bind_get. apply Z.eqb_neq in Hlock. rewrite Hlock. reflexivity.
    + intros Hlock Habsent. unfold manager_optimize_away.
      rewrite Hne, bind_get, Hget. erewrite bind_load_chan by eassumption.
      rewrite bind_get, Hlock. cbn [Z.eqb negb].
      erewrite bind_Ret by (apply optimize_away_traverse_absent; exact Habsent).
      reflexivity.
Qed.

(** X29. For a channel of a registered pvt LocalOptimizeAway
    acknowledges and clears LOCAL_NO_OPTIMIZATION on that pvt, leaving
    its other flags, its handles and its lock, every other pvt, the
    channels and the registry as they were. *)
Theorem manager_optimize_away_clears channel w (c : nat) ch (p : nat) pv :
  channel <> EmptyString ->
  ast_channel_get_by_name w channel = Some c ->
  chans w !! c = Some ch ->
  tech_pvt ch = Some p ->
  p ∈ locals w ->
  pvts w !! p = Some pv ->
  AST_LIST_LOCK w = 0 ->
  exists w' pv',
    manager_optimize_away ast_channel_get_by_name AST_LIST_LOCK channel w
    = Ret (0, astman_send_ack "Queued channel to be optimized away") w' /\
    pvts w' !! p = Some pv' /\
    flags pv' = ast_clear_flag (flags pv) LOCAL_NO_OPTIMIZATION /\
    ast_test_flag (flags pv') LOCAL_NO_OPTIMIZATION = false /\
    lock pv' = lock pv /\ owner pv' = owner pv /\ chan pv' = chan pv /\
    (forall q : nat, q <> p -> pvts w' !! q = pvts w !! q) /\
    chans w' = chans w /\ locals w' = locals w /\ trace w' = trace w.
Proof.
  intros Hne Hget Hch Htech Hin Hpv Hlock. apply String.eqb_neq in Hne.
  eexists _, _. split.
  - unfold manager_optimize_away.
    rewrite Hne, bind_get, Hget. erewrite bind_load_chan by eassumption.
    rewrite bind_get, Hlock, Htech. cbn [Z.eqb negb].
    erewrite bind_Ret by (eapply optimize_away_traverse_found; eassumption).
    reflexivity.
  - cbn [pvts set_pvts chans locals trace].
    split; [apply lookup_insert_eq |]. cbn [flags set_flags].
    split; [reflexivity |].
    split.
    { unfold ast_test_flag, ast_clear_flag. rewrite <- Z.land_assoc.
      change (Z.land (Z.lnot LOCAL_NO_OPTIMIZATION) LOCAL_NO_OPTIMIZATION) with 0.
      rewrite Z.land_0_r. reflexivity. }
    repeat (split; [reflexivity |]).
    split; [intros q Hq; apply lookup_insert_ne; congruence |].
    repeat split; reflexivity.
Qed.

End ManagerFacts.

(* ================================================================== *)
(** ** Allocation and device state *)

Section Alloc.
Context `{Switch}.

Lemma devicestate_traverse_agree ext ctx (l : list nat) w w1 r :
  (forall p : nat, p ∈ l -> pvts w1 !! p = pvts w !! p) ->
  devicestate_traverse ext ctx l w = Ret r w ->
  devicestate_traverse ext ctx l w1 = Ret r w1.
Proof.
  induction l as [| lp l IH]; intros Hagree Hrun.
  - cbn in *. unfold ret in *. congruence.
  - cbn [devicestate_traverse] in *. unfold bind, load_pvt in *.
    rewrite (Hagree lp) by left.
    destruct (pvts w !! lp) as [pv |]; [| discriminate].
    destruct (streq ext (exten pv) && streq ctx (context pv)
              && bool_decide (owner pv <> None)).
    + unfold ret in *. congruence.
    + apply IH; [| exact Hrun]. intros p Hp. apply Hagree. right. exact Hp.
Qed.

(** X30. Allocating a pvt does not change a device state: the pvt
    [local_alloc] puts at the head of the registry has no owner, so
    [local_devicestate] gives the same answer after the allocation as
    before. *)
Theorem local_alloc_keeps_devicestate dat format d w (tmp : nat) ext ctx :
  (forall p : nat, p ∈ locals w -> is_Some (pvts w !! p)) ->
  ast_calloc w = Some tmp ->
  pvts w !! tmp = None ->
  devicestate_parse d = Some (ext, ctx) ->
  ast_exists_extension ctx ext 1 None = true ->
  exists r w1,
    local_devicestate d w = Ret r w /\
    local_alloc dat format w = Ret (Some tmp) w1 /\
    locals w1 = tmp :: locals w /\
    pvts w1 !! tmp = Some (fst (local_alloc_init dat format)) /\
    local_devicestate d w1 = Ret r w1.
Proof.
  intros Hlive Hcalloc Hfresh Hparse Hex.
  destruct (devicestate_traverse_spec ext ctx (locals w) w Hlive) as (r & Hr & _).
  destruct (local_alloc_init_fields dat format)
    as (_ & _ & _ & _ & _ & _ & _ & Howner & _).
  destruct (local_alloc_init dat format) as [pv logged] eqn:Hinit.
  cbn [fst] in *.
  exists r. eexists. split.
  { unfold local_devicestate. rewrite Hparse, Hex. cbn [negb]. rewrite bind_get. exact Hr. }
  split.
  { unfold local_alloc. rewrite bind_get, Hcalloc, Hinit. drv. reflexivity. }
  wsimpl.
  split; [reflexivity |]. split; [apply lookup_insert_eq |].
  unfold local_devicestate. rewrite Hparse, Hex. cbn [negb]. rewrite bind_get.
  wsimpl. cbn [devicestate_traverse].
  erewrite bind_load_pvt by (wsimpl; apply lookup_insert_eq).
  rewrite Howner. rewrite (bool_decide_eq_false_2 (None <> None)) by congruence.
  rewrite andb_false_r.
  eapply devicestate_traverse_agree; [| exact Hr].
  intros p Hp. wsimpl. apply lookup_insert_ne. intros ->.
  destruct (Hlive p Hp) as [x Hx]. congruence.
Qed.

End Alloc.

(* ================================================================== *)
(** ** The properties on sample calls *)

(** Discharges a hypothesis on a sample world by evaluation. *)
Ltac sample :=
  first [ reflexivity
        | discriminate
        | intros; reflexivity
        | intros ? [= <-]; vm_compute; eauto
        | vm_compute; reflexivity ].

Lemma local_queue_frame_appends_witness :
  exists w',
    local_queue_frame (H := Demo.asterisk) [] 7%nat false (Some Demo.text) (Some 1%nat)
      false (Demo.call 0) = Ret (0, []) w' /\
    readq <$> chans w' !! 2%nat = Some [Demo.text] /\
    chans w' !! 1%nat = chans (Demo.call 0) !! 1%nat.
Proof.
  destruct (local_queue_frame_appends (H := Demo.asterisk) [] 7%nat false Demo.text
              (Some 1%nat) false (Demo.call 0) (Demo.new_pvt 0 (Some 1%nat) (Some 2%nat))
              2%nat (Demo.new_chan (Some 7%nat) (Some 4%nat)))
    as (w' & och' & pv' & Hrun & Hoch & Hq & _ & Hothers & _);
    [sample .. |].
  exists w'. split; [exact Hrun |]. split.
  - rewrite Hoch. cbn [fmap option_fmap option_map]. rewrite Hq. reflexivity.
  - apply Hothers. discriminate.
Defined.

Lemma local_queue_frame_ringing_witness :
  exists w',
    local_queue_frame (H := Demo.asterisk) [] 7%nat false
      (Some (mk_frame AST_FRAME_CONTROL 3 0 data_none 0)) (Some 1%nat) false (Demo.call 0)
      = Ret (0, []) w' /\
    _state <$> chans w' !! 2%nat = Some AST_STATE_RINGING.
Proof.
  destruct (local_queue_frame_ringing (H := Demo.asterisk) [] 7%nat false
              (mk_frame AST_FRAME_CONTROL 3 0 data_none 0)
              (Some 1%nat) false (Demo.call 0) (Demo.new_pvt 0 (Some 1%nat) (Some 2%nat))
              2%nat (Demo.new_chan (Some 7%nat) (Some 4%nat)))
    as (w' & och' & Hrun & Hoch & Hstate);
    [sample .. |].
  exists w'. split; [exact Hrun |].
  rewrite Hoch. cbn [fmap option_fmap option_map]. rewrite Hstate. reflexivity.
Defined.

Lemma local_queue_frame_nothing_to_do_witness :
  local_queue_frame (H := Demo.asterisk) [] 7%nat true (Some Demo.text) (Some 2%nat) false
    (Demo.half_hungup 0) = Ret (0, []) (Demo.half_hungup 0).
Proof.
  apply (local_queue_frame_nothing_to_do (H := Demo.asterisk) [] 7%nat true
           (Some Demo.text) (Some 2%nat) false (Demo.half_hungup 0)
           (Demo.new_pvt 0 None (Some 2%nat)));
    reflexivity.
Defined.

Lemma local_queue_frame_not_locked_witness :
  exists w',
    local_queue_frame (H := Demo.asterisk) [] 7%nat false (Some Demo.text) (Some 1%nat)
      false Demo.glare_world = Ret (-1, []) w' /\
    trace w' = [ev_log LOG_ERROR] /\
    readq <$> chans w' !! 2%nat = Some [] /\
    is_Some (pvts w' !! 7%nat).
Proof.
  eexists. split.
  - apply (local_queue_frame_not_locked (H := Demo.asterisk) [] 7%nat false
             (Some Demo.text) (Some 1%nat) false Demo.glare_world
             (Demo.new_pvt 0 (Some 1%nat) (Some 2%nat)) 2%nat
             (Demo.busy (Demo.new_chan (Some 7%nat) (Some 4%nat))));
      sample.
  - vm_compute. eauto.
Defined.

Lemma local_queue_frame_in_order_witness :
  exists w1 w2,
    local_queue_frame (H := Demo.asterisk) [] 7%nat false (Some Demo.text) (Some 1%nat)
      false (Demo.call 0) = Ret (0, []) w1 /\
    local_queue_frame (H := Demo.asterisk) [] 7%nat false (Some Demo.voice) (Some 1%nat)
      false w1 = Ret (0, []) w2 /\
    readq <$> chans w2 !! 2%nat = Some [Demo.text; Demo.voice].
Proof.
  destruct (local_queue_frame_in_order (H := Demo.asterisk) [] 7%nat false Demo.text
              Demo.voice (Some 1%nat) false (Demo.call 0)
              (Demo.new_pvt 0 (Some 1%nat) (Some 2%nat))
              2%nat (Demo.new_chan (Some 7%nat) (Some 4%nat)))
    as (w1 & w2 & och2 & Hrun1 & Hrun2 & Hoch & Hq);
    [sample .. |].
  exists w1, w2. split; [exact Hrun1 |]. split; [exact Hrun2 |].
  rewrite Hoch. cbn [fmap option_fmap option_map]. rewrite Hq. reflexivity.
Defined.

Lemma local_frames_forwarded_witness :
  exists w',
    local_sendtext (H := Demo.asterisk) [] 1%nat "hi" (Demo.call 0) = Ret (0, []) w' /\
    readq <$> chans w' !! 2%nat = Some [Demo.text] /\
    lock <$> pvts w' !! 7%nat = Some (mk_mutex O false).
Proof.
  destruct (local_frames_forwarded (H := Demo.asterisk) [] 7%nat 1%nat (Demo.call 0)
              (Demo.new_chan (Some 7%nat) (Some 3%nat))
              (Demo.new_pvt 0 (Some 1%nat) (Some 2%nat)) 2%nat
              (Demo.new_chan (Some 7%nat) (Some 4%nat)))
    as (_ & _ & Htext & _);
    [sample .. |].
  eexists. split; [apply Htext |]. vm_compute. auto.
Defined.

Lemma local_answer_forwards_witness :
  exists w',
    local_answer (H := Demo.asterisk) [] 2%nat (Demo.call 0) = Ret (0, []) w' /\
    readq <$> chans w' !! 1%nat
      = Some [mk_frame AST_FRAME_CONTROL 4 0 data_none 0].
Proof.
  eexists. split.
  - apply (local_answer_forwards (H := Demo.asterisk) [] 7%nat 2%nat (Demo.call 0)
             (Demo.new_chan (Some 7%nat) (Some 4%nat))
             (Demo.new_pvt 0 (Some 1%nat) (Some 2%nat)) 1%nat
             (Demo.new_chan (Some 7%nat) (Some 3%nat)));
      sample.
  - vm_compute. reflexivity.
Defined.

Lemma local_answer_on_owner_witness :
  exists w',
    local_answer (H := Demo.asterisk) [] 1%nat (Demo.call 0) = Ret (-1, []) w' /\
    trace w' = [ev_log LOG_WARNING] /\
    lock <$> pvts w' !! 7%nat = Some (mk_mutex 1 false) /\
    chans w' = chans (Demo.call 0).
Proof.
  eexists. split.
  - apply (local_answer_on_owner (H := Demo.asterisk) [] 7%nat 1%nat (Demo.call 0)
             (Demo.new_chan (Some 7%nat) (Some 3%nat))
             (Demo.new_pvt 0 (Some 1%nat) (Some 2%nat)));
      sample.
  - vm_compute. auto.
Defined.

Lemma local_write_passes_through_witness :
  exists w',
    local_write (H := Demo.asterisk) [] 1%nat (Some Demo.voice) (Demo.call 0)
      = Ret (0, []) w' /\
    readq <$> chans w' !! 2%nat = Some [Demo.voice] /\
    trace w' = [].
Proof.
  eexists. split.
  - apply (local_write_passes_through (H := Demo.asterisk) [] 7%nat 1%nat Demo.voice
             (Demo.call 0) (Demo.new_chan (Some 7%nat) (Some 3%nat))
             (Demo.new_pvt 0 (Some 1%nat) (Some 2%nat)) 2%nat
             (Demo.new_chan (Some 7%nat) (Some 4%nat)));
      first [ sample | left; reflexivity ].
  - vm_compute. auto.
Defined.

Lemma local_indicate_hold_local_witness :
  local_indicate (H := Demo.asterisk) [] 1%nat 16 data_none 0 (Demo.call 0)
  = Ret (0, []) (set_trace [ev_moh_start 1%nat] (Demo.call 0)).
Proof.
  apply (local_indicate_hold_local (H := Demo.asterisk) [] 7%nat 1%nat data_none 0
           (Demo.call 0) (Demo.new_chan (Some 7%nat) (Some 3%nat))
           (Demo.new_pvt 0 (Some 1%nat) (Some 2%nat)));
    reflexivity.
Defined.

Lemma local_indicate_forwards_witness :
  exists w',
    local_indicate (H := Demo.asterisk) [] 1%nat 3 data_none 4294967301 (Demo.call 0)
      = Ret (0, []) w' /\
    readq <$> chans w' !! 2%nat = Some [mk_frame AST_FRAME_CONTROL 3 5 data_none 0] /\
    _state <$> chans w' !! 2%nat = Some AST_STATE_RINGING.
Proof.
  eexists. split.
  - apply (local_indicate_forwards (H := Demo.asterisk) [] 7%nat 1%nat 3 data_none
             4294967301
             (Demo.call 0) (Demo.new_chan (Some 7%nat) (Some 3%nat))
             (Demo.new_pvt 0 (Some 1%nat) (Some 2%nat)) 2%nat
             (Demo.new_chan (Some 7%nat) (Some 4%nat)));
      first [ sample | split; [right; split; discriminate | split; discriminate] ].
  - vm_compute. auto.
Defined.

Lemma local_indicate_party_update_witness :
  exists w',
    local_indicate (H := Demo.asterisk) [] 2%nat 22 data_none 0 (Sample.call 0)
      = Ret (0, []) w' /\
    readq <$> chans w' !! 1%nat
      = Some [mk_frame AST_FRAME_CONTROL 22 0 (data_ptr EmptyString) 0] /\
    caller <$> chans w' !! 1%nat = Some (mk_caller Demo.no_party Demo.no_party).
Proof.
  eexists. split.
  - apply (local_indicate_party_update (H := Demo.asterisk) [] 7%nat 2%nat 22 data_none 0
             (Sample.call 0) Sample.outbound_chan
             (Demo.new_pvt 0 (Some 1%nat) (Some 2%nat)) 1%nat Sample.owner_chan);
      first [ sample | split; [left; reflexivity | right; split; discriminate] ].
  - vm_compute. auto.
Defined.

Lemma local_indicate_party_update_no_partner_witness :
  local_indicate (H := Demo.asterisk) [] 2%nat 22 data_none 0 (Demo.half_hungup 0)
  = Ret (0, []) (Demo.half_hungup 0).
Proof.
  apply (local_indicate_party_update_no_partner (H := Demo.asterisk) [] 7%nat 2%nat 22
           data_none 0 (Demo.half_hungup 0) (Demo.new_chan (Some 7%nat) None)
           (Demo.new_pvt 0 None (Some 2%nat)));
    first [ sample | split; [left; reflexivity | right; split; discriminate] ].
Defined.

Lemma local_fixup_replaces_witness :
  exists w',
    local_fixup 1%nat 5%nat Sample.with_clone = Ret 0 w' /\
    owner <$> pvts w' !! 7%nat = Some (Some 5%nat) /\
    chan <$> pvts w' !! 7%nat = Some (Some 2%nat).
Proof.
  eexists. split.
  - apply (proj1 (local_fixup_replaces 7%nat 1%nat 5%nat Sample.with_clone
                    (Demo.new_chan (Some 7%nat) None)
                    (Demo.new_pvt 0 (Some 1%nat) (Some 2%nat))
                    eq_refl eq_refl eq_refl)).
    reflexivity.
  - vm_compute. auto.
Defined.

Lemma local_fixup_round_trip_witness :
  exists w1,
    local_fixup 1%nat 5%nat Sample.with_clone = Ret 0 w1 /\
    local_fixup 5%nat 1%nat w1 = Ret 0 Sample.with_clone.
Proof.
  apply (local_fixup_round_trip 7%nat 1%nat 5%nat Sample.with_clone
           (Demo.new_chan (Some 7%nat) None)
           (Demo.new_chan (Some 7%nat) (Some 3%nat))
           (Demo.new_pvt 0 (Some 1%nat) (Some 2%nat)));
    first [ sample | left; reflexivity ].
Defined.

Lemma check_bridge_optimizes_witness :
  exists w',
    check_bridge (H := Demo.asterisk) 7%nat (Sample.call 0) = Ret tt w' /\
    check_bridge (H := Demo.asterisk) 7%nat w' = Ret tt w' /\
    trace w' = [ev_group_update 2%nat 1%nat; ev_masquerade 1%nat 4%nat] /\
    flags <$> pvts w' !! 7%nat = Some LOCAL_ALREADY_MASQED /\
    readq <$> chans w' !! 1%nat = Some [] /\
    chan_lock <$> chans w' !! 4%nat = Some (mk_mutex O false).
Proof.
  destruct (check_bridge_optimizes (H := Demo.asterisk) (Sample.call 0) 7%nat
              (Demo.new_pvt 0 (Some 1%nat) (Some 2%nat)) 2%nat 1%nat 4%nat
              Sample.outbound_chan Sample.owner_chan (Demo.new_chan None (Some 2%nat)))
    as (w' & pv' & Hrun & Hagain & Htrace & Hpv' & _ & _ & _ & _ & Hsame);
    [sample .. |].
  exists w'. split; [exact Hrun |]. split; [exact Hagain |]. split; [exact Htrace |].
  vm_compute in Hrun. injection Hrun as <-. vm_compute. auto.
Defined.

Lemma check_bridge_exchanges_witness :
  exists w',
    check_bridge (H := Demo.asterisk) 7%nat (Sample.call 0) = Ret tt w' /\
    monitor <$> chans w' !! 1%nat = Some None /\
    monitor <$> chans w' !! 4%nat = Some (Some 5%nat) /\
    audiohooks <$> chans w' !! 1%nat = Some (Some 9%nat) /\
    audiohooks <$> chans w' !! 2%nat = Some None /\
    caller <$> chans w' !! 4%nat = Some (caller Sample.owner_chan) /\
    caller <$> chans w' !! 1%nat = Some (mk_caller Demo.no_party Demo.no_party).
Proof.
  destruct (check_bridge_exchanges (H := Demo.asterisk) (Sample.call 0) 7%nat
              (Demo.new_pvt 0 (Some 1%nat) (Some 2%nat)) 2%nat 1%nat 4%nat
              Sample.outbound_chan Sample.owner_chan (Demo.new_chan None (Some 2%nat)))
    as (w' & cch' & och' & bch' & Hrun & Hc & Ho & Hb & Hcaller & _ & _ & Hmon & Haudio);
    [sample .. |].
  exists w'. split; [exact Hrun |].
  rewrite Hc, Ho, Hb. cbn [fmap option_fmap option_map].
  injection Hcaller as -> ->. injection Hmon as -> ->. injection Haudio as -> ->.
  repeat split.
Defined.

Lemma check_bridge_peer_hungup_witness :
  exists w',
    check_bridge (H := Sample.hanging_up) 7%nat (Sample.call 0) = Ret tt w' /\
    trace w' = [] /\
    chan_lock <$> chans w' !! 4%nat = Some (mk_mutex 1 false) /\
    pvts w' = pvts (Sample.call 0).
Proof.
  eexists. split.
  - apply (check_bridge_peer_hungup (H := Sample.hanging_up) (Sample.call 0) 7%nat
             (Demo.new_pvt 0 (Some 1%nat) (Some 2%nat)) 2%nat 1%nat 4%nat
             Sample.outbound_chan Sample.owner_chan (Demo.new_chan None (Some 2%nat)));
      sample.
  - vm_compute. auto.
Defined.

Lemma check_bridge_contended_witness :
  check_bridge (H := Demo.asterisk) 7%nat (Sample.contended_on 4%nat)
  = Ret tt (Sample.contended_on 4%nat).
Proof.
  destruct (check_bridge_contended (H := Demo.asterisk) (Sample.contended_on 4%nat) 7%nat
              (Demo.new_pvt 0 (Some 1%nat) (Some 2%nat)) 2%nat 1%nat 4%nat
              Sample.outbound_chan Sample.owner_chan
              (Demo.busy (Demo.new_chan None (Some 2%nat))))
    as (Hpeer & _);
    [sample .. |].
  apply Hpeer. reflexivity.
Defined.

Lemma local_write_optimizes_witness :
  exists w',
    local_write (H := Demo.asterisk) [] 2%nat (Some Demo.voice) (Sample.call 0)
      = Ret (0, []) w' /\
    trace w' = [ev_group_update 2%nat 1%nat; ev_masquerade 1%nat 4%nat] /\
    readq <$> chans w' !! 1%nat = Some [] /\
    lock <$> pvts w' !! 7%nat = Some (mk_mutex O false).
Proof.
  eexists. split.
  - apply (local_write_optimizes (H := Demo.asterisk) [] Demo.voice (Sample.call 0) 7%nat
             (Demo.new_pvt 0 (Some 1%nat) (Some 2%nat)) 2%nat 1%nat 4%nat
             Sample.outbound_chan Sample.owner_chan (Demo.new_chan None (Some 2%nat)));
      sample.
  - vm_compute. auto.
Defined.


Lemma local_hangup_owner_first_pbx_witness :
  exists w',
    local_hangup (H := Demo.asterisk) 0 [] 1%nat (Demo.call LOCAL_LAUNCHED_PBX)
      = Ret (0, []) w' /\
    trace w' = [ev_module_user_remove None] /\
    readq <$> chans w' !! 2%nat
      = Some [mk_frame AST_FRAME_CONTROL 1 0 data_none 0;
              mk_frame AST_FRAME_CONTROL 1 0 (data_uint32 0) 0].
Proof.
  destruct (local_hangup_owner_first_pbx (H := Demo.asterisk) 0 []
              (Demo.call LOCAL_LAUNCHED_PBX) 1%nat
              (Demo.new_chan (Some 7%nat) (Some 3%nat)) 7%nat
              (Demo.new_pvt LOCAL_LAUNCHED_PBX (Some 1%nat) (Some 2%nat)) 2%nat
              (Demo.new_chan (Some 7%nat) (Some 4%nat)))
    as (w' & a' & cch' & pv' & Hrun & _ & _ & Hcch & Hq & _ & _ & _ & _ & _ & _ & Ht);
    [sample .. |].
  exists w'. split; [exact Hrun |]. split; [exact Ht |].
  rewrite Hcch. cbn [fmap option_fmap option_map]. rewrite Hq. reflexivity.
Defined.

Lemma local_hangup_outbound_first_witness :
  exists w' och',
    local_hangup (H := Demo.asterisk) 0 [] 2%nat (Sample.no_cause LOCAL_LAUNCHED_PBX)
      = Ret (0, []) w' /\
    chans w' !! 1%nat = Some och' /\
    pbx_builtin_getvar_helper och' "CHANLOCALSTATUS" = Some "ANSWER" /\
    readq och' = [mk_frame AST_FRAME_CONTROL 1 0 (data_uint32 4294967295) 0] /\
    chan <$> pvts w' !! 7%nat = Some None.
Proof.
  destruct (local_hangup_outbound_first (H := Demo.asterisk) 0 []
              (Sample.no_cause LOCAL_LAUNCHED_PBX) 2%nat Sample.no_cause_chan 7%nat
              (Demo.new_pvt LOCAL_LAUNCHED_PBX (Some 1%nat) (Some 2%nat)) 1%nat
              Sample.owner_chan)
    as (w' & a' & och' & pv' & Hrun & _ & _ & Hoch & Hvar & Hq & _ & Hpv & Hchan & _);
    [sample .. |].
  exists w', och'. split; [exact Hrun |]. split; [exact Hoch |].
  split; [exact Hvar |]. split; [exact Hq |].
  rewrite Hpv. cbn [fmap option_fmap option_map]. rewrite Hchan. reflexivity.
Defined.


Lemma local_call_no_extension_witness :
  exists w',
    local_call (H := Demo.asterisk) [] 1%nat "2000@internal" 0 Sample.stray
      = Ret (-1, []) w' /\
    trace w' = [ev_cdr_update 2%nat; ev_cc_params_init 2%nat 1%nat; ev_log LOG_NOTICE] /\
    flags <$> pvts w' !! 7%nat = Some 0.
Proof.
  destruct (local_call_no_extension (H := Demo.asterisk) [] "2000@internal" 0 Sample.stray
              1%nat Sample.owner_chan 7%nat (Demo.new_pvt 0 (Some 1%nat) (Some 2%nat))
              2%nat
              (mk_chan (Some 7%nat) None [] false None None
                 (mk_caller Demo.no_party Demo.no_party)
                 (mk_connected Demo.no_party Demo.no_party)
                 (mk_redirecting Demo.no_party Demo.no_party) (mk_dialed None false)
                 "en" EmptyString "default" [] 0 0 AST_STATE_RING "internal" "2000"
                 (mk_mutex O false)))
    as (w' & cch' & Hrun & Hpv & _ & _ & _ & _ & _ & Ht);
    [sample .. |].
  exists w'. split; [exact Hrun |]. split; [exact Ht |]. rewrite Hpv. reflexivity.
Defined.

Lemma local_call_starts_pbx_witness :
  exists w',
    local_call (H := Demo.asterisk) [] 1%nat "1000@internal/n" 0 (Sample.call 0)
      = Ret (0, []) w' /\
    flags <$> pvts w' !! 7%nat = Some LOCAL_LAUNCHED_PBX /\
    trace w' = [ev_cdr_update 2%nat; ev_cc_params_init 2%nat 1%nat;
                ev_datastore_inherit 1%nat 2%nat;
                ev_set_cc_interfaces 2%nat "1000@internal"; ev_pbx_start 2%nat].
Proof.
  destruct (local_call_starts_pbx (H := Demo.asterisk) [] "1000@internal/n" 0
              (Sample.call 0) 1%nat Sample.owner_chan 7%nat
              (Demo.new_pvt 0 (Some 1%nat) (Some 2%nat)) 2%nat Sample.outbound_chan 0)
    as (w' & pv' & cch' & Hrun & Hpv & _ & _ & _ & _ & _ & _ & _ & Ht);
    [sample .. |].
  exists w'. split; [exact Hrun |]. split; [| exact Ht].
  vm_compute in Hrun. injection Hrun as <-. reflexivity.
Defined.

Lemma local_call_inherits_witness :
  exists w' cch',
    local_call (H := Demo.asterisk) [] 1%nat "1000@internal/n" 0 (Sample.call 0)
      = Ret (0, []) w' /\
    chans w' !! 2%nat = Some cch' /\
    varshead cch' = [("DIALSTATUS", "ANSWER"); ("FOO", "bar")] /\
    language cch' = "fr" /\
    caller cch' = mk_caller (mk_party_id false true "200" false) Demo.no_party.
Proof.
  destruct (local_call_inherits (H := Demo.asterisk) [] "1000@internal/n" 0
              (Sample.call 0) 1%nat Sample.owner_chan 7%nat
              (Demo.new_pvt 0 (Some 1%nat) (Some 2%nat)) 2%nat Sample.outbound_chan 0)
    as (w' & cch' & Hrun & _ & Hcch & Hvars & _ & _ & _ & Hcaller & _ & Hlang & _);
    [sample .. |].
  exists w', cch'. auto.
Defined.

Lemma manager_optimize_away_refuses_witness :
  manager_optimize_away Sample.ast_channel_get_by_name Sample.AST_LIST_LOCK
    "SIP/alice-0001" (Demo.call LOCAL_NO_OPTIMIZATION)
  = Ret (0, astman_send_error "Unable to find channel") (Demo.call LOCAL_NO_OPTIMIZATION).
Proof.
  destruct (manager_optimize_away_refuses Sample.ast_channel_get_by_name
              Sample.AST_LIST_LOCK "SIP/alice-0001" (Demo.call LOCAL_NO_OPTIMIZATION))
    as (_ & _ & Hfound).
  destruct (Hfound 3%nat (Demo.new_chan None (Some 1%nat))) as (_ & Habsent);
    [sample .. |].
  apply Habsent; [reflexivity |]. intros p Hp. discriminate Hp.
Defined.

Lemma manager_optimize_away_clears_witness :
  exists w',
    manager_optimize_away Sample.ast_channel_get_by_name Sample.AST_LIST_LOCK
      "Local/1000@internal-0001;1" (Demo.call LOCAL_NO_OPTIMIZATION)
    = Ret (0, astman_send_ack "Queued channel to be optimized away") w' /\
    flags <$> pvts w' !! 7%nat = Some 0 /\
    chans w' = chans (Demo.call LOCAL_NO_OPTIMIZATION).
Proof.
  destruct (manager_optimize_away_clears Sample.ast_channel_get_by_name
              Sample.AST_LIST_LOCK "Local/1000@internal-0001;1"
              (Demo.call LOCAL_NO_OPTIMIZATION) 1%nat
              (Demo.new_chan (Some 7%nat) (Some 3%nat)) 7%nat
              (Demo.new_pvt LOCAL_NO_OPTIMIZATION (Some 1%nat) (Some 2%nat)))
    as (w' & pv' & Hrun & Hpv & Hflags & _ & _ & _ & _ & _ & Hchans & _);
    [sample | sample | sample | sample | | sample | sample |].
  - vm_compute. left.
  - exists w'. split; [exact Hrun |]. split; [| exact Hchans].
    rewrite Hpv. cbn [fmap option_fmap option_map]. rewrite Hflags. reflexivity.
Defined.

Lemma local_alloc_keeps_devicestate_witness :
  exists w1,
    local_devicestate (H := Demo.asterisk) "1000@internal" (Demo.call 0)
      = Ret AST_DEVICE_INUSE (Demo.call 0) /\
    local_alloc (H := Demo.asterisk) "2000@internal/n" 0 (Demo.call 0)
      = Ret (Some 8%nat) w1 /\
    locals w1 = [8%nat; 7%nat] /\
    local_devicestate (H := Demo.asterisk) "1000@internal" w1 = Ret AST_DEVICE_INUSE w1.
Proof.
  destruct (local_alloc_keeps_devicestate (H := Demo.asterisk) "2000@internal/n" 0
              "1000@internal" (Demo.call 0) 8%nat "1000" "internal")
    as (r & w1 & Hbefore & Hrun & Hlocals & _ & Hafter);
    [| sample .. |].
  - intros p Hp. apply list_elem_of_singleton in Hp as ->. vm_compute. eauto.
  - assert (Hr : r = AST_DEVICE_INUSE).
    { vm_compute in Hbefore. injection Hbefore as <-. reflexivity. }
    subst r. exists w1. auto.
Defined.
